(** * Sandwich-Daemon: the shard state machine, dispatch pipeline,
      member chunking and shard-group creation, embedded from the Go source.

    The Go code is stateful and talks to a websocket, a token-bucket
    registry, a message bus and timers.  The embedding threads one [World]
    (shard, manager, shard group, heap of shared objects, trace of outward
    effects) through a small state monad.  Everything the outside decides
    (does the dial succeed, what does the next read return, which case of a
    [select] fires) is read from the [Env] interface, indexed by how many
    calls of that kind were made before.

    Logger calls and operator webhooks ([PublishWebhook]) are observability
    only; they never feed back into the state and are left out.  Trace
    timestamps on payloads ([AddTrace]) are left out for the same reason. *)

From Stdlib Require Import ZArith String List Lia Bool DecimalString.
From stdpp Require Import base gmap strings list.
Local Open Scope Z_scope.

(** ** Go runtime notions used by the source *)
Module Go.

(** Two's-complement wrap-around of [int32] and [int64] arithmetic. *)
Definition wrap (bits : Z) (z : Z) : Z :=
  (z + 2 ^ (bits - 1)) mod 2 ^ bits - 2 ^ (bits - 1).
Definition wrap32 : Z -> Z := wrap 32.
Definition wrap64 : Z -> Z := wrap 64.

(** The verb [%d] of [fmt.Sprintf] and [strconv.Itoa]. *)
Definition itoa (z : Z) : string := NilZero.string_of_int (Z.to_int z).

(** [time.Duration] is an [int64] count of nanoseconds. *)
Definition Duration := Z.
Definition Nanosecond : Duration := 1.
Definition Millisecond : Duration := 1000000.
Definition Second : Duration := 1000000000.
Definition Minute : Duration := 60 * Second.

(** Error values.  [Wrapf] is [xerrors.Errorf("prefix: %w", inner)]; the
    leaves are the sentinels and error structs the source inspects.
    [CloseError] is a [websocket.CloseError] value, which is what the
    websocket library wraps when it has read a close frame;
    [CloseErrorPointer] is a [*websocket.CloseError]. *)
Inductive error : Type :=
| ContextCanceled
| ContextDeadlineExceeded
| CloseError (code : Z) (reason : string)
| CloseErrorPointer (code : Z) (reason : string)
| ErrorString (msg : string)
| Wrapf (prefix : string) (inner : error).

(** [xerrors.Is(err, context.Canceled)]: walk the wrapping chain. *)
Fixpoint Is_Canceled (e : error) : bool :=
  match e with
  | ContextCanceled => true
  | Wrapf _ inner => Is_Canceled inner
  | _ => false
  end.

Fixpoint Is_DeadlineExceeded (e : error) : bool :=
  match e with
  | ContextDeadlineExceeded => true
  | Wrapf _ inner => Is_DeadlineExceeded inner
  | _ => false
  end.

(** [errors.As(err, &closeError)] with [closeError] a
    [*websocket.CloseError]: the code of the first error in the chain
    whose type is that pointer type.  A [websocket.CloseError] value is
    not assignable to it and is passed over. *)
Fixpoint As_CloseError (e : error) : option Z :=
  match e with
  | CloseErrorPointer code _ => Some code
  | Wrapf _ inner => As_CloseError inner
  | _ => None
  end.

(** The code of the close frame a read error reports: the
    [websocket.CloseError] value in its chain. *)
Fixpoint close_frame_code (e : error) : option Z :=
  match e with
  | CloseError code _ => Some code
  | Wrapf _ inner => close_frame_code inner
  | _ => None
  end.

End Go.
Import Go.

(** ** Protocol constants and payloads (package [discord]) *)

(** Modelled from the spec: the gateway opcodes; package [discord] is not
    among the sources, section 6 of the spec lists the numbers. *)
Definition GatewayOpDispatch : Z := 0.
Definition GatewayOpHeartbeat : Z := 1.
Definition GatewayOpIdentify : Z := 2.
Definition GatewayOpStatusUpdate : Z := 3.
Definition GatewayOpVoiceStateUpdate : Z := 4.
Definition GatewayOpResume : Z := 6.
Definition GatewayOpReconnect : Z := 7.
Definition GatewayOpRequestGuildMembers : Z := 8.
Definition GatewayOpInvalidSession : Z := 9.
Definition GatewayOpHello : Z := 10.
Definition GatewayOpHeartbeatACK : Z := 11.

(** [websocket.StatusNormalClosure]. *)
Definition StatusNormalClosure : Z := 1000.

(** [discord.ReceivedPayload]: opcode, raw [d] bytes, sequence [s], type [t]. *)
Record ReceivedPayload : Type := mkReceived {
  rp_Op : Z;
  rp_Data : string;
  rp_Sequence : Z;
  rp_Type : string
}.

(** The zero value a failed [readMessage] hands back next to its error. *)
Definition zeroReceived : ReceivedPayload := mkReceived 0 "" 0 "".

Record Resume : Type := mkResume {
  res_Token : string;
  res_SessionID : string;
  res_Sequence : Z
}.

Record Identify : Type := mkIdentify {
  id_Token : string;
  id_OS : string;
  id_Browser : string;
  id_Device : string;
  id_Compress : bool;
  id_LargeThreshold : Z;
  id_Shard : Z * Z;
  id_Presence : option string;
  id_GuildSubscriptions : bool;
  id_Intents : Z
}.

Record RequestGuildMembers : Type := mkRequestGuildMembers {
  rgm_GuildID : Z;
  rgm_Query : string;
  rgm_Limit : Z
}.

(** What the source stores in [SentPayload.Data] (an [interface{}]). *)
Inductive SentData : Type :=
| DataInt64 (n : Z)
| DataResume (r : Resume)
| DataIdentify (i : Identify)
| DataRequestGuildMembers (r : RequestGuildMembers)
| DataRaw (bytes : string).

Record SentPayload : Type := mkSent {
  sp_Op : Z;
  sp_Data : SentData
}.

(** A Go [interface{}] value as [WriteJSON] receives it: a dynamic type
    together with its value. *)
Inductive iface : Type :=
| I_GatewayOp (op : Z)
| I_SentPayload (p : SentPayload).

(** [i != c] for an interface [i] and a constant [c] of type
    [discord.GatewayOp]: equal only when the dynamic type of [i] is
    [GatewayOp] and the values agree. *)
Definition iface_neq_GatewayOp (i : iface) (c : Z) : bool :=
  match i with
  | I_GatewayOp op => negb (op =? c)
  | I_SentPayload _ => true
  end.

(** ** Statuses (package [structs]) *)

Inductive ShardStatus : Type :=
| ShardIdle | ShardWaiting | ShardConnecting | ShardConnected
| ShardReady | ShardReconnecting | ShardClosed.

Inductive ShardGroupStatus : Type :=
| ShardGroupIdle | ShardGroupStarting | ShardGroupConnecting
| ShardGroupReady | ShardGroupReplaced | ShardGroupClosed | ShardGroupError.

(** What a published [SandwichPayload] carries. *)
Inductive PublishData : Type :=
| PubStatusUpdate (shard : Z) (status : ShardStatus)
| PubResult (data : string).

Record SandwichPayload : Type := mkPacket {
  pk_msg : ReceivedPayload;
  pk_Data : PublishData;
  pk_Extra : string;
  pk_Version : string;
  pk_Identifier : string
}.

(** ** Constants of the shard source *)

Definition identifyRatelimit : Duration := 5 * Second + 500 * Millisecond.
Definition reconnectCloseCode : Z := 4000.
(** An untyped constant; it takes the type [time.Duration] where [Reconnect]
    compares it with [wait], hence it counts nanoseconds. *)
Definition maxReconnectWait : Z := 600.
Definition gatewayConnectTimeout : Z := 5.
Definition initialMemberChunkTimeout : Duration := 10 * Second.
Definition memberChunkTimeout : Duration := 1 * Second.
Definition chunkStatePersistTimeout : Duration := 10 * Second.

(** ** The outside world *)

Inductive ReadResult : Type :=
| ReadBlocks
| ReadError (e : error)
| ReadMessage (m : ReceivedPayload).

(** The three cases of the [select] that ends [Connect]. *)
Inductive FirstEvent : Type :=
| FirstError (e : error)
| FirstMessage (m : ReceivedPayload)
| FirstTimeout.

(** The six close codes after which the gateway must not be retried
    (constants of package [discord], not among the sources). *)
Record CloseCodes : Type := mkCloseCodes {
  CloseNotAuthenticated : Z;
  CloseInvalidShard : Z;
  CloseShardingRequired : Z;
  CloseInvalidAPIVersion : Z;
  CloseInvalidIntents : Z;
  CloseDisallowedIntents : Z
}.

(** Collaborators and scripted behaviour of the environment.  The [nat]
    argument of a scripted result is the number of earlier calls of the
    same kind. *)
Class Env : Type := mkEnv {
  codes : CloseCodes;
  GOOS : string;
  VERSION : string;
  (** [QuickHash(token)]. *)
  QuickHash : string -> error + string;
  (** The error of [json.Marshal], if any. *)
  marshal_error : iface -> option error;
  (** [json.Get(data, "d").ToBool()]. *)
  json_Get_d_ToBool : string -> bool;
  (** [hello.HeartbeatInterval] after [decodeContent] (zero when it fails). *)
  decode_HeartbeatInterval : string -> Z;
  (** The error of [decodeContent(msg, &hello)], if any. *)
  decode_Hello_error : string -> option error;
  (** [err.Error()] of a websocket close error. *)
  CloseError_Error : Z -> string -> string;
  (** The code with which a closing shard group closes its shards. *)
  groupCloseCode : Z;
  (** [Sandwich.StateDispatch]: transformed data, extra, [ok], error. *)
  StateDispatch : ReceivedPayload -> string * string * bool * option error;
  dial_result : nat -> option error;
  write_result : nat -> option error;
  read_result : nat -> ReadResult;
  first_event : nat -> FirstEvent;
  publish_result : nat -> option error;
  (** For the n-th chunk flow: [None] when no chunk signal precedes the
      first tick of the initial ticker, [Some k] when one does and [k] more
      arrive, each before the idle ticker fires. *)
  chunk_signals : nat -> option nat
}.

(** [err.Error()]. *)
Fixpoint Error_ `{Env} (e : error) : string :=
  match e with
  | ContextCanceled => "context canceled"
  | ContextDeadlineExceeded => "context deadline exceeded"
  | CloseError code reason => CloseError_Error code reason
  | CloseErrorPointer code reason => CloseError_Error code reason
  | ErrorString msg => msg
  | Wrapf prefix inner => prefix +:+ ": " +:+ Error_ inner
  end.

(** ** State *)

Record Shard : Type := mkShard {
  sh_Status : ShardStatus;
  sh_ShardID : Z;
  sh_ctx_done : bool;
  sh_wsConn : option nat;
  sh_HeartbeatActive : bool;
  sh_HeartbeatInterval : Duration;
  sh_MaxHeartbeatFailures : Duration;
  sh_Retries : Z;
  sh_seq : Z;
  sh_sessionID : string
}.

Record Bucket : Type := mkBucket { bk_limit : Z; bk_per : Duration }.

Record Manager : Type := mkManager {
  mg_Token : string;
  mg_Identifier : string;
  mg_ChannelName : string;
  mg_Retries : Z;
  mg_MaxHeartbeatFailures : Z;
  mg_Compression : bool;
  mg_LargeThreshold : Z;
  mg_DefaultPresence : option string;
  mg_GuildSubscriptions : bool;
  mg_Intents : Z;
  mg_GatewayURL : string;
  mg_MaxConcurrency : Z;
  mg_Remaining : Z;
  mg_EventBlacklist : list string;
  mg_ProduceBlacklist : list string;
  mg_ProducerClient : bool;
  mg_Buckets : gmap string Bucket
}.

(** The three per-guild maps hold pointers; [nat] values are addresses into
    the heaps of [World]. *)
Record ShardGroup : Type := mkShardGroup {
  grp_ID : Z;
  grp_ShardCount : Z;
  grp_Error : string;
  grp_Status : ShardGroupStatus;
  grp_MemberChunksComplete : gmap Z nat;
  grp_MemberChunksCallback : gmap Z nat;
  grp_MemberChunkCallbacks : gmap Z nat
}.

Record Counters : Type := mkCounters {
  n_dial : nat;
  n_write : nat;
  n_read : nat;
  n_first : nat;
  n_publish : nat;
  n_flow : nat
}.

Inductive BucketStore : Type := ManagerBuckets | SandwichBuckets.

(** A goroutine started with a delay. *)
Inductive Task : Type :=
| TaskCleanGuildChunks (guild : Z).

(** Outward effects, in the order the code performs them. *)
Inductive Event : Type :=
| EvCreateBucket (store : BucketStore) (name : string) (limit : Z) (per : Duration)
| EvWaitForBucket (store : BucketStore) (name : string)
| EvResetBucket (store : BucketStore) (name : string)
| EvDial (url : string)
| EvWsWrite (conn : nat) (frame : iface)
| EvWsClose (conn : nat) (code : Z)
| EvSleep (d : Duration)
| EvPublish (channel : string) (packet : SandwichPayload)
| EvStateDispatch (msg : ReceivedPayload)
| EvGoHeartbeat
| EvGoDispatch (msg : ReceivedPayload)
| EvRequeue (msg : ReceivedPayload)
| EvGroupClose
| EvNewTicker (d : Duration)
| EvTickerReset (d : Duration)
| EvChunkSignal
| EvTick (d : Duration)
| EvChunkTicket
| EvChunkTicketFree
| EvGoChunkGuild (guild : Z)
| EvGoAfter (d : Duration) (task : Task).

Record World : Type := mkWorld {
  w_shard : Shard;
  w_manager : Manager;
  w_group : ShardGroup;
  w_sandwichBuckets : gmap string Bucket;
  w_abools : list bool;
  w_waitgroups : list Z;
  w_chans : list bool;
  w_counters : Counters;
  w_trace : list Event
}.

(** *** Field updates *)

Definition upd_shard (f : Shard -> Shard) (w : World) : World :=
  mkWorld (f (w_shard w)) (w_manager w) (w_group w) (w_sandwichBuckets w)
    (w_abools w) (w_waitgroups w) (w_chans w) (w_counters w) (w_trace w).
Definition upd_manager (f : Manager -> Manager) (w : World) : World :=
  mkWorld (w_shard w) (f (w_manager w)) (w_group w) (w_sandwichBuckets w)
    (w_abools w) (w_waitgroups w) (w_chans w) (w_counters w) (w_trace w).
Definition upd_group (f : ShardGroup -> ShardGroup) (w : World) : World :=
  mkWorld (w_shard w) (w_manager w) (f (w_group w)) (w_sandwichBuckets w)
    (w_abools w) (w_waitgroups w) (w_chans w) (w_counters w) (w_trace w).
Definition upd_sandwichBuckets (f : gmap string Bucket -> gmap string Bucket)
    (w : World) : World :=
  mkWorld (w_shard w) (w_manager w) (w_group w) (f (w_sandwichBuckets w))
    (w_abools w) (w_waitgroups w) (w_chans w) (w_counters w) (w_trace w).
Definition upd_abools (f : list bool -> list bool) (w : World) : World :=
  mkWorld (w_shard w) (w_manager w) (w_group w) (w_sandwichBuckets w)
    (f (w_abools w)) (w_waitgroups w) (w_chans w) (w_counters w) (w_trace w).
Definition upd_waitgroups (f : list Z -> list Z) (w : World) : World :=
  mkWorld (w_shard w) (w_manager w) (w_group w) (w_sandwichBuckets w)
    (w_abools w) (f (w_waitgroups w)) (w_chans w) (w_counters w) (w_trace w).
Definition upd_chans (f : list bool -> list bool) (w : World) : World :=
  mkWorld (w_shard w) (w_manager w) (w_group w) (w_sandwichBuckets w)
    (w_abools w) (w_waitgroups w) (f (w_chans w)) (w_counters w) (w_trace w).
Definition upd_counters (f : Counters -> Counters) (w : World) : World :=
  mkWorld (w_shard w) (w_manager w) (w_group w) (w_sandwichBuckets w)
    (w_abools w) (w_waitgroups w) (w_chans w) (f (w_counters w)) (w_trace w).
Definition upd_trace (f : list Event -> list Event) (w : World) : World :=
  mkWorld (w_shard w) (w_manager w) (w_group w) (w_sandwichBuckets w)
    (w_abools w) (w_waitgroups w) (w_chans w) (w_counters w) (f (w_trace w)).

Definition with_Status (v : ShardStatus) (s : Shard) : Shard :=
  mkShard v (sh_ShardID s) (sh_ctx_done s) (sh_wsConn s) (sh_HeartbeatActive s)
    (sh_HeartbeatInterval s) (sh_MaxHeartbeatFailures s) (sh_Retries s)
    (sh_seq s) (sh_sessionID s).
Definition with_ctx_done (v : bool) (s : Shard) : Shard :=
  mkShard (sh_Status s) (sh_ShardID s) v (sh_wsConn s) (sh_HeartbeatActive s)
    (sh_HeartbeatInterval s) (sh_MaxHeartbeatFailures s) (sh_Retries s)
    (sh_seq s) (sh_sessionID s).
Definition with_wsConn (v : option nat) (s : Shard) : Shard :=
  mkShard (sh_Status s) (sh_ShardID s) (sh_ctx_done s) v (sh_HeartbeatActive s)
    (sh_HeartbeatInterval s) (sh_MaxHeartbeatFailures s) (sh_Retries s)
    (sh_seq s) (sh_sessionID s).
Definition with_HeartbeatActive (v : bool) (s : Shard) : Shard :=
  mkShard (sh_Status s) (sh_ShardID s) (sh_ctx_done s) (sh_wsConn s) v
    (sh_HeartbeatInterval s) (sh_MaxHeartbeatFailures s) (sh_Retries s)
    (sh_seq s) (sh_sessionID s).
Definition with_Heartbeat (interval maxfail : Duration) (s : Shard) : Shard :=
  mkShard (sh_Status s) (sh_ShardID s) (sh_ctx_done s) (sh_wsConn s)
    (sh_HeartbeatActive s) interval maxfail (sh_Retries s)
    (sh_seq s) (sh_sessionID s).
Definition with_Retries (v : Z) (s : Shard) : Shard :=
  mkShard (sh_Status s) (sh_ShardID s) (sh_ctx_done s) (sh_wsConn s)
    (sh_HeartbeatActive s) (sh_HeartbeatInterval s) (sh_MaxHeartbeatFailures s)
    v (sh_seq s) (sh_sessionID s).
Definition with_seq (v : Z) (s : Shard) : Shard :=
  mkShard (sh_Status s) (sh_ShardID s) (sh_ctx_done s) (sh_wsConn s)
    (sh_HeartbeatActive s) (sh_HeartbeatInterval s) (sh_MaxHeartbeatFailures s)
    (sh_Retries s) v (sh_sessionID s).
Definition with_sessionID (v : string) (s : Shard) : Shard :=
  mkShard (sh_Status s) (sh_ShardID s) (sh_ctx_done s) (sh_wsConn s)
    (sh_HeartbeatActive s) (sh_HeartbeatInterval s) (sh_MaxHeartbeatFailures s)
    (sh_Retries s) (sh_seq s) v.

Definition with_Remaining (v : Z) (m : Manager) : Manager :=
  mkManager (mg_Token m) (mg_Identifier m) (mg_ChannelName m) (mg_Retries m)
    (mg_MaxHeartbeatFailures m) (mg_Compression m) (mg_LargeThreshold m)
    (mg_DefaultPresence m) (mg_GuildSubscriptions m) (mg_Intents m)
    (mg_GatewayURL m) (mg_MaxConcurrency m) v (mg_EventBlacklist m)
    (mg_ProduceBlacklist m) (mg_ProducerClient m) (mg_Buckets m).
Definition with_Buckets (v : gmap string Bucket) (m : Manager) : Manager :=
  mkManager (mg_Token m) (mg_Identifier m) (mg_ChannelName m) (mg_Retries m)
    (mg_MaxHeartbeatFailures m) (mg_Compression m) (mg_LargeThreshold m)
    (mg_DefaultPresence m) (mg_GuildSubscriptions m) (mg_Intents m)
    (mg_GatewayURL m) (mg_MaxConcurrency m) (mg_Remaining m)
    (mg_EventBlacklist m) (mg_ProduceBlacklist m) (mg_ProducerClient m) v.

Definition with_Error (v : string) (g : ShardGroup) : ShardGroup :=
  mkShardGroup (grp_ID g) (grp_ShardCount g) v (grp_Status g)
    (grp_MemberChunksComplete g) (grp_MemberChunksCallback g)
    (grp_MemberChunkCallbacks g).
Definition with_GroupStatus (v : ShardGroupStatus) (g : ShardGroup) : ShardGroup :=
  mkShardGroup (grp_ID g) (grp_ShardCount g) (grp_Error g) v
    (grp_MemberChunksComplete g) (grp_MemberChunksCallback g)
    (grp_MemberChunkCallbacks g).
Definition upd_MemberChunksComplete (f : gmap Z nat -> gmap Z nat)
    (g : ShardGroup) : ShardGroup :=
  mkShardGroup (grp_ID g) (grp_ShardCount g) (grp_Error g) (grp_Status g)
    (f (grp_MemberChunksComplete g)) (grp_MemberChunksCallback g)
    (grp_MemberChunkCallbacks g).
Definition upd_MemberChunksCallback (f : gmap Z nat -> gmap Z nat)
    (g : ShardGroup) : ShardGroup :=
  mkShardGroup (grp_ID g) (grp_ShardCount g) (grp_Error g) (grp_Status g)
    (grp_MemberChunksComplete g) (f (grp_MemberChunksCallback g))
    (grp_MemberChunkCallbacks g).
Definition upd_MemberChunkCallbacks (f : gmap Z nat -> gmap Z nat)
    (g : ShardGroup) : ShardGroup :=
  mkShardGroup (grp_ID g) (grp_ShardCount g) (grp_Error g) (grp_Status g)
    (grp_MemberChunksComplete g) (grp_MemberChunksCallback g)
    (f (grp_MemberChunkCallbacks g)).

Definition bump_dial (c : Counters) : Counters :=
  mkCounters (S (n_dial c)) (n_write c) (n_read c) (n_first c) (n_publish c) (n_flow c).
Definition bump_write (c : Counters) : Counters :=
  mkCounters (n_dial c) (S (n_write c)) (n_read c) (n_first c) (n_publish c) (n_flow c).
Definition bump_read (c : Counters) : Counters :=
  mkCounters (n_dial c) (n_write c) (S (n_read c)) (n_first c) (n_publish c) (n_flow c).
Definition bump_first (c : Counters) : Counters :=
  mkCounters (n_dial c) (n_write c) (n_read c) (S (n_first c)) (n_publish c) (n_flow c).
Definition bump_publish (c : Counters) : Counters :=
  mkCounters (n_dial c) (n_write c) (n_read c) (n_first c) (S (n_publish c)) (n_flow c).
Definition bump_flow (c : Counters) : Counters :=
  mkCounters (n_dial c) (n_write c) (n_read c) (n_first c) (n_publish c) (S (n_flow c)).

(** ** The monad: state, plus the ways a call fails to return *)

Inductive Halt : Type :=
| Blocked
| Panic (msg : string)
| OutOfFuel.

Inductive Outcome (A : Type) : Type :=
| Done (a : A) (w : World)
| Halted (h : Halt) (w : World).
Arguments Done {A} a w.
Arguments Halted {A} h w.

Definition M (A : Type) : Type := World -> Outcome A.

Definition ret {A} (a : A) : M A := fun w => Done a w.
Definition bind {A B} (m : M A) (k : A -> M B) : M B :=
  fun w => match m w with
           | Done a w' => k a w'
           | Halted h w' => Halted h w'
           end.
Definition get : M World := fun w => Done w w.
Definition modify (f : World -> World) : M unit := fun w => Done tt (f w).
Definition halt {A} (h : Halt) : M A := fun w => Halted h w.

(** A panic in [m] runs the deferred [d] on its way out. *)
Definition on_panic {A} (d : M unit) (m : M A) : M A :=
  fun w => match m w with
           | Halted (Panic msg) w' =>
               match d w' with
               | Done _ w'' => Halted (Panic msg) w''
               | Halted h w'' => Halted h w''
               end
           | o => o
           end.
Definition emit (e : Event) : M unit := modify (upd_trace (fun t => t ++ [e])).

Declare Scope go_scope.
Delimit Scope go_scope with go.
Notation "x <- m ;; k" := (bind m (fun x => k))
  (at level 100, m at next level, k at level 200, right associativity) : go_scope.
Notation "m ;; k" := (bind m (fun _ => k))
  (at level 100, k at level 200, right associativity) : go_scope.
Local Open Scope go_scope.

(** Writes of single fields. *)
Definition set_Status (v : ShardStatus) : M unit := modify (upd_shard (with_Status v)).
Definition set_ctx_done (v : bool) : M unit := modify (upd_shard (with_ctx_done v)).
Definition set_wsConn (v : option nat) : M unit := modify (upd_shard (with_wsConn v)).
Definition set_HeartbeatActive (v : bool) : M unit :=
  modify (upd_shard (with_HeartbeatActive v)).
Definition set_Heartbeat (interval maxfail : Duration) : M unit :=
  modify (upd_shard (with_Heartbeat interval maxfail)).
Definition set_Retries (v : Z) : M unit := modify (upd_shard (with_Retries v)).
Definition set_seq (v : Z) : M unit := modify (upd_shard (with_seq v)).
Definition set_sessionID (v : string) : M unit := modify (upd_shard (with_sessionID v)).
Definition set_Remaining (v : Z) : M unit := modify (upd_manager (with_Remaining v)).
Definition set_GroupError (v : string) : M unit := modify (upd_group (with_Error v)).
Definition set_GroupStatus (v : ShardGroupStatus) : M unit :=
  modify (upd_group (with_GroupStatus v)).
Definition count (bump : Counters -> Counters) : M unit := modify (upd_counters bump).

(** [if err != nil { return xerrors.Errorf("prefix: %w", err) }; return nil]. *)
Definition wrap_err (prefix : string) (err : option error) : option error :=
  match err with
  | Some e => Some (Wrapf prefix e)
  | None => None
  end.

(** The world in which an outcome leaves the program. *)
Definition final {A} (o : Outcome A) : World :=
  match o with Done _ w => w | Halted _ w => w end.

(** The events a run added to the trace. *)
Definition emitted {A} (w : World) (o : Outcome A) : list Event :=
  drop (length (w_trace w)) (w_trace (final o)).

(** ** Errors declared by the gateway package ([errors.go]) *)

Definition ErrSessionLimitExhausted : error :=
  ErrorString "the session limit has been reached".
Definition ErrChunkTimeout : error :=
  ErrorString "timed out on initial member chunks".

(** ** The shard *)
Section ShardModel.
Context `{Env}.

(** *** Token buckets (package [bucketstore], not among the sources) *)

Definition bucket_name_ws (w : World) : string :=
  "ws:" +:+ itoa (sh_ShardID (w_shard w)) +:+ ":"
        +:+ itoa (grp_ShardCount (w_group w)).

Definition bucket_name_gw (hash : string) (concurrencyBucket : Z) : string :=
  "gw:" +:+ hash +:+ ":" +:+ itoa concurrencyBucket.

Definition insert_new (name : string) (b : Bucket)
    (m : gmap string Bucket) : gmap string Bucket :=
  match m !! name with
  | Some _ => m
  | None => <[name := b]> m
  end.

(** Modelled from the spec: [CreateBucket] registers [(limit, per)] under
    the name; creating an existing bucket is a no-op. *)
Definition CreateBucket (store : BucketStore) (name : string)
    (limit : Z) (per : Duration) : M unit :=
  emit (EvCreateBucket store name limit per) ;;
  match store with
  | ManagerBuckets =>
      modify (upd_manager (fun m =>
        with_Buckets (insert_new name (mkBucket limit per) (mg_Buckets m)) m))
  | SandwichBuckets =>
      modify (upd_sandwichBuckets (insert_new name (mkBucket limit per)))
  end.

(** Modelled from the spec: [WaitForBucket] returns once a slot of the
    bucket is free and takes it.  Both callers only log its error. *)
Definition WaitForBucket (store : BucketStore) (name : string) : M unit :=
  emit (EvWaitForBucket store name).

(** Modelled from the spec: [ResetBucket] clears the used count. *)
Definition ResetBucket (store : BucketStore) (name : string) : M unit :=
  emit (EvResetBucket store name).

(** *** Publishing *)

(** Modelled from the spec: [Shard.PublishEvent] is not among the sources;
    it wraps the packet with the metadata [{version, identifier}] and
    hands it to the Publisher on the manager's channel, whose error it
    returns (sections 4.4 and 4.6). *)
Definition PublishEvent (msg : ReceivedPayload) (data : PublishData)
    (extra : string) : M (option error) :=
  w <- get ;;
  if mg_ProducerClient (w_manager w) then
    emit (EvPublish (mg_ChannelName (w_manager w))
            (mkPacket msg data extra VERSION (mg_Identifier (w_manager w)))) ;;
    count bump_publish ;;
    ret (wrap_err "publishEvent publish" (publish_result (n_publish (w_counters w))))
  else ret (Some (ErrorString "publishEvent publish: No active stanClient")).

Definition SetStatus (status : ShardStatus) : M (option error) :=
  set_Status status ;;
  w <- get ;;
  PublishEvent (mkReceived 0 "" 0 "SHARD_STATUS")
    (PubStatusUpdate (sh_ShardID (w_shard w)) status) "".

(** *** Writing to the socket *)

(** [sh.wsConn.Write(ctx, MessageText, res)]. *)
Definition ws_Write (conn : nat) (frame : iface) : M (option error) :=
  w <- get ;;
  emit (EvWsWrite conn frame) ;;
  count bump_write ;;
  ret (write_result (n_write (w_counters w))).

Definition WriteJSON (op : Z) (i : iface) : M (option error) :=
  match marshal_error i with
  | Some e => ret (Some (Wrapf "writeJSON marshal" e))
  | None =>
      (if iface_neq_GatewayOp i GatewayOpHeartbeat
       then w <- get ;; WaitForBucket ManagerBuckets (bucket_name_ws w)
       else ret tt) ;;
      w <- get ;;
      match sh_wsConn (w_shard w) with
      | Some conn =>
          err <- ws_Write conn i ;;
          ret (wrap_err "writeJSON write" err)
      | None => ret None
      end
  end.

Definition SendEvent (op : Z) (data : SentData) : M (option error) :=
  err <- WriteJSON op (I_SentPayload (mkSent op data)) ;;
  ret (wrap_err "sendEvent writeJson" err).

(** *** Closing *)

Definition CloseWS (statusCode : Z) : M (option error) :=
  w <- get ;;
  match sh_wsConn (w_shard w) with
  | Some conn =>
      emit (EvWsClose conn statusCode) ;;
      set_wsConn None ;;
      ret None
  | None => ret None
  end.

(** [sh.cancel()]: the context is done; the heartbeat goroutine, which
    selects on it, leaves and unsets [HeartbeatActive]. *)
Definition cancel : M unit :=
  set_ctx_done true ;;
  set_HeartbeatActive false.

Definition Close (code : Z) : M unit :=
  cancel ;;
  w <- get ;;
  (match sh_wsConn (w_shard w) with
   | Some _ => CloseWS code ;; ret tt
   | None => ret tt
   end) ;;
  SetStatus ShardClosed ;;
  ret tt.

(** *** Handshake *)

Definition Resume_ : M (option error) :=
  w <- get ;;
  SendEvent GatewayOpResume
    (DataResume (mkResume (mg_Token (w_manager w))
                   (sh_sessionID (w_shard w)) (sh_seq (w_shard w)))).

(** The body of the IDENTIFY payload. *)
Definition identify_data (w : World) : Identify :=
  let mg := w_manager w in
  mkIdentify (mg_Token mg) GOOS
    ("Sandwich " +:+ VERSION) ("Sandwich " +:+ VERSION)
    (mg_Compression mg) (mg_LargeThreshold mg)
    (sh_ShardID (w_shard w), grp_ShardCount (w_group w))
    (mg_DefaultPresence mg) (mg_GuildSubscriptions mg) (mg_Intents mg).

Definition Identify_ : M (option error) :=
  w0 <- get ;;
  set_Remaining (wrap64 (mg_Remaining (w_manager w0) - 1)) ;;
  w <- get ;;
  let mg := w_manager w in
  match QuickHash (mg_Token mg) with
  | inl e => ret (Some e)
  | inr hash =>
      if mg_MaxConcurrency mg =? 0 then halt (Panic "integer divide by zero")
      else
        WaitForBucket SandwichBuckets
          (bucket_name_gw hash (Z.rem (sh_ShardID (w_shard w)) (mg_MaxConcurrency mg))) ;;
        SendEvent GatewayOpIdentify (DataIdentify (identify_data w))
  end.

(** [websocket.Dial] inside [FeedWebsocket]; the connection is named by
    the number of the dial that made it.  The reader goroutine it starts
    is the source of [read_result] and [first_event]. *)
Definition FeedWebsocket (u : string) : M (option error) :=
  w <- get ;;
  emit (EvDial u) ;;
  count bump_dial ;;
  match dial_result (n_dial (w_counters w)) with
  | Some e => ret (wrap_err "failed to connect to websocket" (Some e))
  | None =>
      set_wsConn (Some (n_dial (w_counters w))) ;;
      ret None
  end.

Definition readMessage : M (error + ReceivedPayload) :=
  w <- get ;;
  match read_result (n_read (w_counters w)) with
  | ReadBlocks => halt Blocked
  | ReadError e => count bump_read ;; ret (inl e)
  | ReadMessage m => count bump_read ;; ret (inr m)
  end.

(** The heartbeat fields as HELLO sets them, and the new ticker:
    [time.NewTicker] panics when the interval is not positive. *)
Definition hello_heartbeat (data : string) : M unit :=
  w <- get ;;
  let interval := wrap64 (decode_HeartbeatInterval data * Millisecond) in
  set_Heartbeat interval
    (wrap64 (interval * mg_MaxHeartbeatFailures (w_manager w))) ;;
  if interval <=? 0 then halt (Panic "non-positive interval for NewTicker")
  else ret tt.

(** Lines 405 to 441 of [Connect]: IDENTIFY or RESUME. *)
Definition Connect_handshake : M (option error) :=
  w <- get ;;
  let seq := sh_seq (w_shard w) in
  let sessionID := sh_sessionID (w_shard w) in
  if String.eqb sessionID "" || (seq =? 0) then Identify_
  else
    err <- Resume_ ;;
    match err with
    | Some e => ret (Some e)
    | None => SetStatus ShardReady ;; ret None
    end.

(** Lines 443 to 487 of [Connect]: what follows the handshake, given
    its error. *)
Definition Connect_after_handshake (herr : option error) : M (option error) :=
  match herr with
  | Some e => ret (Some e)
  | None =>
    w <- get ;;
    match QuickHash (mg_Token (w_manager w)) with
    | inl e => ret (Some e)
    | inr hash =>
      if mg_MaxConcurrency (w_manager w) =? 0
      then halt (Panic "integer divide by zero")
      else
        ResetBucket ManagerBuckets
          (bucket_name_gw hash
             (Z.rem (sh_ShardID (w_shard w)) (mg_MaxConcurrency (w_manager w)))) ;;
        count bump_first ;;
        match first_event (n_first (w_counters w)) with
        | FirstError e =>
            ret (Some (Wrapf "encountered error whilst connecting" e))
        | FirstMessage m => emit (EvRequeue m) ;; ret None
        | FirstTimeout => ret None
        end
    end
  end.

(** The deferred function of [Connect]: a failed attempt closes the
    socket it holds. *)
Definition Connect_deferred (err : option error) : M (option error) :=
  w' <- get ;;
  match err, sh_wsConn (w_shard w') with
  | Some _, Some _ => CloseWS StatusNormalClosure ;; ret err
  | _, _ => ret err
  end.

(** [Connect] from the dial to the first event.  When the new ticker
    panics, the deferred function runs with the error of [decodeContent]
    in [err]. *)
Definition Connect_dialed (gatewayURL : string) : M (option error) :=
  SetStatus ShardConnecting ;;
  w <- get ;;
  derr <- match sh_wsConn (w_shard w) with
          | None => FeedWebsocket gatewayURL
          | Some _ => ret None
          end ;;
  match derr with
  | Some e => ret (Some e)
  | None =>
    r <- readMessage ;;
    match r with
    | inl e => ret (Some e)
    | inr msg =>
      on_panic (Connect_deferred (decode_Hello_error (rp_Data msg)) ;; ret tt)
        (hello_heartbeat (rp_Data msg)) ;;
      w <- get ;;
      (if sh_HeartbeatActive (w_shard w) then ret tt
       else emit EvGoHeartbeat ;; set_HeartbeatActive true) ;;
      herr <- Connect_handshake ;;
      Connect_after_handshake herr
    end
  end.

(** [Connect] once the send bucket exists: the identify bucket, the dial
    and handshake, and the deferred close. *)
Definition Connect_hashed (token gatewayURL : string) (concurrencyBucket : Z)
    : M (option error) :=
  match QuickHash token with
  | inl e => ret (Some e)
  | inr hash =>
      CreateBucket SandwichBuckets (bucket_name_gw hash concurrencyBucket)
        1 identifyRatelimit ;;
      err <- Connect_dialed gatewayURL ;;
      Connect_deferred err
  end.

Definition Connect : M (option error) :=
  SetStatus ShardWaiting ;;
  w <- get ;;
  let mg := w_manager w in
  if mg_MaxConcurrency mg =? 0 then halt (Panic "integer divide by zero")
  else
    let concurrencyBucket := Z.rem (sh_ShardID (w_shard w)) (mg_MaxConcurrency mg) in
    (if sh_ctx_done (w_shard w) then set_ctx_done false else ret tt) ;;
    CreateBucket ManagerBuckets (bucket_name_ws w) 120 Minute ;;
    Connect_hashed (mg_Token mg) (mg_GatewayURL mg) concurrencyBucket.

(** *** Reconnecting *)

(** The update of [wait] at the end of one round of the loop. *)
Definition next_wait (wait : Duration) : Duration :=
  let doubled := wrap64 (wait * 2) in
  if doubled >? maxReconnectWait then maxReconnectWait else doubled.

Fixpoint Reconnect_loop (fuel : nat) (code : Z) (wait : Duration)
    : M (option error) :=
  match fuel with
  | O => halt OutOfFuel
  | S fuel' =>
      err <- Connect ;;
      match err with
      | None =>
          w <- get ;;
          set_Retries (mg_Retries (w_manager w)) ;;
          ret None
      | Some _ =>
          w <- get ;;
          let retries := wrap32 (sh_Retries (w_shard w) - 1) in
          set_Retries retries ;;
          if retries <=? 0 then
            Close code ;;
            Connect
          else
            emit (EvSleep wait) ;;
            Reconnect_loop fuel' code (next_wait wait)
      end
  end.

Definition Reconnect (fuel : nat) (code : Z) : M (option error) :=
  Close code ;;
  SetStatus ShardReconnecting ;;
  Reconnect_loop fuel code Second.

(** *** Dispatch *)

(** [gotils.StringSliceInclude]. *)
Definition StringSliceInclude (l : list string) (s : string) : bool :=
  existsb (String.eqb s) l.

Definition OnDispatch (msg : ReceivedPayload) : M (option error) :=
  w <- get ;;
  if negb (mg_ProducerClient (w_manager w))
  then ret (Some (ErrorString "no producer client found"))
  else if StringSliceInclude (mg_EventBlacklist (w_manager w)) (rp_Type msg)
  then ret None
  else
    emit (EvStateDispatch msg) ;;
    match StateDispatch msg with
    | (_, _, _, Some e) =>
        ret (Some (Wrapf ("on dispatch failure for " +:+ rp_Type msg) e))
    | (data, extra, ok, None) =>
        if negb ok then ret None
        else if StringSliceInclude (mg_ProduceBlacklist (w_manager w)) (rp_Type msg)
        then ret None
        else PublishEvent msg (PubResult data) extra
    end.

(** *** Events *)

Definition OnEvent (fuel : nat) (msg : ReceivedPayload) : M unit :=
  let store := set_seq (rp_Sequence msg) in
  let op := rp_Op msg in
  if op =? GatewayOpHeartbeat then
    w <- get ;;
    err <- SendEvent GatewayOpHeartbeat (DataInt64 (sh_seq (w_shard w))) ;;
    match err with
    | Some _ => Reconnect fuel StatusNormalClosure ;; ret tt
    | None => store
    end
  else if op =? GatewayOpInvalidSession then
    (if json_Get_d_ToBool (rp_Data msg) then ret tt
     else set_sessionID "" ;; set_seq 0) ;;
    Reconnect fuel reconnectCloseCode ;;
    store
  else if op =? GatewayOpHello then
    hello_heartbeat (rp_Data msg)
  else if op =? GatewayOpReconnect then
    Reconnect fuel reconnectCloseCode ;; ret tt
  else if op =? GatewayOpDispatch then
    emit (EvGoDispatch msg) ;; store
  else if op =? GatewayOpHeartbeatACK then
    ret tt
  else if op =? GatewayOpVoiceStateUpdate then
    store
  else if (op =? GatewayOpIdentify) || (op =? GatewayOpRequestGuildMembers)
          || (op =? GatewayOpResume) || (op =? GatewayOpStatusUpdate) then
    store
  else ret tt.

(** *** The shard group, as far as [Listen] touches it *)

(** Modelled from the spec: [ShardGroup.Close] is not among the sources;
    it cancels the group scope, closes every shard and sets the status
    Closed (section 4.3). *)
Definition ShardGroup_Close : M unit :=
  emit EvGroupClose ;;
  Close groupCloseCode ;;
  set_GroupStatus ShardGroupClosed.

(** Modelled from the spec: [ShardGroup.SetStatus] is not among the
    sources; it stores the status. *)
Definition ShardGroup_SetStatus (status : ShardGroupStatus) : M unit :=
  set_GroupStatus status.

Definition fatal_close_code (code : Z) : bool :=
  (code =? CloseNotAuthenticated codes) || (code =? CloseInvalidShard codes)
  || (code =? CloseShardingRequired codes) || (code =? CloseInvalidAPIVersion codes)
  || (code =? CloseInvalidIntents codes) || (code =? CloseDisallowedIntents codes).

Definition conn_eqb (a b : option nat) : bool :=
  match a, b with
  | Some x, Some y => Nat.eqb x y
  | None, None => true
  | _, _ => false
  end.

(** *** Listening *)

(** The loop of [Listen]; [wsConn] is its local copy of [sh.wsConn].
    After a read error that is not fatal the shard reconnects when the
    connection is still the one the loop knows; otherwise the loop goes
    on with the zero payload that came with the error. *)
Fixpoint Listen_loop (fuel : nat) (wsConn : option nat) : M (option error) :=
  match fuel with
  | O => halt OutOfFuel
  | S fuel' =>
    let handle (msg : ReceivedPayload) : M (option error) :=
      OnEvent fuel' msg ;;
      w' <- get ;;
      Listen_loop fuel' (sh_wsConn (w_shard w')) in
    let not_fatal : M (option error) :=
      w <- get ;;
      if conn_eqb wsConn (sh_wsConn (w_shard w))
      then Reconnect fuel' StatusNormalClosure
      else handle zeroReceived in
    w <- get ;;
    if sh_ctx_done (w_shard w) then ret None
    else
      r <- readMessage ;;
      match r with
      | inr msg => handle msg
      | inl err =>
          if Is_Canceled err || Is_DeadlineExceeded err then ret None
          else
            match As_CloseError err with
            | Some code =>
                if fatal_close_code code then
                  set_GroupError (Error_ err) ;;
                  ShardGroup_Close ;;
                  ShardGroup_SetStatus ShardGroupError ;;
                  ret (Some err)
                else not_fatal
            | None => not_fatal
            end
      end
  end.

Definition Listen (fuel : nat) : M (option error) :=
  w <- get ;;
  Listen_loop fuel (sh_wsConn (w_shard w)).

End ShardModel.

(** ** Guild member chunking *)
Section ChunkModel.
Context `{Env}.

(** [completed.IsSet()] through a pointer into the heap of abools. *)
Definition abool_IsSet (w : World) (a : nat) : bool :=
  match w_abools w !! a with
  | Some b => b
  | None => false
  end.

(** Whether [wg.Wait()] returns: the counter of the wait group is zero. *)
Definition waitgroup_released (w : World) (wg : nat) : bool :=
  match w_waitgroups w !! wg with
  | Some n => n =? 0
  | None => true
  end.

Definition cleanGuildChunks (guildID : Z) : M unit :=
  modify (upd_group (upd_MemberChunksCallback (delete guildID))) ;;
  w <- get ;;
  match grp_MemberChunkCallbacks (w_group w) !! guildID with
  | None => halt (Panic "close of nil channel")
  | Some ch =>
      match w_chans w !! ch with
      | Some false =>
          modify (upd_chans (<[ch := true]>)) ;;
          modify (upd_group (upd_MemberChunkCallbacks (delete guildID))) ;;
          modify (upd_group (upd_MemberChunksComplete (delete guildID)))
      | _ => halt (Panic "close of closed channel")
      end
  end.

(** The [memberChunks] loop: [k] further chunk signals, each resetting
    the idle ticker, then the tick that ends the loop.  Returns
    [receivedMemberChunks]. *)
Fixpoint memberChunks (k : nat) (receivedMemberChunks : Z) : M Z :=
  match k with
  | O => emit (EvTick memberChunkTimeout) ;; ret receivedMemberChunks
  | S k' =>
      emit EvChunkSignal ;;
      emit (EvTickerReset memberChunkTimeout) ;;
      memberChunks k' (receivedMemberChunks + 1)
  end.

(** [chunkGuild] between taking the limiter ticket and freeing it. *)
Definition chunkGuild_flow (guildID : Z) : M (option error) :=
  w <- get ;;
  let completed := length (w_abools w) in
  let chunkCallbacks := length (w_chans w) in
  let wg := length (w_waitgroups w) in
  modify (upd_abools (fun l => l ++ [false])) ;;
  modify (upd_group (upd_MemberChunksComplete (<[guildID := completed]>))) ;;
  modify (upd_chans (fun l => l ++ [false])) ;;
  modify (upd_group (upd_MemberChunkCallbacks (<[guildID := chunkCallbacks]>))) ;;
  modify (upd_waitgroups (fun l => l ++ [1])) ;;
  modify (upd_group (upd_MemberChunksCallback (<[guildID := wg]>))) ;;
  err <- SendEvent GatewayOpRequestGuildMembers
           (DataRequestGuildMembers (mkRequestGuildMembers guildID "" 0)) ;;
  match err with
  | Some e => cleanGuildChunks guildID ;; ret (Some e)
  | None =>
      emit (EvNewTicker initialMemberChunkTimeout) ;;
      w' <- get ;;
      count bump_flow ;;
      match chunk_signals (n_flow (w_counters w')) with
      | None =>
          emit (EvTick initialMemberChunkTimeout) ;;
          cleanGuildChunks guildID ;;
          ret (Some ErrChunkTimeout)
      | Some k =>
          emit EvChunkSignal ;;
          emit (EvTickerReset memberChunkTimeout) ;;
          memberChunks k 1 ;;
          modify (upd_waitgroups (fun l =>
            match l !! wg with
            | Some n => <[wg := n - 1]> l
            | None => l
            end)) ;;
          modify (upd_abools (<[completed := true]>)) ;;
          emit (EvGoAfter chunkStatePersistTimeout (TaskCleanGuildChunks guildID)) ;;
          ret None
      end
  end.

Definition chunkGuild (guildID : Z) (waitForTicket : bool) : M (option error) :=
  if waitForTicket then
    emit EvChunkTicket ;;
    r <- chunkGuild_flow guildID ;;
    emit EvChunkTicketFree ;;
    ret r
  else chunkGuild_flow guildID.

(** What the goroutine of [EvGoAfter] does once its delay has passed. *)
Definition run_task (t : Task) : M unit :=
  match t with
  | TaskCleanGuildChunks guildID => cleanGuildChunks guildID
  end.

(** What [ChunkGuild] finds in the maps. *)
Inductive ChunkDecision : Type :=
| DecideReturn
| DecideWait (chunksCallback : nat)
| DecideChunk.

(** The reads of [ChunkGuild], done under the read locks. *)
Definition ChunkGuild_check (guildID : Z) : M ChunkDecision :=
  w <- get ;;
  match grp_MemberChunksComplete (w_group w) !! guildID with
  | Some completed =>
      if abool_IsSet w completed then ret DecideReturn
      else
        match grp_MemberChunksCallback (w_group w) !! guildID with
        | Some chunksCallback => ret (DecideWait chunksCallback)
        | None => ret DecideReturn
        end
  | None => ret DecideChunk
  end.

(** What [ChunkGuild] does with what it found, after the locks are
    released. *)
Definition ChunkGuild_act (guildID : Z) (wait : bool) (d : ChunkDecision)
    : M (option error) :=
  match d with
  | DecideReturn => ret None
  | DecideWait chunksCallback =>
      w <- get ;;
      if waitgroup_released w chunksCallback then ret None else halt Blocked
  | DecideChunk =>
      if wait then chunkGuild guildID false
      else emit (EvGoChunkGuild guildID) ;; ret None
  end.

Definition ChunkGuild (guildID : Z) (wait : bool) : M (option error) :=
  d <- ChunkGuild_check guildID ;;
  ChunkGuild_act guildID wait d.

(** *** Several callers at once

    A call of [ChunkGuild] holds no lock between its reads and what it
    does next, so another call may run in between.  A schedule names,
    step by step, which call moves. *)
Inductive CallState : Type :=
| CallStart
| CallDecided (d : ChunkDecision)
| CallReturned (r : option error).

Record Call : Type := mkCall {
  call_guild : Z;
  call_wait : bool;
  call_state : CallState
}.

Definition step_call (c : Call) : M Call :=
  match call_state c with
  | CallStart =>
      d <- ChunkGuild_check (call_guild c) ;;
      ret (mkCall (call_guild c) (call_wait c) (CallDecided d))
  | CallDecided (DecideWait chunksCallback) =>
      w <- get ;;
      if waitgroup_released w chunksCallback
      then ret (mkCall (call_guild c) (call_wait c) (CallReturned None))
      else ret c
  | CallDecided d =>
      r <- ChunkGuild_act (call_guild c) (call_wait c) d ;;
      ret (mkCall (call_guild c) (call_wait c) (CallReturned r))
  | CallReturned _ => ret c
  end.

Fixpoint run_schedule (schedule : list nat) (calls : list Call) : M (list Call) :=
  match schedule with
  | [] => ret calls
  | i :: rest =>
      match calls !! i with
      | None => run_schedule rest calls
      | Some c =>
          c' <- step_call c ;;
          run_schedule rest (<[i := c']> calls)
      end
  end.

(** The RequestGuildMembers frames for a guild among some events. *)
Definition is_request_for (guildID : Z) (e : Event) : bool :=
  match e with
  | EvWsWrite _ (I_SentPayload (mkSent op (DataRequestGuildMembers r))) =>
      (op =? GatewayOpRequestGuildMembers) && (rgm_GuildID r =? guildID)
  | _ => false
  end.

Definition requests_for (guildID : Z) (evs : list Event) : nat :=
  length (filter (fun e => is_request_for guildID e = true) evs).

End ChunkModel.

(** ** Creating a shard group over RPC ([rpc.go], [manager.go]) *)
Module RPC.

(** The fields of [discord.GatewayBot] the handler reads. *)
Record GatewayBot : Type := mkGatewayBot {
  gw_Shards : Z;
  gw_Remaining : Z
}.

Record CreateEvent : Type := mkCreateEvent {
  ev_Manager : string;
  ev_AutoShard : bool;
  ev_ShardCount : Z;
  ev_AutoIDs : bool;
  ev_RawShardIDs : string
}.

(** A shard group as [Scale] registers it. *)
Record GroupPlan : Type := mkGroupPlan {
  plan_ShardIDs : list Z;
  plan_ShardCount : Z;
  plan_opened : option (option error)
}.

Record ManagerState : Type := mkManagerState {
  ms_Gateway : GatewayBot;
  ms_ShardGroupIter : Z;
  ms_ShardGroups : gmap Z GroupPlan
}.

Inductive Body : Type :=
| BodyTrue
| BodyText (s : string)
| BodyError (e : error).

(** [passResponse(rw, data, success, status)]. *)
Record Response : Type := mkResponse {
  resp_data : Body;
  resp_success : bool;
  resp_status : Z
}.

Definition StatusOK : Z := 200.
Definition StatusBadRequest : Z := 400.

Section Handler.
(** [json.Unmarshal(req.Data, &event)]. *)
Variable unmarshal : string -> error + CreateEvent.
(** [manager.GetGateway()], by manager name. *)
Variable GetGateway : string -> error + GatewayBot.
(** [ReturnRange], not among the sources. *)
Variable ReturnRange : string -> Z -> list Z.

Definition GenerateShardIDs (shardCount : Z) : list Z :=
  map Z.of_nat (seq 0 (Z.to_nat shardCount)).

(** Modelled from the spec: [ShardGroup.Open] is not among the sources;
    before opening it verifies [|shard_ids| <= remaining] and otherwise
    fails with the session-limit error (section 4.3). *)
Definition ShardGroup_Open (gw : GatewayBot) (shardIDs : list Z) : option error :=
  if Z.of_nat (length shardIDs) <=? gw_Remaining gw then None
  else Some ErrSessionLimitExhausted.

Definition Scale (mg : ManagerState) (shardIDs : list Z) (shardCount : Z)
    (start : bool) : ManagerState * option error :=
  let iter := wrap32 (wrap32 (ms_ShardGroupIter mg + 1) - 1) in
  let opened := if start then Some (ShardGroup_Open (ms_Gateway mg) shardIDs)
                else None in
  (mkManagerState (ms_Gateway mg) (wrap32 (ms_ShardGroupIter mg + 1))
     (<[iter := mkGroupPlan shardIDs shardCount opened]> (ms_ShardGroups mg)),
   match opened with Some r => r | None => None end).

(** [event.ShardCount] once the handler has settled it. *)
Definition plan_count (manager : ManagerState) (event : CreateEvent) : Z :=
  let shardCount :=
    if ev_AutoShard event then gw_Shards (ms_Gateway manager)
    else ev_ShardCount event in
  if shardCount <? 1 then 1 else shardCount.

(** [event.ShardIDs] once the handler has settled them. *)
Definition plan_ids (manager : ManagerState) (event : CreateEvent) : list Z :=
  let shardIDs :=
    if ev_AutoIDs event then GenerateShardIDs (plan_count manager event)
    else ReturnRange (ev_RawShardIDs event) (plan_count manager event) in
  if Z.of_nat (length shardIDs) =? 0 then [0] else shardIDs.

(** The manager after the handler refreshed its gateway, if asked to. *)
Definition refreshed (manager : ManagerState) (event : CreateEvent) : ManagerState :=
  if ev_AutoShard event then
    match GetGateway (ev_Manager event) with
    | inl _ => manager
    | inr gw => mkManagerState gw (ms_ShardGroupIter manager)
                  (ms_ShardGroups manager)
    end
  else manager.

Definition RPCManagerShardGroupCreate (managers : gmap string ManagerState)
    (data : string) : gmap string ManagerState * Response * bool :=
  match unmarshal data with
  | inl err => (managers, mkResponse (BodyError err) false StatusBadRequest, false)
  | inr event =>
    match managers !! ev_Manager event with
    | None =>
        (managers,
         mkResponse (BodyText "Invalid manager provided") false StatusBadRequest,
         false)
    | Some manager =>
      let manager1 := refreshed manager event in
      let shardCount := plan_count manager1 event in
      let shardIDs := plan_ids manager1 event in
      if Z.of_nat (length shardIDs) <? gw_Remaining (ms_Gateway manager1) then
        (<[ev_Manager event := fst (Scale manager1 shardIDs shardCount true)]> managers,
         mkResponse BodyTrue true StatusOK, true)
      else
        (<[ev_Manager event := manager1]> managers,
         mkResponse
           (BodyText ("Not enough sessions to start "
                      +:+ itoa (Z.of_nat (length shardIDs))
                      +:+ " shard(s). "
                      +:+ itoa (gw_Remaining (ms_Gateway manager1))
                      +:+ " remain"))
           false StatusBadRequest,
         true)
    end
  end.

(** Whether the handler started a group: the manager has one more. *)
Definition started (before after : gmap string ManagerState) (name : string) : bool :=
  match before !! name, after !! name with
  | Some b, Some a => negb (ms_ShardGroupIter a =? ms_ShardGroupIter b)
  | _, _ => false
  end.

End Handler.
End RPC.

(** ** Notions used to state the theorems *)

(** [m] keeps the relation [R] between the world it starts in and the
    world it leaves, whether it returns or not. *)
Definition keeps {A} (R : World -> World -> Prop) (m : M A) : Prop :=
  forall w, R w (final (m w)).

(** Whether an event is a pause of the loop of [Reconnect]. *)
Definition is_sleep (e : Event) : bool :=
  match e with EvSleep _ => true | _ => false end.

(** A relation that every write done while connecting and closing
    respects; the pauses of [Reconnect] are asked for apart. *)
Record Frame (R : World -> World -> Prop) : Prop := mkFrame {
  frame_refl : forall w, R w w;
  frame_trans : forall a b c, R a b -> R b c -> R a c;
  frame_emit : forall e w,
    is_sleep e = false -> R w (upd_trace (fun t => t ++ [e]) w);
  frame_count : forall f w, R w (upd_counters f w);
  frame_Status : forall v w, R w (upd_shard (with_Status v) w);
  frame_ctx_done : forall v w, R w (upd_shard (with_ctx_done v) w);
  frame_wsConn : forall v w, R w (upd_shard (with_wsConn v) w);
  frame_HeartbeatActive : forall v w, R w (upd_shard (with_HeartbeatActive v) w);
  frame_Heartbeat : forall i m w, R w (upd_shard (with_Heartbeat i m) w);
  frame_Retries : forall v w, R w (upd_shard (with_Retries v) w);
  frame_Remaining : forall v w, R w (upd_manager (with_Remaining v) w);
  frame_Buckets : forall name b w,
    R w (upd_manager (fun m => with_Buckets (insert_new name b (mg_Buckets m)) m) w);
  frame_sandwichBuckets : forall f w, R w (upd_sandwichBuckets f w)
}.

(** The session a RESUME would name is the same in both worlds. *)
Definition same_session (w w' : World) : Prop :=
  sh_seq (w_shard w') = sh_seq (w_shard w)
  /\ sh_sessionID (w_shard w') = sh_sessionID (w_shard w).

(** The shard group is as it was. *)
Definition same_group (w w' : World) : Prop := w_group w' = w_group w.

(** The trace only grew. *)
Definition trace_grew (w w' : World) : Prop :=
  exists evs, w_trace w' = w_trace w ++ evs.

(** A bucket registered with the manager stays as it is. *)
Definition bucket_stays (name : string) (w w' : World) : Prop :=
  forall b, mg_Buckets (w_manager w) !! name = Some b ->
            mg_Buckets (w_manager w') !! name = Some b.

(** ** The worlds the building blocks leave

    Closed forms of what a block of the code does to the world, used to
    follow [Connect] down to its handshake. *)
Section Worlds.
Context `{Env}.

Definition publish_events (msg : ReceivedPayload) (data : PublishData)
    (extra : string) (w : World) : list Event :=
  if mg_ProducerClient (w_manager w)
  then [EvPublish (mg_ChannelName (w_manager w))
          (mkPacket msg data extra VERSION (mg_Identifier (w_manager w)))]
  else [].

Definition published (msg : ReceivedPayload) (data : PublishData)
    (extra : string) (w : World) : World :=
  mkWorld (w_shard w) (w_manager w) (w_group w) (w_sandwichBuckets w)
    (w_abools w) (w_waitgroups w) (w_chans w)
    (mkCounters (n_dial (w_counters w)) (n_write (w_counters w))
       (n_read (w_counters w)) (n_first (w_counters w))
       (if mg_ProducerClient (w_manager w)
        then S (n_publish (w_counters w)) else n_publish (w_counters w))
       (n_flow (w_counters w)))
    (w_trace w ++ publish_events msg data extra w).

Definition publish_outcome (w : World) : option error :=
  if mg_ProducerClient (w_manager w)
  then wrap_err "publishEvent publish" (publish_result (n_publish (w_counters w)))
  else Some (ErrorString "publishEvent publish: No active stanClient").

Definition status_packet (status : ShardStatus) (w : World) : list Event :=
  publish_events (mkReceived 0 "" 0 "SHARD_STATUS")
    (PubStatusUpdate (sh_ShardID (w_shard w)) status) "" w.

Definition status_set (status : ShardStatus) (w : World) : World :=
  published (mkReceived 0 "" 0 "SHARD_STATUS")
    (PubStatusUpdate (sh_ShardID (w_shard w)) status) ""
    (upd_shard (with_Status status) w).

Definition bucket_created (store : BucketStore) (name : string) (limit : Z)
    (per : Duration) (w : World) : World :=
  match store with
  | ManagerBuckets =>
      upd_manager (fun m =>
        with_Buckets (insert_new name (mkBucket limit per) (mg_Buckets m)) m)
        (upd_trace (fun t => t ++ [EvCreateBucket store name limit per]) w)
  | SandwichBuckets =>
      upd_sandwichBuckets (insert_new name (mkBucket limit per))
        (upd_trace (fun t => t ++ [EvCreateBucket store name limit per]) w)
  end.

(** What [SendEvent] emits when the payload marshals. *)
Definition send_events (op : Z) (data : SentData) (w : World) : list Event :=
  EvWaitForBucket ManagerBuckets (bucket_name_ws w)
  :: match sh_wsConn (w_shard w) with
     | Some conn => [EvWsWrite conn (I_SentPayload (mkSent op data))]
     | None => []
     end.

Definition sent (op : Z) (data : SentData) (w : World) : World :=
  mkWorld (w_shard w) (w_manager w) (w_group w) (w_sandwichBuckets w)
    (w_abools w) (w_waitgroups w) (w_chans w)
    (mkCounters (n_dial (w_counters w))
       (match sh_wsConn (w_shard w) with
        | Some _ => S (n_write (w_counters w))
        | None => n_write (w_counters w)
        end)
       (n_read (w_counters w)) (n_first (w_counters w))
       (n_publish (w_counters w)) (n_flow (w_counters w)))
    (w_trace w ++ send_events op data w).

Definition send_outcome (w : World) : option error :=
  match sh_wsConn (w_shard w) with
  | Some _ =>
      wrap_err "sendEvent writeJson"
        (wrap_err "writeJSON write" (write_result (n_write (w_counters w))))
  | None => None
  end.

(** The connection [Connect] talks on: the one it finds, else the one it
    dials. *)
Definition conn_in_use (w : World) : nat :=
  match sh_wsConn (w_shard w) with
  | Some conn => conn
  | None => n_dial (w_counters w)
  end.

Definition dial_events (u : string) (w : World) : list Event :=
  match sh_wsConn (w_shard w) with
  | Some _ => []
  | None => [EvDial u]
  end.

Definition dialed (u : string) (w : World) : World :=
  mkWorld (with_wsConn (Some (conn_in_use w)) (w_shard w)) (w_manager w)
    (w_group w) (w_sandwichBuckets w) (w_abools w) (w_waitgroups w) (w_chans w)
    (mkCounters
       (match sh_wsConn (w_shard w) with
        | Some _ => n_dial (w_counters w)
        | None => S (n_dial (w_counters w))
        end)
       (n_write (w_counters w)) (n_read (w_counters w)) (n_first (w_counters w))
       (n_publish (w_counters w)) (n_flow (w_counters w)))
    (w_trace w ++ dial_events u w).

Definition heartbeat_events (w : World) : list Event :=
  if sh_HeartbeatActive (w_shard w) then [] else [EvGoHeartbeat].

Definition heartbeat_started (w : World) : World :=
  upd_shard (with_HeartbeatActive true)
    (upd_trace (fun t => t ++ heartbeat_events w) w).

(** The heartbeat interval a HELLO announces. *)
Definition hello_interval (data : string) : Duration :=
  wrap64 (decode_HeartbeatInterval data * Millisecond).

Definition hello_set (data : string) (w : World) : World :=
  upd_shard (with_Heartbeat
    (wrap64 (decode_HeartbeatInterval data * Millisecond))
    (wrap64 (wrap64 (decode_HeartbeatInterval data * Millisecond)
             * mg_MaxHeartbeatFailures (w_manager w)))) w.

(** The world in which [Connect], started in [w], begins its handshake
    when hashing, the dial and the read of HELLO succeed.  The manager
    and the shard id are read after the first [SetStatus], as in the
    source. *)
Definition before_handshake (hash : string) (hello : ReceivedPayload)
    (w : World) : World :=
  let w1 := status_set ShardWaiting w in
  let w2 := bucket_created ManagerBuckets (bucket_name_ws w1) 120 Minute
              (upd_shard (with_ctx_done false) w1) in
  let w3 := bucket_created SandwichBuckets
              (bucket_name_gw hash
                 (Z.rem (sh_ShardID (w_shard w1)) (mg_MaxConcurrency (w_manager w1))))
              1 identifyRatelimit w2 in
  let w4 := dialed (mg_GatewayURL (w_manager w1)) (status_set ShardConnecting w3) in
  heartbeat_started (hello_set (rp_Data hello) (upd_counters bump_read w4)).

(** What [Connect] emits before its handshake. *)
Definition events_before_handshake (hash : string) (w : World) : list Event :=
  status_packet ShardWaiting w
  ++ [EvCreateBucket ManagerBuckets (bucket_name_ws w) 120 Minute;
      EvCreateBucket SandwichBuckets
        (bucket_name_gw hash
           (Z.rem (sh_ShardID (w_shard w)) (mg_MaxConcurrency (w_manager w))))
        1 identifyRatelimit]
  ++ status_packet ShardConnecting w
  ++ dial_events (mg_GatewayURL (w_manager w)) w
  ++ heartbeat_events w.

(** Frames and waits the statements about the handshake speak of. *)
Definition is_identify_frame (e : Event) : bool :=
  match e with
  | EvWsWrite _ (I_SentPayload (mkSent op (DataIdentify _))) => op =? GatewayOpIdentify
  | _ => false
  end.

Definition is_identify_bucket_wait (e : Event) : bool :=
  match e with
  | EvWaitForBucket SandwichBuckets _ => true
  | EvWaitForBucket ManagerBuckets name => String.prefix "gw:" name
  | _ => false
  end.

Definition wants_identify (w : World) : bool :=
  String.eqb (sh_sessionID (w_shard w)) "" || (sh_seq (w_shard w) =? 0).

Definition resume_frame (w : World) : Event :=
  EvWsWrite (conn_in_use w)
    (I_SentPayload (mkSent GatewayOpResume
       (DataResume (mkResume (mg_Token (w_manager w))
          (sh_sessionID (w_shard w)) (sh_seq (w_shard w)))))).

(** The opcodes for which [OnEvent] returns before its last line. *)
Definition returns_early (op : Z) : Prop :=
  op = GatewayOpHello \/ op = GatewayOpHeartbeatACK \/ op = GatewayOpReconnect
  \/ (op < 0 \/ op = 5 \/ 11 < op).

(** The events of a shard group closing itself from [Listen]. *)
Definition group_close_events (w : World) : list Event :=
  EvGroupClose
  :: match sh_wsConn (w_shard w) with
     | Some conn => [EvWsClose conn groupCloseCode]
     | None => []
     end
  ++ status_packet ShardClosed w.

Definition is_resume_frame (e : Event) : bool :=
  match e with
  | EvWsWrite _ (I_SentPayload (mkSent op (DataResume _))) => op =? GatewayOpResume
  | _ => false
  end.

(** What [Connect] emits after a handshake that returned no error. *)
Definition first_event_events (hash : string) (w : World) : list Event :=
  EvResetBucket ManagerBuckets
    (bucket_name_gw hash
       (Z.rem (sh_ShardID (w_shard w)) (mg_MaxConcurrency (w_manager w))))
  :: match first_event (n_first (w_counters w)) with
     | FirstError _ =>
         match sh_wsConn (w_shard w) with
         | Some conn => [EvWsClose conn StatusNormalClosure]
         | None => []
         end
     | FirstMessage m => [EvRequeue m]
     | FirstTimeout => []
     end.

(** The signals and ticker resets of a chunk flow that saw [S k] chunk
    signals. *)
Fixpoint chunk_events (k : nat) : list Event :=
  match k with
  | O => []
  | S k' => EvChunkSignal :: EvTickerReset memberChunkTimeout :: chunk_events k'
  end.

(** No entry for the guild is left in any of the three maps. *)
Definition guild_cleaned (guildID : Z) (w : World) : Prop :=
  grp_MemberChunksComplete (w_group w) !! guildID = None
  /\ grp_MemberChunksCallback (w_group w) !! guildID = None
  /\ grp_MemberChunkCallbacks (w_group w) !! guildID = None.

(** What [OnDispatch] handed to the Publisher. *)
Definition publishes (evs : list Event) : list SandwichPayload :=
  flat_map (fun e => match e with EvPublish _ p => [p] | _ => [] end) evs.

(** Whether the state-update step ran. *)
Definition state_updates (evs : list Event) : list ReceivedPayload :=
  flat_map (fun e => match e with EvStateDispatch m => [m] | _ => [] end) evs.

(** The durations [Reconnect] slept. *)
Definition sleeps (evs : list Event) : list Duration :=
  flat_map (fun e => match e with EvSleep d => [d] | _ => [] end) evs.

(** The trace grew, and by no pause. *)
Definition grew_without_sleep (w w' : World) : Prop :=
  exists evs, w_trace w' = w_trace w ++ evs /\ sleeps evs = [].

(** The pauses of [n] failed rounds of the loop of [Reconnect] when the
    first one lasts [wait]. *)
Fixpoint waits (n : nat) (wait : Duration) : list Duration :=
  match n with
  | O => []
  | S n' => wait :: waits n' (next_wait wait)
  end.

End Worlds.

(** ** Concrete environments and worlds for the examples *)
Module Demo.

(** The close codes as section 6 of the spec numbers them. *)
Definition codes0 : CloseCodes := mkCloseCodes 4004 4010 4011 4012 4013 4014.

Definition hello0 : ReceivedPayload := mkReceived GatewayOpHello "hello" 0 "".

(** An environment in which the scripted parts are given and everything
    else behaves: hashing and marshalling succeed, writes and publishes
    go through, HELLO announces 41250 ms. *)
Definition env_of (dial : nat -> option error) (write : nat -> option error)
    (read : nat -> ReadResult) (first : nat -> FirstEvent)
    (state : ReceivedPayload -> string * string * bool * option error)
    (chunks : nat -> option nat) : Env :=
  mkEnv codes0 "linux" "1.0" (fun t => inr ("#" +:+ t)) (fun _ => None)
    (fun _ => false) (fun _ => 41250) (fun _ => None)
    (fun code reason => "status = " +:+ itoa code +:+ " and reason = " +:+ reason)
    StatusNormalClosure state dial write read first (fun _ => None) chunks.

Definition state_ok (msg : ReceivedPayload) : string * string * bool * option error :=
  (rp_Data msg, "", true, None).

Definition env0 : Env :=
  env_of (fun _ => None) (fun _ => None) (fun _ => ReadMessage hello0)
    (fun _ => FirstTimeout) state_ok (fun _ => Some 3%nat).

Definition shard0 : Shard :=
  mkShard ShardIdle 0 false None false 0 0 2 0 "".
Definition manager0 : Manager :=
  mkManager "token" "welcomerBeta" "sandwich" 2 5 true 250 None false 0
    "wss://gateway.discord.gg" 1 1000 [] [] true ∅.
Definition group0 : ShardGroup :=
  mkShardGroup 0 1 "" ShardGroupConnecting ∅ ∅ ∅.
Definition world0 : World :=
  mkWorld shard0 manager0 group0 ∅ [] [] [] (mkCounters 0 0 0 0 0 0) [].

(** A shard that is connected and has a session: sequence 42 of "S1". *)
Definition world_ready : World :=
  upd_shard (fun s => with_Status ShardReady (with_wsConn (Some 0%nat)
                        (with_seq 42 (with_sessionID "S1" s)))) world0.

(** The same shard with three retries left, for [Reconnect]. *)
Definition world_retries : World := upd_shard (with_Retries 3) world_ready.

(** The first two dials are refused, later ones succeed. *)
Definition env_refused : Env :=
  env_of (fun n => if (n <? 2)%nat then Some (ErrorString "connection refused") else None)
    (fun _ => None) (fun _ => ReadMessage hello0) (fun _ => FirstTimeout)
    state_ok (fun _ => Some 3%nat).

(** The gateway closes the socket with code 4014. *)
Definition disallowed_intents : error :=
  Wrapf "readMessage read" (CloseError 4014 "Disallowed intent(s).").
Definition env_closed : Env :=
  env_of (fun _ => None) (fun _ => None) (fun _ => ReadError disallowed_intents)
    (fun _ => FirstTimeout) state_ok (fun _ => Some 3%nat).

(** The state-update step asks not to publish. *)
Definition state_silent (msg : ReceivedPayload) : string * string * bool * option error :=
  (rp_Data msg, "", false, None).
Definition env_silent : Env :=
  env_of (fun _ => None) (fun _ => None) (fun _ => ReadMessage hello0)
    (fun _ => FirstTimeout) state_silent (fun _ => Some 3%nat).

(** No chunk signal ever arrives. *)
Definition env_no_chunks : Env :=
  env_of (fun _ => None) (fun _ => None) (fun _ => ReadMessage hello0)
    (fun _ => FirstTimeout) state_ok (fun _ => None).

Definition message_create (sequence : Z) : ReceivedPayload :=
  mkReceived GatewayOpDispatch "{}" sequence "MESSAGE_CREATE".
Definition heartbeat_ack : ReceivedPayload :=
  mkReceived GatewayOpHeartbeatACK "" 0 "".
Definition invalid_session : ReceivedPayload :=
  mkReceived GatewayOpInvalidSession "false" 0 "".

(** A manager whose blacklists hold one type each. *)
Definition world_blacklists : World :=
  upd_manager (fun m =>
    mkManager (mg_Token m) (mg_Identifier m) (mg_ChannelName m) (mg_Retries m)
      (mg_MaxHeartbeatFailures m) (mg_Compression m) (mg_LargeThreshold m)
      (mg_DefaultPresence m) (mg_GuildSubscriptions m) (mg_Intents m)
      (mg_GatewayURL m) (mg_MaxConcurrency m) (mg_Remaining m)
      ["TYPING_START"] ["PRESENCE_UPDATE"] (mg_ProducerClient m) (mg_Buckets m))
    world_ready.

Definition typing_start : ReceivedPayload :=
  mkReceived GatewayOpDispatch "{}" 44 "TYPING_START".
Definition presence_update : ReceivedPayload :=
  mkReceived GatewayOpDispatch "{}" 45 "PRESENCE_UPDATE".

(** The same manager before its producer is connected. *)
Definition world_no_producer : World :=
  upd_manager (fun m =>
    mkManager (mg_Token m) (mg_Identifier m) (mg_ChannelName m) (mg_Retries m)
      (mg_MaxHeartbeatFailures m) (mg_Compression m) (mg_LargeThreshold m)
      (mg_DefaultPresence m) (mg_GuildSubscriptions m) (mg_Intents m)
      (mg_GatewayURL m) (mg_MaxConcurrency m) (mg_Remaining m)
      (mg_EventBlacklist m) (mg_ProduceBlacklist m) false (mg_Buckets m))
    world_blacklists.

(** Two callers of [ChunkGuild] for guild 7 that wait for the result. *)
Definition two_callers : list Call :=
  [mkCall 7 true CallStart; mkCall 7 true CallStart].

(** One manager with a single session left, asked for one shard. *)
Definition one_session : gmap string RPC.ManagerState :=
  {[ "bot" := RPC.mkManagerState (RPC.mkGatewayBot 1 1) 0 ∅ ]}.
Definition create_one : RPC.CreateEvent := RPC.mkCreateEvent "bot" false 1 true "".
Definition unmarshal_one (data : string) : error + RPC.CreateEvent := inr create_one.
Definition gateway_down (name : string) : error + RPC.GatewayBot :=
  inl (ErrorString "get gateway fetchjson").
Definition no_range (raw : string) (shardCount : Z) : list Z := [].

End Demo.

Section ShardLoop.
Context `{Env}.

(** [Open]: listen again and again until [Listen] reports a cancelled
    context or the context of the shard is done. *)
Fixpoint Open (fuel : nat) : M unit :=
  match fuel with
  | O => halt OutOfFuel
  | S fuel' =>
      err <- Listen fuel' ;;
      if match err with
         | Some e => Is_Canceled e
         | None => false
         end
      then ret tt
      else
        w <- get ;;
        if sh_ctx_done (w_shard w) then ret tt else Open fuel'
  end.

(** [Connect] from the read of HELLO on, once the socket is there. *)
Definition Connect_greeted : M (option error) :=
  r <- readMessage ;;
  match r with
  | inl e => ret (Some e)
  | inr msg =>
    on_panic (Connect_deferred (decode_Hello_error (rp_Data msg)) ;; ret tt)
      (hello_heartbeat (rp_Data msg)) ;;
    w <- get ;;
    (if sh_HeartbeatActive (w_shard w) then ret tt
     else emit EvGoHeartbeat ;; set_HeartbeatActive true) ;;
    herr <- Connect_handshake ;;
    Connect_after_handshake herr
  end.

End ShardLoop.

(** [m] leaves the observation [f] of the world as it found it, whether
    it returns or not. *)
Definition leaves {A X} (f : World -> X) (m : M A) : Prop :=
  forall w, f (final (m w)) = f w.

(** Observations of the world the theorems speak of. *)
Definition ctx_of (w : World) : bool := sh_ctx_done (w_shard w).
Definition conn_of (w : World) : option nat := sh_wsConn (w_shard w).
Definition remaining_of (w : World) : Z := mg_Remaining (w_manager w).
Definition retries_of (w : World) : Z := sh_Retries (w_shard w).

Module Cases.

(** Every write on the socket fails. *)
Definition env_write_fails : Env :=
  Demo.env_of (fun _ => None) (fun _ => Some (ErrorString "broken pipe"))
    (fun _ => ReadMessage Demo.hello0) (fun _ => FirstTimeout) Demo.state_ok
    (fun _ => Some 3%nat).

(** An environment like [Demo.env0] but for hashing and marshalling. *)
Definition env_with (hash : string -> error + string)
    (marshal : iface -> option error) (read : nat -> ReadResult) : Env :=
  mkEnv Demo.codes0 "linux" "1.0" hash marshal (fun _ => false) (fun _ => 41250)
    (fun _ => None)
    (fun code reason => "status = " +:+ itoa code +:+ " and reason = " +:+ reason)
    StatusNormalClosure Demo.state_ok (fun _ => None) (fun _ => None) read
    (fun _ => FirstTimeout) (fun _ => None) (fun _ => Some 3%nat).

(** The token cannot be hashed. *)
Definition env_no_hash : Env :=
  env_with (fun _ => inl (ErrorString "hash")) (fun _ => None)
    (fun _ => ReadMessage Demo.hello0).

(** No payload can be marshalled. *)
Definition env_no_marshal : Env :=
  env_with (fun t => inr ("#" +:+ t)) (fun _ => Some (ErrorString "unsupported value"))
    (fun _ => ReadMessage Demo.hello0).

(** The read is interrupted by the cancellation of the context. *)
Definition read_cancelled : error := Wrapf "readMessage read" ContextCanceled.
Definition env_read_cancelled : Env :=
  env_with (fun t => inr ("#" +:+ t)) (fun _ => None) (fun _ => ReadError read_cancelled).

(** The connection drops without a close frame. *)
Definition read_eof : error := Wrapf "readMessage read" (ErrorString "EOF").
Definition env_read_eof : Env :=
  env_with (fun t => inr ("#" +:+ t)) (fun _ => None) (fun _ => ReadError read_eof).

(** A shard whose context has been cancelled. *)
Definition world_cancelled : World := upd_shard (with_ctx_done true) Demo.world_ready.

(** A shard that has a session but no socket. *)
Definition world_no_socket : World := upd_shard (with_wsConn None) Demo.world_ready.

End Cases.

(** ** The daemon: managers, their configuration and the RPC handlers
       ([manager.go], [rpc.go])

    A handler runs on the state of the daemon and ends by answering the
    request.  Configurations are shared by pointer between the managers
    and the list of the daemon's configuration, so they live in a heap;
    a pointer is an address in that heap. *)
Module Daemon.
Import Stdlib.Strings.Ascii.

(** A Go slice of strings: nil, or its elements. *)
Definition slice : Type := option (list string).

Definition elements (s : slice) : list string :=
  match s with
  | Some l => l
  | None => []
  end.

(** [reflect.DeepEqual] on two slices of strings: both nil, or both not
    nil with the same elements; a nil slice and an empty one differ. *)
Definition DeepEqual (a b : slice) : bool :=
  match a, b with
  | None, None => true
  | Some x, Some y => bool_decide (x = y)
  | _, _ => false
  end.

(** [strings.ReplaceAll(s, " ", "")]. *)
Fixpoint remove_spaces (s : string) : string :=
  match s with
  | EmptyString => EmptyString
  | String c rest =>
      if Ascii.eqb c " "%char then remove_spaces rest
      else String c (remove_spaces rest)
  end.

(** *** [ManagerConfiguration] *)

Record BotConfiguration : Type := mkBot {
  bot_DefaultPresence : option string;
  bot_Compression : bool;
  bot_GuildSubscriptions : bool;
  bot_Retries : Z;
  bot_Intents : Z;
  bot_LargeThreshold : Z;
  bot_MaxHeartbeatFailures : Z
}.

(** [RedisPrefix] is the field [RPCManagerCreate] writes. *)
Record CachingConfiguration : Type := mkCaching {
  ca_CacheUsers : bool;
  ca_CacheMembers : bool;
  ca_RequestMembers : bool;
  ca_StoreMutuals : bool;
  ca_RedisPrefix : string
}.

Record EventsConfiguration : Type := mkEvents {
  evt_EventBlacklist : slice;
  evt_ProduceBlacklist : slice
}.

Record MessagingConfiguration : Type := mkMessaging {
  msg_ClientName : string;
  msg_ChannelName : string;
  msg_UseRandomSuffix : bool
}.

Record ShardingConfiguration : Type := mkSharding {
  shd_AutoSharded : bool;
  shd_ShardCount : Z
}.

Record ManagerConfiguration : Type := mkConfiguration {
  cfg_AutoStart : bool;
  cfg_Persist : bool;
  cfg_Identifier : string;
  cfg_DisplayName : string;
  cfg_Token : string;
  cfg_Bot : BotConfiguration;
  cfg_Caching : CachingConfiguration;
  cfg_Events : EventsConfiguration;
  cfg_Messaging : MessagingConfiguration;
  cfg_Sharding : ShardingConfiguration
}.

(** The zero value of the struct. *)
Definition zeroConfiguration : ManagerConfiguration :=
  mkConfiguration false false "" "" ""
    (mkBot None false false 0 0 0 0)
    (mkCaching false false false false "")
    (mkEvents None None)
    (mkMessaging "" "" false)
    (mkSharding false 0).

Definition with_Token (v : string) (c : ManagerConfiguration) : ManagerConfiguration :=
  mkConfiguration (cfg_AutoStart c) (cfg_Persist c) (cfg_Identifier c)
    (cfg_DisplayName c) v (cfg_Bot c) (cfg_Caching c) (cfg_Events c)
    (cfg_Messaging c) (cfg_Sharding c).
Definition with_Bot (v : BotConfiguration) (c : ManagerConfiguration)
    : ManagerConfiguration :=
  mkConfiguration (cfg_AutoStart c) (cfg_Persist c) (cfg_Identifier c)
    (cfg_DisplayName c) (cfg_Token c) v (cfg_Caching c) (cfg_Events c)
    (cfg_Messaging c) (cfg_Sharding c).
Definition with_MaxHeartbeatFailures (v : Z) (b : BotConfiguration) : BotConfiguration :=
  mkBot (bot_DefaultPresence b) (bot_Compression b) (bot_GuildSubscriptions b)
    (bot_Retries b) (bot_Intents b) (bot_LargeThreshold b) v.
Definition with_BotRetries (v : Z) (b : BotConfiguration) : BotConfiguration :=
  mkBot (bot_DefaultPresence b) (bot_Compression b) (bot_GuildSubscriptions b)
    v (bot_Intents b) (bot_LargeThreshold b) (bot_MaxHeartbeatFailures b).

(** *** [NormalizeConfiguration]

    The function works on the configuration the manager points to and
    writes as it goes: what it changed before it fails stays changed.
    [TrimSpace] is [strings.TrimSpace]. *)
Definition NormalizeConfiguration (TrimSpace : string -> string)
    (c : ManagerConfiguration) : ManagerConfiguration * option error :=
  if String.eqb (cfg_Token c) "" then
    (c, Some (ErrorString "Manager configuration missing token"))
  else
    let c1 := with_Token (TrimSpace (cfg_Token c)) c in
    let c2 := if bot_MaxHeartbeatFailures (cfg_Bot c1) <? 1
              then with_Bot (with_MaxHeartbeatFailures 1 (cfg_Bot c1)) c1
              else c1 in
    let c3 := if bot_Retries (cfg_Bot c2) <? 1
              then with_Bot (with_BotRetries 1 (cfg_Bot c2)) c2
              else c2 in
    if String.eqb (msg_ClientName (cfg_Messaging c3)) "" then
      (c3, Some (ErrorString "Manager missing client name. Try sandwich"))
    else (c3, None).

(** *** The state of the daemon

    Of [Manager] and [Sandwich] the fields that the code below reads or
    writes are kept; loggers, mutexes, the bucket store and the payload
    pool are left out.  [m_Analytics] counts the accumulators made for
    the manager: 0 stands for the nil pointer, and [Open] puts a new
    accumulator in its place.  [rpc.go] and
    [manager.go] come from different revisions: [rpc.go] writes
    [manager.StanClient] and [config.Caching.RedisPrefix], which the
    structs of [manager.go] do not have; both fields are kept. *)




(** The fields of [Client] that [rpc.go] writes. *)
Record Client : Type := mkClient {
  cl_Token : string;
  cl_restTunnelURL : string;
  cl_reverse : bool
}.

Definition with_cl_Token (v : string) (c : Client) : Client :=
  mkClient v (cl_restTunnelURL c) (cl_reverse c).

(** A producer client as [NewMQClient] makes it, and the name it was
    connected under once [Connect] succeeded. *)
Record Producer : Type := mkProducer {
  pr_Type : string;
  pr_ClientName : option string
}.

(** What [stan.Connect] was given. *)
Record StanConn : Type := mkStanConn {
  stan_Cluster : string;
  stan_ClientName : string
}.

Record Manager : Type := mkManager {
  m_ctx : option bool;
  m_Error : string;
  m_Analytics : nat;
  m_Configuration : nat;
  m_ProducerClient : option Producer;
  m_StanClient : option StanConn;
  m_Client : Client;
  m_Gateway : RPC.GatewayBot;
  m_ShardGroups : gmap Z ShardGroupStatus;
  m_ShardGroupIter : Z;
  m_EventBlacklist : slice;
  m_ProduceBlacklist : slice
}.

Definition with_ctx (v : option bool) (m : Manager) : Manager :=
  mkManager v (m_Error m) (m_Analytics m) (m_Configuration m) (m_ProducerClient m) (m_StanClient m)
    (m_Client m) (m_Gateway m) (m_ShardGroups m) (m_ShardGroupIter m)
    (m_EventBlacklist m) (m_ProduceBlacklist m).
Definition with_Configuration (v : nat) (m : Manager) : Manager :=
  mkManager (m_ctx m) (m_Error m) (m_Analytics m) v (m_ProducerClient m) (m_StanClient m)
    (m_Client m) (m_Gateway m) (m_ShardGroups m) (m_ShardGroupIter m)
    (m_EventBlacklist m) (m_ProduceBlacklist m).
Definition with_ProducerClient (v : option Producer) (m : Manager) : Manager :=
  mkManager (m_ctx m) (m_Error m) (m_Analytics m) (m_Configuration m) v (m_StanClient m)
    (m_Client m) (m_Gateway m) (m_ShardGroups m) (m_ShardGroupIter m)
    (m_EventBlacklist m) (m_ProduceBlacklist m).
Definition with_StanClient (v : option StanConn) (m : Manager) : Manager :=
  mkManager (m_ctx m) (m_Error m) (m_Analytics m) (m_Configuration m) (m_ProducerClient m) v
    (m_Client m) (m_Gateway m) (m_ShardGroups m) (m_ShardGroupIter m)
    (m_EventBlacklist m) (m_ProduceBlacklist m).
Definition with_Client (v : Client) (m : Manager) : Manager :=
  mkManager (m_ctx m) (m_Error m) (m_Analytics m) (m_Configuration m) (m_ProducerClient m)
    (m_StanClient m) v (m_Gateway m) (m_ShardGroups m) (m_ShardGroupIter m)
    (m_EventBlacklist m) (m_ProduceBlacklist m).
Definition with_Gateway (v : RPC.GatewayBot) (m : Manager) : Manager :=
  mkManager (m_ctx m) (m_Error m) (m_Analytics m) (m_Configuration m) (m_ProducerClient m)
    (m_StanClient m) (m_Client m) v (m_ShardGroups m) (m_ShardGroupIter m)
    (m_EventBlacklist m) (m_ProduceBlacklist m).
Definition with_ShardGroups (v : gmap Z ShardGroupStatus) (m : Manager) : Manager :=
  mkManager (m_ctx m) (m_Error m) (m_Analytics m) (m_Configuration m) (m_ProducerClient m)
    (m_StanClient m) (m_Client m) (m_Gateway m) v (m_ShardGroupIter m)
    (m_EventBlacklist m) (m_ProduceBlacklist m).
Definition with_EventBlacklist (v : slice) (m : Manager) : Manager :=
  mkManager (m_ctx m) (m_Error m) (m_Analytics m) (m_Configuration m) (m_ProducerClient m)
    (m_StanClient m) (m_Client m) (m_Gateway m) (m_ShardGroups m)
    (m_ShardGroupIter m) v (m_ProduceBlacklist m).
Definition with_ProduceBlacklist (v : slice) (m : Manager) : Manager :=
  mkManager (m_ctx m) (m_Error m) (m_Analytics m) (m_Configuration m) (m_ProducerClient m)
    (m_StanClient m) (m_Client m) (m_Gateway m) (m_ShardGroups m)
    (m_ShardGroupIter m) (m_EventBlacklist m) v.

Definition with_Analytics (v : nat) (m : Manager) : Manager :=
  mkManager (m_ctx m) (m_Error m) v (m_Configuration m) (m_ProducerClient m)
    (m_StanClient m) (m_Client m) (m_Gateway m) (m_ShardGroups m)
    (m_ShardGroupIter m) (m_EventBlacklist m) (m_ProduceBlacklist m).

(** The fields of [SandwichConfiguration] the code below reads. *)
Record SandwichConfiguration : Type := mkSandwichConfiguration {
  sc_Managers : list nat;
  sc_RestTunnelURL : string;
  sc_NATSCluster : string;
  sc_ProducerType : string;
  sc_Public : bool;
  sc_ElevatedUsers : list string
}.

Definition with_Managers (v : list nat) (c : SandwichConfiguration)
    : SandwichConfiguration :=
  mkSandwichConfiguration v (sc_RestTunnelURL c) (sc_NATSCluster c)
    (sc_ProducerType c) (sc_Public c) (sc_ElevatedUsers c).

(** [sd_heap] holds the manager configurations, a pointer is an index
    into it.  [sd_Managers] is the map [sg.Managers]; a [*Manager] lives
    in one place only, so the map holds the managers themselves.
    [sd_calls] counts the calls to the outside, [sd_saved] records what
    each [SaveConfiguration] was given: the manager configurations the
    list pointed to at that moment. *)
Record Sandwich : Type := mkSandwich {
  sd_heap : list ManagerConfiguration;
  sd_Configuration : SandwichConfiguration;
  sd_Managers : gmap string Manager;
  sd_RestTunnelEnabled : bool;
  sd_RestTunnelReverse : bool;
  sd_calls : nat;
  sd_saved : list (list (option ManagerConfiguration))
}.

Definition upd_heap (f : list ManagerConfiguration -> list ManagerConfiguration)
    (s : Sandwich) : Sandwich :=
  mkSandwich (f (sd_heap s)) (sd_Configuration s) (sd_Managers s)
    (sd_RestTunnelEnabled s) (sd_RestTunnelReverse s) (sd_calls s) (sd_saved s).
Definition upd_Configuration (f : SandwichConfiguration -> SandwichConfiguration)
    (s : Sandwich) : Sandwich :=
  mkSandwich (sd_heap s) (f (sd_Configuration s)) (sd_Managers s)
    (sd_RestTunnelEnabled s) (sd_RestTunnelReverse s) (sd_calls s) (sd_saved s).
Definition upd_Managers (f : gmap string Manager -> gmap string Manager)
    (s : Sandwich) : Sandwich :=
  mkSandwich (sd_heap s) (sd_Configuration s) (f (sd_Managers s))
    (sd_RestTunnelEnabled s) (sd_RestTunnelReverse s) (sd_calls s) (sd_saved s).
Definition upd_calls (f : nat -> nat) (s : Sandwich) : Sandwich :=
  mkSandwich (sd_heap s) (sd_Configuration s) (sd_Managers s)
    (sd_RestTunnelEnabled s) (sd_RestTunnelReverse s) (f (sd_calls s)) (sd_saved s).
Definition upd_saved
    (f : list (list (option ManagerConfiguration))
         -> list (list (option ManagerConfiguration)))
    (s : Sandwich) : Sandwich :=
  mkSandwich (sd_heap s) (sd_Configuration s) (sd_Managers s)
    (sd_RestTunnelEnabled s) (sd_RestTunnelReverse s) (sd_calls s) (f (sd_saved s)).

(** *** The events of the RPC calls

    The structs of the events are not among the sources; these are the
    fields the handlers read. *)
Record RPCManagerCreateEvent : Type := mkManagerCreateEvent {
  ce_Identifier : string;
  ce_Persist : bool;
  ce_Token : string;
  ce_Prefix : string;
  ce_Client : string;
  ce_Channel : string
}.

(** [RPCManagerDeleteEvent] and [RPCManagerRestartEvent]. *)
Record ConfirmEvent : Type := mkConfirmEvent {
  cf_Manager : string;
  cf_Confirm : string
}.

(** [RPCManagerShardGroupDeleteEvent]. *)
Record ShardGroupEvent : Type := mkShardGroupEvent {
  ge_Manager : string;
  ge_ShardGroup : Z
}.

(** *** What the outside decides

    [json.Unmarshal] of the request data into each kind of event,
    [strings.TrimSpace], [NewClient], and by the number of calls made to
    the outside before: the reply to GET /gateway/bot, the results of
    connecting a producer or a stan client, [rand.Intn] and
    [SaveConfiguration]. *)
Class Host : Type := {
  TrimSpace : string -> string;
  NewClient : string -> string -> bool -> bool -> Client;
  NewMQClient : string -> option error;
  FetchJSON_gateway : nat -> RPC.GatewayBot * option error;
  producer_Connect : nat -> option error;
  stan_Connect : nat -> option error;
  rand_Intn : nat -> Z -> Z;
  SaveConfiguration_result : nat -> option error;
  unmarshal_configuration : string -> error + ManagerConfiguration;
  unmarshal_create : string -> error + RPCManagerCreateEvent;
  unmarshal_confirm : string -> error + ConfirmEvent;
  unmarshal_manager : string -> error + string;
  unmarshal_shardgroup : string -> error + ShardGroupEvent
}.

(** *** The monad of the daemon: state, or a run-time panic *)

Inductive Res (A : Type) : Type :=
| Ok (a : A) (s : Sandwich)
| Fault (msg : string).
Arguments Ok {A} a s.
Arguments Fault {A} msg.

Definition H (A : Type) : Type := Sandwich -> Res A.

Definition hret {A} (a : A) : H A := fun s => Ok a s.
Definition hbind {A B} (m : H A) (k : A -> H B) : H B :=
  fun s => match m s with
           | Ok a s' => k a s'
           | Fault msg => Fault msg
           end.
Definition hget : H Sandwich := fun s => Ok s s.
Definition hmodify (f : Sandwich -> Sandwich) : H unit := fun s => Ok tt (f s).

Declare Scope daemon_scope.
Delimit Scope daemon_scope with daemon.
Notation "x <- m ;; k" := (hbind m (fun x => k))
  (at level 100, m at next level, k at level 200, right associativity) : daemon_scope.
Notation "m ;; k" := (hbind m (fun _ => k))
  (at level 100, k at level 200, right associativity) : daemon_scope.
Local Open Scope daemon_scope.

Definition nil_dereference : string :=
  "invalid memory address or nil pointer dereference".

(** Reading through a pointer; a pointer that points nowhere is nil. *)
Definition deref (p : nat) : H ManagerConfiguration :=
  fun s => match sd_heap s !! p with
           | Some c => Ok c s
           | None => Fault nil_dereference
           end.

(** Writing through a pointer that was read before. *)
Definition store (p : nat) (c : ManagerConfiguration) : H unit :=
  hmodify (upd_heap (fun h => <[p := c]> h)).

(** [&ManagerConfiguration{...}]: a new object. *)
Definition alloc (c : ManagerConfiguration) : H nat :=
  fun s => Ok (length (sd_heap s)) (upd_heap (fun h => h ++ [c]) s).

(** The number of the next call to the outside. *)
Definition tick : H nat := fun s => Ok (sd_calls s) (upd_calls S s).

Definition answer (data : RPC.Body) (success : bool) (status : Z) (ok : bool)
    : H (RPC.Response * bool) :=
  hret (RPC.mkResponse data success status, ok).

Definition StatusInternalServerError : Z := 500.
Definition StatusForbidden : Z := 403.

Definition zeroGateway : RPC.GatewayBot := RPC.mkGatewayBot 0 0.

Section Daemon_code.
Context `{Host}.

(** *** [manager.go] *)

(** [mg.NormalizeConfiguration()], on the configuration [mg] points to. *)
Definition Manager_NormalizeConfiguration (mg : Manager) : H (option error) :=
  c <- deref (m_Configuration mg) ;;
  store (m_Configuration mg) (fst (NormalizeConfiguration TrimSpace c)) ;;
  hret (snd (NormalizeConfiguration TrimSpace c)).

(** [sg.NewManager(configuration)].  On failure the error is also written
    to the manager, which is then dropped; [nil, err] is returned. *)
Definition NewManager (configuration : nat) : H (error + Manager) :=
  c <- deref configuration ;;
  s <- hget ;;
  let client :=
    if sd_RestTunnelEnabled s
    then NewClient (cfg_Token c) (sc_RestTunnelURL (sd_Configuration s))
           (sd_RestTunnelReverse s) true
    else NewClient (cfg_Token c) "" false true in
  let mg := mkManager None "" 0 configuration None None client zeroGateway
              ∅ 0 (Some []) (Some []) in
  err <- Manager_NormalizeConfiguration mg ;;
  match err with
  | Some e => hret (inl e)
  | None => hret (inr (with_ctx (Some false) mg))
  end.

(** [mg.GetGateway()]: the decoded reply is returned with the error. *)
Definition GetGateway (mg : Manager) : H (RPC.GatewayBot * option error) :=
  n <- tick ;;
  hret (fst (FetchJSON_gateway n),
        wrap_err "get gateway fetchjson" (snd (FetchJSON_gateway n))).

Definition maxClientNumber : Z := 9999.

(** The client name [Open] and [RPCManagerUpdate] connect under. *)
Definition client_name (c : ManagerConfiguration) (bound : Z) : H string :=
  if msg_UseRandomSuffix (cfg_Messaging c)
  then n <- tick ;;
       hret (msg_ClientName (cfg_Messaging c) +:+ "-" +:+ itoa (rand_Intn n bound))
  else hret (msg_ClientName (cfg_Messaging c)).

(** [mg.Open()], with the manager it leaves behind. *)
Definition Manager_Open (mg : Manager) : H (Manager * option error) :=
  let mg := match m_ctx mg with
            | None => with_ctx (Some false) mg
            | Some _ => mg
            end in
  let mg := with_Analytics (S (m_Analytics mg)) mg in
  c <- deref (m_Configuration mg) ;;
  clientName <- client_name c maxClientNumber ;;
  s <- hget ;;
  match NewMQClient (sc_ProducerType (sd_Configuration s)) with
  | Some err => hret (mg, Some (Wrapf "manager open producer create" err))
  | None =>
      let mg := with_ProducerClient
                  (Some (mkProducer (sc_ProducerType (sd_Configuration s)) None)) mg in
      n <- tick ;;
      match producer_Connect n with
      | Some err => hret (mg, Some (Wrapf "manager open producer connect" err))
      | None =>
          let mg := with_ProducerClient
                      (Some (mkProducer (sc_ProducerType (sd_Configuration s))
                               (Some clientName))) mg in
          let mg := with_EventBlacklist (evt_EventBlacklist (cfg_Events c)) mg in
          let mg := with_ProduceBlacklist (evt_ProduceBlacklist (cfg_Events c)) mg in
          r <- GetGateway mg ;;
          hret (with_Gateway (fst r) mg, snd r)
      end
  end.

(** Modelled from the spec: [ShardGroup.Close] is not among the sources;
    it leaves the shard group Closed (section 4.3).  [mg.Close()] closes
    every shard group and cancels the context if there is one. *)
Definition Manager_Close (mg : Manager) : Manager :=
  let mg := with_ShardGroups ((fun _ => ShardGroupClosed) <$> m_ShardGroups mg) mg in
  match m_ctx mg with
  | Some _ => with_ctx (Some true) mg
  | None => mg
  end.

(** *** [rpc.go] *)

(** [sg.SaveConfiguration(sg.Configuration, ConfigurationPath)]. *)
Definition SaveConfiguration : H (option error) :=
  n <- tick ;;
  s <- hget ;;
  hmodify (upd_saved (fun l =>
    l ++ [map (fun p => sd_heap s !! p) (sc_Managers (sd_Configuration s))])) ;;
  hret (SaveConfiguration_result n).

Definition set_manager (name : string) (mg : Manager) : H unit :=
  hmodify (upd_Managers (fun m => <[name := mg]> m)).

Definition invalid_manager : H (RPC.Response * bool) :=
  answer (RPC.BodyText "Invalid manager provided") false RPC.StatusBadRequest false.

(** [RPCManagerShardGroupDelete]. *)
Definition RPCManagerShardGroupDelete (data : string) : H (RPC.Response * bool) :=
  match unmarshal_shardgroup data with
  | inl err => answer (RPC.BodyError err) false RPC.StatusBadRequest false
  | inr event =>
    s <- hget ;;
    match sd_Managers s !! ge_Manager event with
    | None => invalid_manager
    | Some manager =>
      match m_ShardGroups manager !! ge_ShardGroup event with
      | None => answer (RPC.BodyText "Invalid shardgroup provided") false
                  RPC.StatusBadRequest false
      | Some ShardGroupClosed =>
          set_manager (ge_Manager event)
            (with_ShardGroups (delete (ge_ShardGroup event) (m_ShardGroups manager))
               manager) ;;
          answer RPC.BodyTrue true RPC.StatusOK true
      | Some _ => answer (RPC.BodyText "ShardGroup is not closed") false
                    RPC.StatusBadRequest false
      end
    end
  end.

(** The loop of [RPCManagerUpdate] over [sg.Configuration.Managers]: the
    entries with the identifier [id] are replaced by [p]. *)
Fixpoint replace_configuration (id : string) (p : nat) (l : list nat)
    : H (list nat) :=
  match l with
  | [] => hret []
  | q :: rest =>
      c <- deref q ;;
      rest' <- replace_configuration id p rest ;;
      hret ((if String.eqb (cfg_Identifier c) id then p else q) :: rest')
  end.

(** [RPCManagerUpdate]. *)
Definition RPCManagerUpdate (data : string) : H (RPC.Response * bool) :=
  match unmarshal_configuration data with
  | inl err => answer (RPC.BodyError err) false RPC.StatusBadRequest false
  | inr event =>
    s <- hget ;;
    match sd_Managers s !! cfg_Identifier event with
    | None => invalid_manager
    | Some manager =>
      old <- deref (m_Configuration manager) ;;
      manager <-
        (if negb (Bool.eqb (msg_UseRandomSuffix (cfg_Messaging event))
                    (msg_UseRandomSuffix (cfg_Messaging old)))
         then
           clientName <- client_name old 9999 ;;
           n <- tick ;;
           match stan_Connect n with
           | None =>
               hret (with_StanClient
                       (Some (mkStanConn (sc_NATSCluster (sd_Configuration s))
                                clientName)) manager)
           | Some _ => hret manager
           end
         else hret manager) ;;
      let manager :=
        if negb (DeepEqual (evt_EventBlacklist (cfg_Events event))
                   (evt_EventBlacklist (cfg_Events old)))
        then with_EventBlacklist (evt_EventBlacklist (cfg_Events old)) manager
        else manager in
      let manager :=
        if negb (DeepEqual (evt_ProduceBlacklist (cfg_Events event))
                   (evt_ProduceBlacklist (cfg_Events old)))
        then with_ProduceBlacklist (evt_ProduceBlacklist (cfg_Events old)) manager
        else manager in
      p <- alloc event ;;
      let manager := with_Configuration p manager in
      let manager := with_Client (with_cl_Token (cfg_Token event) (m_Client manager))
                       manager in
      set_manager (cfg_Identifier event) manager ;;
      s1 <- hget ;;
      managers <- replace_configuration (cfg_Identifier event) p
                    (sc_Managers (sd_Configuration s1)) ;;
      hmodify (upd_Configuration (with_Managers managers)) ;;
      err <- SaveConfiguration ;;
      match err with
      | Some e => answer (RPC.BodyError e) false StatusInternalServerError false
      | None => answer RPC.BodyTrue true RPC.StatusOK true
      end
    end
  end.

(** The configuration [RPCManagerCreate] builds. *)
Definition created_configuration (event : RPCManagerCreateEvent)
    : ManagerConfiguration :=
  mkConfiguration false (ce_Persist event)
    (remove_spaces (ce_Identifier event)) (ce_Identifier event) (ce_Token event)
    (mkBot (Some "") true false 2 32511 250 5)
    (mkCaching false false false false (ce_Prefix event))
    (mkEvents None None)
    (mkMessaging (ce_Client event) (ce_Channel event) true)
    (mkSharding false 1).

(** [RPCManagerCreate]. *)
Definition RPCManagerCreate (data : string) : H (RPC.Response * bool) :=
  match unmarshal_create data with
  | inl err => answer (RPC.BodyError err) false RPC.StatusBadRequest false
  | inr event =>
    let _identifier := remove_spaces (ce_Identifier event) in
    s <- hget ;;
    match sd_Managers s !! _identifier with
    | Some _ => answer (RPC.BodyText "Manager with this name already exists") false
                  RPC.StatusBadRequest false
    | None =>
      config <- alloc (created_configuration event) ;;
      hmodify (upd_Configuration (fun c => with_Managers (sc_Managers c ++ [config]) c)) ;;
      err <- SaveConfiguration ;;
      match err with
      | Some e => answer (RPC.BodyError e) false StatusInternalServerError false
      | None =>
        r <- NewManager config ;;
        match r with
        | inl e => answer (RPC.BodyError e) false StatusInternalServerError false
        | inr manager =>
          c <- deref config ;;
          set_manager (cfg_Identifier c) manager ;;
          g <- GetGateway manager ;;
          match snd g with
          | Some e => answer (RPC.BodyError e) false StatusInternalServerError false
          | None =>
            let manager := with_Gateway (fst g) manager in
            set_manager (cfg_Identifier c) manager ;;
            o <- Manager_Open manager ;;
            set_manager (cfg_Identifier c) (fst o) ;;
            match snd o with
            | Some e => answer (RPC.BodyError e) false StatusInternalServerError false
            | None => answer RPC.BodyTrue true RPC.StatusOK true
            end
          end
        end
      end
    end
  end.

(** The loop of [RPCManagerDelete] over [sg.Configuration.Managers]. *)
Fixpoint remove_configuration (id : string) (l : list nat) : H (list nat) :=
  match l with
  | [] => hret []
  | q :: rest =>
      c <- deref q ;;
      rest' <- remove_configuration id rest ;;
      hret (if negb (String.eqb (cfg_Identifier c) id) then q :: rest' else rest')
  end.

Definition incorrect_confirm : H (RPC.Response * bool) :=
  answer (RPC.BodyText "Incorrect confirm value. Must be equal to manager") false
    RPC.StatusBadRequest false.

(** [RPCManagerDelete]. *)
Definition RPCManagerDelete (data : string) : H (RPC.Response * bool) :=
  match unmarshal_confirm data with
  | inl err => answer (RPC.BodyError err) false RPC.StatusBadRequest false
  | inr event =>
    if negb (String.eqb (cf_Confirm event) (cf_Manager event)) then incorrect_confirm
    else
      s <- hget ;;
      match sd_Managers s !! cf_Manager event with
      | None => invalid_manager
      | Some manager =>
        set_manager (cf_Manager event) (Manager_Close manager) ;;
        hmodify (upd_Managers (fun m => delete (cf_Manager event) m)) ;;
        s1 <- hget ;;
        managers <- remove_configuration (cf_Manager event)
                      (sc_Managers (sd_Configuration s1)) ;;
        hmodify (upd_Configuration (with_Managers managers)) ;;
        err <- SaveConfiguration ;;
        match err with
        | Some e => answer (RPC.BodyError e) false StatusInternalServerError false
        | None => answer RPC.BodyTrue true RPC.StatusOK true
        end
      end
  end.


(** [RPCManagerRefreshGateway]. *)
Definition RPCManagerRefreshGateway (data : string) : H (RPC.Response * bool) :=
  match unmarshal_manager data with
  | inl err => answer (RPC.BodyError err) false RPC.StatusBadRequest false
  | inr name =>
    s <- hget ;;
    match sd_Managers s !! name with
    | None => invalid_manager
    | Some manager =>
      g <- GetGateway manager ;;
      match snd g with
      | Some e => answer (RPC.BodyError e) false StatusInternalServerError false
      | None =>
        set_manager name (with_Gateway (fst g) manager) ;;
        answer RPC.BodyTrue true RPC.StatusOK true
      end
    end
  end.

End Daemon_code.

(** *** [AuthenticateSession] ([errors.go])

    [session] is [session.Values["user"]] when it is there and is a
    [[]byte].  [unmarshal_user] is [json.Unmarshal(userBody, &user)] on
    the nil [user]: the user it leaves, nil when nothing was decoded, and
    the error.  [ID_String] is [snowflake.ID.String].  The result is
    [None] when the call panics on a nil user. *)
Record DiscordUser : Type := mkDiscordUser {
  du_ID : Z;
  du_Username : string
}.

Section Session_code.
Variable unmarshal_user : string -> option DiscordUser * option error.
Variable ID_String : Z -> string.

(** The loop over [sg.Configuration.ElevatedUsers]. *)
Fixpoint elevated (users : list string) (user : option DiscordUser) : option bool :=
  match users with
  | [] => Some false
  | userID :: rest =>
      match user with
      | None => None
      | Some u =>
          if String.eqb userID (ID_String (du_ID u)) then Some true
          else elevated rest user
      end
  end.

Definition AuthenticateSession (configuration : SandwichConfiguration)
    (session : option string) : option (bool * option DiscordUser) :=
  match session with
  | None => Some (false, None)
  | Some userBody =>
      match snd (unmarshal_user userBody) with
      | Some _ => Some (false, fst (unmarshal_user userBody))
      | None =>
          if sc_Public configuration
          then Some (true, fst (unmarshal_user userBody))
          else
            match elevated (sc_ElevatedUsers configuration)
                    (fst (unmarshal_user userBody)) with
            | Some auth => Some (auth, fst (unmarshal_user userBody))
            | None => None
            end
      end
  end.

End Session_code.

(** *** Notions used to state the theorems about the daemon *)

(** Every pointer of [sg.Configuration.Managers] points to a
    configuration. *)
Definition valid_pointers (s : Sandwich) : Prop :=
  Forall (fun p => is_Some (sd_heap s !! p)) (sc_Managers (sd_Configuration s)).

(** The identifier of the configuration at [p]. *)
Definition identifier_at (h : list ManagerConfiguration) (p : nat) : string :=
  match h !! p with
  | Some c => cfg_Identifier c
  | None => ""
  end.

(** Whether the text holds a space. *)
Fixpoint has_space (s : string) : bool :=
  match s with
  | EmptyString => false
  | String c rest => Ascii.eqb c " "%char || has_space rest
  end.

End Daemon.

(** Every shard group of the manager is registered under a number below
    the counter of the manager. *)
Definition registered_below (mg : RPC.ManagerState) : Prop :=
  forall k, is_Some (RPC.ms_ShardGroups mg !! k) -> 0 <= k < RPC.ms_ShardGroupIter mg.

(** ** A daemon with one manager, to run the handlers on *)
Module DaemonCases.
Import Daemon.
Import Stdlib.Strings.Ascii.

(** [strings.TrimSpace] on ASCII text. *)
Definition is_space (c : ascii) : bool :=
  let n := nat_of_ascii c in
  ((9 <=? n)%nat && (n <=? 13)%nat) || (n =? 32)%nat.

Fixpoint trim_left (s : string) : string :=
  match s with
  | EmptyString => EmptyString
  | String c rest => if is_space c then trim_left rest else s
  end.

Definition reverse_string (s : string) : string :=
  string_of_list_ascii (rev (list_ascii_of_string s)).

Definition trim_space (s : string) : string :=
  reverse_string (trim_left (reverse_string (trim_left s))).

Definition configuration0 : ManagerConfiguration :=
  mkConfiguration true true "welcomer" "Welcomer" "token"
    (mkBot None true false 2 32511 250 5)
    (mkCaching true true false false "welcomer")
    (mkEvents (Some ["TYPING_START"]) (Some ["PRESENCE_UPDATE"]))
    (mkMessaging "sandwich" "sandwich" false)
    (mkSharding true 1).

(** The update a request carries: other blacklists, another token. *)
Definition configuration1 : ManagerConfiguration :=
  mkConfiguration true true "welcomer" "Welcomer" "token2"
    (mkBot None true false 2 32511 250 5)
    (mkCaching true true false false "welcomer")
    (mkEvents (Some ["GUILD_CREATE"]) None)
    (mkMessaging "sandwich" "sandwich" true)
    (mkSharding true 1).

(** A configuration whose token is blank. *)
Definition configuration_blank : ManagerConfiguration := with_Token "  " configuration0.

Definition host_of (save : nat -> option error) (connect : nat -> option error)
    (gateway : nat -> RPC.GatewayBot * option error) : Host := {|
  TrimSpace := trim_space;
  NewClient := fun token url reverse _ => mkClient token url reverse;
  NewMQClient := fun type =>
    if String.eqb type "stan" then None
    else Some (ErrorString "No MQ client named");
  FetchJSON_gateway := gateway;
  producer_Connect := connect;
  stan_Connect := fun _ => None;
  rand_Intn := fun _ _ => 7;
  SaveConfiguration_result := save;
  unmarshal_configuration := fun data =>
    if String.eqb data "welcomer" then inr configuration1
    else inl (ErrorString "unexpected end of JSON input");
  unmarshal_create := fun data =>
    inr (mkManagerCreateEvent data true "token" "" "sandwich" "sandwich");
  unmarshal_confirm := fun data => inr (mkConfirmEvent data data);
  unmarshal_manager := fun data => inr data;
  unmarshal_shardgroup := fun data => inr (mkShardGroupEvent data 1)
|}.

Definition gateway0 (n : nat) : RPC.GatewayBot * option error :=
  (RPC.mkGatewayBot 2 1000, None).

Definition host0 : Host := host_of (fun _ => None) (fun _ => None) gateway0.

(** Saving fails: the disk is full. *)
Definition host_no_save : Host :=
  host_of (fun _ => Some (ErrorString "no space left on device")) (fun _ => None)
    gateway0.

(** The producer cannot be connected. *)
Definition host_no_connect : Host :=
  host_of (fun _ => None) (fun _ => Some (ErrorString "connection refused")) gateway0.

(** A manager as [Open] leaves it, with a closed shard group and a ready
    one. *)
Definition manager0 : Manager :=
  mkManager (Some false) "" 1 0 (Some (mkProducer "stan" (Some "sandwich"))) None
    (mkClient "token" "" false) (RPC.mkGatewayBot 2 1000)
    (<[0 := ShardGroupClosed]> (<[1 := ShardGroupReady]> ∅)) 2
    (Some ["TYPING_START"]) (Some ["PRESENCE_UPDATE"]).

Definition daemon0 : Sandwich :=
  mkSandwich [configuration0]
    (mkSandwichConfiguration [0%nat] "" "cluster" "stan" false ["143090142360371200"])
    (<["welcomer" := manager0]> ∅) false false 0 [].


(** A manager that was made and not opened. *)
Definition manager_new : Manager :=
  mkManager (Some false) "" 0 0 None None (mkClient "token" "" false) zeroGateway ∅ 0
    (Some []) (Some []).

Definition unmarshal_user (body : string) : option DiscordUser * option error :=
  if String.eqb body "null" then (None, None)
  else (Some (mkDiscordUser 143090142360371200 body), None).

End DaemonCases.

(** * Theorems *)

(** ** Reasoning about runs *)

Ltac run_monad :=
  repeat (progress (unfold bind, get, modify, emit, ret, halt; simpl)).

Lemma emitted_app {A} (w : World) (o : Outcome A) (evs : list Event) :
  w_trace (final o) = w_trace w ++ evs -> emitted w o = evs.
Proof. intros E. unfold emitted. rewrite E. apply drop_app_length. Qed.

Lemma close_error_not_context (err : error) (code : Z) :
  As_CloseError err = Some code ->
  Is_Canceled err = false /\ Is_DeadlineExceeded err = false.
Proof.
  induction err as [| |c r|c r|m|p inner IH]; simpl; intros E; try discriminate; auto.
Qed.

Lemma close_frame_not_matched (err : error) (code : Z) :
  close_frame_code err = Some code ->
  As_CloseError err = None
  /\ Is_Canceled err = false /\ Is_DeadlineExceeded err = false.
Proof.
  induction err as [| |c r|c r|m|p inner IH]; simpl; intros E; try discriminate; auto.
Qed.

(** ** Relations kept while connecting and reconnecting *)

Create HintDb keeps.

Section Keeps.
Context `{Env}.
Variable R : World -> World -> Prop.
Hypothesis F : Frame R.

Lemma keeps_ret {A} (a : A) : keeps R (ret a).
Proof. intros w. apply (frame_refl R F). Qed.

Lemma keeps_halt {A} (h : Halt) : keeps R (@halt A h).
Proof. intros w. apply (frame_refl R F). Qed.

Lemma keeps_get : keeps R get.
Proof. intros w. apply (frame_refl R F). Qed.

Lemma keeps_bind {A B} (m : M A) (k : A -> M B) :
  keeps R m -> (forall a, keeps R (k a)) -> keeps R (bind m k).
Proof.
  intros Hm Hk w. unfold bind. specialize (Hm w).
  destruct (m w) as [a w'|h w']; simpl in *; [|exact Hm].
  eapply (frame_trans R F); [exact Hm | apply Hk].
Qed.

Lemma keeps_on_panic {A} (d : M unit) (m : M A) :
  keeps R d -> keeps R m -> keeps R (on_panic d m).
Proof.
  intros Hd Hm w. unfold on_panic. specialize (Hm w).
  destruct (m w) as [a w'|h w']; [exact Hm|].
  destruct h; try exact Hm. specialize (Hd w').
  destruct (d w') as [u w''|h w'']; simpl in *;
    eapply (frame_trans R F); eauto.
Qed.

Lemma keeps_emit (e : Event) : is_sleep e = false -> keeps R (emit e).
Proof. intros He w. now apply (frame_emit R F). Qed.

Lemma keeps_count (f : Counters -> Counters) : keeps R (count f).
Proof. intros w. apply (frame_count R F). Qed.

Lemma keeps_set_Status v : keeps R (set_Status v).
Proof. intros w. apply (frame_Status R F). Qed.

Lemma keeps_set_ctx_done v : keeps R (set_ctx_done v).
Proof. intros w. apply (frame_ctx_done R F). Qed.

Lemma keeps_set_wsConn v : keeps R (set_wsConn v).
Proof. intros w. apply (frame_wsConn R F). Qed.

Lemma keeps_set_HeartbeatActive v : keeps R (set_HeartbeatActive v).
Proof. intros w. apply (frame_HeartbeatActive R F). Qed.

Lemma keeps_set_Heartbeat i m : keeps R (set_Heartbeat i m).
Proof. intros w. apply (frame_Heartbeat R F). Qed.

Lemma keeps_set_Retries v : keeps R (set_Retries v).
Proof. intros w. apply (frame_Retries R F). Qed.

Lemma keeps_set_Remaining v : keeps R (set_Remaining v).
Proof. intros w. apply (frame_Remaining R F). Qed.

Lemma keeps_CreateBucket store name limit per :
  keeps R (CreateBucket store name limit per).
Proof.
  unfold CreateBucket. apply keeps_bind; [now apply keeps_emit|intros _].
  destruct store; intros w.
  - apply (frame_Buckets R F).
  - apply (frame_sandwichBuckets R F).
Qed.

Hint Extern 1 (keeps _ (emit _)) => apply keeps_emit; reflexivity : keeps.
Hint Resolve keeps_ret keeps_halt keeps_get keeps_count
  keeps_set_Status keeps_set_ctx_done keeps_set_wsConn keeps_set_HeartbeatActive
  keeps_set_Heartbeat keeps_set_Retries keeps_set_Remaining keeps_CreateBucket : keeps.

Ltac keeps_step :=
  lazymatch goal with
  | |- keeps _ (bind _ _) => apply keeps_bind; [ | intros ? ]
  | |- keeps _ (on_panic _ _) => apply keeps_on_panic
  | |- keeps _ (if ?b then _ else _) => destruct b
  | |- keeps _ (match ?x with _ => _ end) => destruct x
  | |- keeps _ _ => solve [ auto with keeps ]
  end.
Ltac keeps_tac := cbv zeta; repeat (keeps_step; cbv zeta).

Lemma keeps_WaitForBucket store name : keeps R (WaitForBucket store name).
Proof. unfold WaitForBucket. keeps_tac. Qed.
Lemma keeps_ResetBucket store name : keeps R (ResetBucket store name).
Proof. unfold ResetBucket. keeps_tac. Qed.
Hint Resolve keeps_WaitForBucket keeps_ResetBucket : keeps.

Lemma keeps_PublishEvent msg data extra : keeps R (PublishEvent msg data extra).
Proof. unfold PublishEvent. keeps_tac. Qed.
Hint Resolve keeps_PublishEvent : keeps.

Lemma keeps_SetStatus status : keeps R (SetStatus status).
Proof. unfold SetStatus. keeps_tac. Qed.
Hint Resolve keeps_SetStatus : keeps.

Lemma keeps_WriteJSON op i : keeps R (WriteJSON op i).
Proof. unfold WriteJSON, ws_Write. keeps_tac. Qed.
Hint Resolve keeps_WriteJSON : keeps.

Lemma keeps_SendEvent op data : keeps R (SendEvent op data).
Proof. unfold SendEvent. keeps_tac. Qed.
Hint Resolve keeps_SendEvent : keeps.

Lemma keeps_CloseWS code : keeps R (CloseWS code).
Proof. unfold CloseWS. keeps_tac. Qed.
Hint Resolve keeps_CloseWS : keeps.

Lemma keeps_Close code : keeps R (Close code).
Proof. unfold Close, cancel. keeps_tac. Qed.
Hint Resolve keeps_Close : keeps.

Lemma keeps_Connect_handshake : keeps R Connect_handshake.
Proof. unfold Connect_handshake, Identify_, Resume_. keeps_tac. Qed.
Hint Resolve keeps_Connect_handshake : keeps.

Lemma keeps_Connect_after_handshake herr : keeps R (Connect_after_handshake herr).
Proof. unfold Connect_after_handshake. keeps_tac. Qed.
Hint Resolve keeps_Connect_after_handshake : keeps.

Lemma keeps_Connect_deferred err : keeps R (Connect_deferred err).
Proof. unfold Connect_deferred. keeps_tac. Qed.
Hint Resolve keeps_Connect_deferred : keeps.

Lemma keeps_Connect_dialed url : keeps R (Connect_dialed url).
Proof.
  unfold Connect_dialed, FeedWebsocket, readMessage, hello_heartbeat. keeps_tac.
Qed.
Hint Resolve keeps_Connect_dialed : keeps.

Lemma keeps_Connect_hashed token url bucket : keeps R (Connect_hashed token url bucket).
Proof. unfold Connect_hashed. keeps_tac. Qed.
Hint Resolve keeps_Connect_hashed : keeps.

Lemma keeps_Connect : keeps R Connect.
Proof. unfold Connect. keeps_tac. Qed.
Hint Resolve keeps_Connect : keeps.

Hypothesis frame_sleep : forall d w, R w (upd_trace (fun t => t ++ [EvSleep d]) w).

Lemma keeps_Reconnect_loop fuel code wait : keeps R (Reconnect_loop fuel code wait).
Proof.
  revert wait. induction fuel as [|fuel IH]; intros wait; simpl; keeps_tac.
  intros w. apply frame_sleep.
Qed.
Hint Resolve keeps_Reconnect_loop : keeps.

Lemma keeps_Reconnect fuel code : keeps R (Reconnect fuel code).
Proof. unfold Reconnect. keeps_tac. Qed.

End Keeps.

Lemma Frame_same_session : Frame same_session.
Proof.
  split; unfold same_session; simpl; try tauto.
  intros a b c [-> ->] [-> ->]. tauto.
Qed.

Lemma Frame_same_group : Frame same_group.
Proof.
  split; unfold same_group; simpl; try reflexivity.
  intros a b c E1 E2. now rewrite E2.
Qed.

Lemma Frame_trace_grew : Frame trace_grew.
Proof.
  split; unfold trace_grew; simpl;
    try (intros; exists []; now rewrite app_nil_r).
  - intros a b c [e1 E1] [e2 E2]. exists (e1 ++ e2).
    now rewrite E2, E1, app_assoc.
  - intros e w _. now exists [e].
Qed.

Lemma Frame_bucket_stays (name : string) : Frame (bucket_stays name).
Proof.
  split; unfold bucket_stays; simpl; auto.
  intros name' b w b0 E. unfold insert_new.
  destruct (mg_Buckets (w_manager w) !! name') eqn:E'; [exact E|].
  destruct (decide (name' = name)) as [->|Hne]; [congruence|].
  now rewrite lookup_insert_ne.
Qed.

(** ** Running the building blocks *)

Lemma run_bind {A B} (m : M A) (k : A -> M B) (w w1 : World) (a : A) :
  m w = Done a w1 -> bind m k w = k a w1.
Proof. intros E. unfold bind. now rewrite E. Qed.

Lemma bind_run_eq {A B} (m m' : M A) (k : A -> M B) (w w' : World) :
  m w = m' w' -> bind m k w = bind m' k w'.
Proof. unfold bind. now intros ->. Qed.

Lemma bind_assoc_run {A B C} (m : M A) (k : A -> M B) (k' : B -> M C)
    (w w1 : World) (a : A) :
  m w = Done a w1 -> bind (bind m k) k' w = bind (k a) k' w1.
Proof. intros E. unfold bind. now rewrite E. Qed.

Section Runs.
Context `{Env}.

Lemma PublishEvent_run msg data extra w :
  PublishEvent msg data extra w = Done (publish_outcome w) (published msg data extra w).
Proof.
  unfold PublishEvent, published, publish_outcome, publish_events, count.
  run_monad.
  destruct w as [sh mg grp sb ab wg ch [a b c d e f] tr]; simpl.
  destruct (mg_ProducerClient mg); simpl; [reflexivity|].
  now rewrite app_nil_r.
Qed.

Lemma SetStatus_run status w :
  SetStatus status w =
    Done (publish_outcome (upd_shard (with_Status status) w)) (status_set status w).
Proof.
  unfold SetStatus, set_Status. run_monad. apply PublishEvent_run.
Qed.

Lemma CreateBucket_run store name limit per w :
  CreateBucket store name limit per w = Done tt (bucket_created store name limit per w).
Proof. unfold CreateBucket, bucket_created. destruct store; reflexivity. Qed.

Lemma renew_context_run w :
  (if sh_ctx_done (w_shard w) then set_ctx_done false else ret tt) w =
    Done tt (upd_shard (with_ctx_done false) w).
Proof.
  destruct w as [[st sid done conn hb hi hm rt sq ss] mg grp sb ab wg ch cnt tr].
  simpl. destruct done; reflexivity.
Qed.

Lemma dial_run u w :
  (sh_wsConn (w_shard w) = None -> dial_result (n_dial (w_counters w)) = None) ->
  match sh_wsConn (w_shard w) with
  | None => FeedWebsocket u
  | Some _ => ret None
  end w = Done None (dialed u w).
Proof.
  intros Hd. unfold dialed, dial_events, conn_in_use.
  destruct w as [[st sid done conn hb hi hm rt sq ss] mg grp sb ab wg ch [a b c d e f] tr].
  simpl in *. destruct conn as [conn|]; simpl.
  - unfold ret. now rewrite app_nil_r.
  - unfold FeedWebsocket, count, set_wsConn. run_monad. now rewrite Hd.
Qed.

Lemma readMessage_run w msg :
  read_result (n_read (w_counters w)) = ReadMessage msg ->
  readMessage w = Done (inr msg) (upd_counters bump_read w).
Proof. intros E. unfold readMessage, count. run_monad. now rewrite E. Qed.

Lemma start_heartbeat_run w :
  (if sh_HeartbeatActive (w_shard w) then ret tt
   else emit EvGoHeartbeat ;; set_HeartbeatActive true) w =
    Done tt (heartbeat_started w).
Proof.
  unfold heartbeat_started, heartbeat_events.
  destruct w as [[st sid done conn hb hi hm rt sq ss] mg grp sb ab wg ch cnt tr].
  destruct hb; cbn; [|reflexivity].
  unfold ret, upd_shard, upd_trace; cbn. now rewrite app_nil_r.
Qed.

Lemma SendEvent_run (op : Z) (data : SentData) (w : World) :
  marshal_error (I_SentPayload (mkSent op data)) = None ->
  SendEvent op data w = Done (send_outcome w) (sent op data w).
Proof.
  intros Hm. unfold SendEvent, WriteJSON, ws_Write, WaitForBucket, count,
    sent, send_events, send_outcome.
  rewrite Hm. simpl iface_neq_GatewayOp. cbv iota.
  destruct w as [[st sid done conn hb hi hm rt sq ss] mg grp sb ab wg ch [a b c d e f] tr].
  destruct conn as [conn|]; run_monad; unfold upd_counters, upd_trace; simpl;
    rewrite <- ?app_assoc; reflexivity.
Qed.

Lemma hello_heartbeat_run data w :
  0 < hello_interval data ->
  hello_heartbeat data w = Done tt (hello_set data w).
Proof.
  intros Hi. apply Z.leb_gt in Hi. unfold hello_interval in Hi.
  unfold hello_heartbeat, set_Heartbeat. run_monad. now rewrite Hi.
Qed.

Lemma on_panic_Done {A} (d : M unit) (m : M A) (w w' : World) (a : A) :
  m w = Done a w' -> on_panic d m w = Done a w'.
Proof. intros E. unfold on_panic. now rewrite E. Qed.

Lemma Connect_dialed_run (u : string) (hello : ReceivedPayload) (w : World) :
  (sh_wsConn (w_shard w) = None -> dial_result (n_dial (w_counters w)) = None) ->
  read_result (n_read (w_counters w)) = ReadMessage hello ->
  0 < hello_interval (rp_Data hello) ->
  Connect_dialed u w =
    bind Connect_handshake Connect_after_handshake
      (heartbeat_started (hello_set (rp_Data hello)
         (upd_counters bump_read (dialed u (status_set ShardConnecting w))))).
Proof.
  intros Hdial Hread Hpos. unfold Connect_dialed.
  rewrite (run_bind _ _ _ _ _ (SetStatus_run ShardConnecting w)).
  unfold bind at 1, get at 1.
  set (w4 := status_set ShardConnecting w).
  assert (Hdial' : sh_wsConn (w_shard w4) = None ->
                   dial_result (n_dial (w_counters w4)) = None) by exact Hdial.
  rewrite (run_bind _ _ _ _ _ (dial_run _ _ Hdial')).
  set (w5 := dialed _ w4).
  assert (Hread' : read_result (n_read (w_counters w5)) = ReadMessage hello)
    by exact Hread.
  rewrite (run_bind _ _ _ _ _ (readMessage_run _ _ Hread')).
  rewrite (run_bind _ _ _ _ _ (on_panic_Done _ _ _ _ _ (hello_heartbeat_run _ _ Hpos))).
  unfold bind at 1, get at 1.
  rewrite (run_bind _ _ _ _ _ (start_heartbeat_run _)).
  reflexivity.
Qed.

(** [Connect] reaches its handshake in the world [before_handshake]. *)
Lemma Connect_reaches_handshake (w : World) (hash : string) (hello : ReceivedPayload) :
  mg_MaxConcurrency (w_manager w) <> 0 ->
  QuickHash (mg_Token (w_manager w)) = inr hash ->
  (sh_wsConn (w_shard w) = None -> dial_result (n_dial (w_counters w)) = None) ->
  read_result (n_read (w_counters w)) = ReadMessage hello ->
  0 < hello_interval (rp_Data hello) ->
  Connect w =
    bind (bind Connect_handshake Connect_after_handshake) Connect_deferred
      (before_handshake hash hello w).
Proof.
  intros Hmc Hq Hdial Hread Hpos. apply Z.eqb_neq in Hmc.
  unfold Connect, before_handshake.
  rewrite (run_bind _ _ _ _ _ (SetStatus_run ShardWaiting w)).
  set (w1 := status_set ShardWaiting w).
  assert (Hmc' : (mg_MaxConcurrency (w_manager w1) =? 0) = false) by exact Hmc.
  assert (Hq' : QuickHash (mg_Token (w_manager w1)) = inr hash) by exact Hq.
  unfold bind at 1, get at 1. cbv zeta.
  rewrite Hmc'.
  rewrite (run_bind _ _ _ _ _ (renew_context_run _)).
  rewrite (run_bind _ _ _ _ _ (CreateBucket_run _ _ _ _ _)).
  unfold Connect_hashed. rewrite Hq'.
  rewrite (run_bind _ _ _ _ _ (CreateBucket_run _ _ _ _ _)).
  set (w3 := bucket_created SandwichBuckets _ _ _ _).
  assert (Hdial' : sh_wsConn (w_shard w3) = None ->
                   dial_result (n_dial (w_counters w3)) = None) by exact Hdial.
  assert (Hread' : read_result (n_read (w_counters w3)) = ReadMessage hello)
    by exact Hread.
  apply bind_run_eq.
  apply (Connect_dialed_run _ hello w3 Hdial' Hread' Hpos).
Qed.
End Runs.

(** ** Writing to the socket *)
Section WriteJSON_facts.
Context `{Env}.

(** What [WriteJSON] does when the value marshals: the bucket wait is
    decided by the dynamic type of [i], never by [op]. *)
Lemma WriteJSON_emitted (op : Z) (i : iface) (w : World) :
  marshal_error i = None ->
  emitted w (WriteJSON op i w) =
    (if iface_neq_GatewayOp i GatewayOpHeartbeat
     then [EvWaitForBucket ManagerBuckets (bucket_name_ws w)] else [])
    ++ match sh_wsConn (w_shard w) with
       | Some conn => [EvWsWrite conn i]
       | None => []
       end.
Proof.
  intros Hm. apply emitted_app. unfold WriteJSON. rewrite Hm.
  destruct (iface_neq_GatewayOp i GatewayOpHeartbeat);
    unfold WaitForBucket, ws_Write, count; run_monad;
    destruct (sh_wsConn (w_shard w)); simpl;
    rewrite <- ?app_assoc, ?app_nil_r; reflexivity.
Qed.

(** The only value for which [WriteJSON] skips the bucket is the opcode
    itself boxed in the interface, which [SendEvent] never passes. *)
Lemma WriteJSON_bypass_iff (i : iface) :
  iface_neq_GatewayOp i GatewayOpHeartbeat = false <-> i = I_GatewayOp GatewayOpHeartbeat.
Proof.
  destruct i as [op|p]; simpl; split; intros E; try discriminate.
  - apply negb_false_iff, Z.eqb_eq in E. now subst.
  - injection E as ->. reflexivity.
Qed.

(** C1: every frame sent through [SendEvent] waits on the shard's send
    bucket [ws:{shard_id}:{shard_count}] before it is written, whatever
    the opcode, Heartbeat included: [WriteJSON] compares the payload, not
    the opcode, with [GatewayOpHeartbeat]. *)
Theorem SendEvent_waits_for_send_bucket (op : Z) (data : SentData) (w : World) :
  marshal_error (I_SentPayload (mkSent op data)) = None ->
  emitted w (SendEvent op data w) =
    EvWaitForBucket ManagerBuckets (bucket_name_ws w)
    :: match sh_wsConn (w_shard w) with
       | Some conn => [EvWsWrite conn (I_SentPayload (mkSent op data))]
       | None => []
       end.
Proof.
  intros Hm. rewrite (SendEvent_run op data w Hm).
  apply emitted_app. reflexivity.
Qed.

End WriteJSON_facts.

(** The heartbeat of a connected shard with sequence 42 takes a slot of
    bucket ["ws:0:1"] before its frame is written. *)
Lemma SendEvent_waits_for_send_bucket_heartbeat :
  @marshal_error Demo.env0 (I_SentPayload (mkSent GatewayOpHeartbeat (DataInt64 42))) = None
  /\ emitted Demo.world_ready
       (@SendEvent Demo.env0 GatewayOpHeartbeat (DataInt64 42) Demo.world_ready) =
     [EvWaitForBucket ManagerBuckets "ws:0:1";
      EvWsWrite 0 (I_SentPayload (mkSent GatewayOpHeartbeat (DataInt64 42)))].
Proof.
  split; [reflexivity|].
  exact (@SendEvent_waits_for_send_bucket Demo.env0 GatewayOpHeartbeat (DataInt64 42)
           Demo.world_ready eq_refl).
Defined.

(** ** Events *)
Section OnEvent_facts.
Context `{Env}.

Lemma Reconnect_same_session fuel code w :
  same_session w (final (Reconnect fuel code w)).
Proof.
  apply (keeps_Reconnect same_session Frame_same_session).
  intros d w0. split; reflexivity.
Qed.

(** C2 as amended: HELLO, HeartbeatAck, Reconnect and unknown opcodes
    leave the stored sequence as it was; a Dispatch payload overwrites it
    with its own sequence, compared with nothing, so the stored sequence
    does not decrease exactly when the payload's is at least as large;
    on a non-resumable InvalidSession the session id is cleared and the
    sequence set to 0 before the reconnect. *)
Theorem OnEvent_sequence (fuel : nat) (msg : ReceivedPayload) (w : World) :
  (returns_early (rp_Op msg) ->
     sh_seq (w_shard (final (OnEvent fuel msg w))) = sh_seq (w_shard w))
  /\ (rp_Op msg = GatewayOpDispatch ->
      exists w', OnEvent fuel msg w = Done tt w'
        /\ sh_seq (w_shard w') = rp_Sequence msg
        /\ (sh_seq (w_shard w) <= sh_seq (w_shard w')
            <-> sh_seq (w_shard w) <= rp_Sequence msg))
  /\ (rp_Op msg = GatewayOpInvalidSession ->
      json_Get_d_ToBool (rp_Data msg) = false ->
      OnEvent fuel msg w =
        (Reconnect fuel reconnectCloseCode ;; set_seq (rp_Sequence msg))
          (upd_shard (with_seq 0) (upd_shard (with_sessionID "") w))).
Proof.
  split; [|split].
  - intros Hop. unfold OnEvent.
    destruct Hop as [->|[->|[->|Hop]]]; simpl.
    + unfold hello_heartbeat, set_Heartbeat. run_monad. now destruct (_ <=? 0).
    + reflexivity.
    + unfold bind. pose proof (Reconnect_same_session fuel reconnectCloseCode w) as [E _].
      destruct (Reconnect fuel reconnectCloseCode w); simpl in *; exact E.
    + unfold GatewayOpHeartbeat, GatewayOpInvalidSession, GatewayOpHello, GatewayOpReconnect,
        GatewayOpDispatch, GatewayOpHeartbeatACK, GatewayOpVoiceStateUpdate, GatewayOpIdentify,
        GatewayOpRequestGuildMembers, GatewayOpResume, GatewayOpStatusUpdate.
      repeat match goal with
             | |- context [?a =? ?b] => destruct (Z.eqb_spec a b); [lia|]
             end.
      reflexivity.
  - intros Hop. unfold OnEvent. rewrite Hop. simpl. unfold set_seq. run_monad.
    eexists; split; [reflexivity|]. simpl. split; reflexivity.
  - intros Hop Hres. unfold OnEvent. rewrite Hop. simpl. rewrite Hres.
    reflexivity.
Qed.
End OnEvent_facts.

(** A dispatch with sequence 5 reaches a shard whose stored sequence is 42:
    the stored sequence drops to 5, and the payload is no InvalidSession. *)
Lemma OnEvent_sequence_decreases :
  sh_seq (w_shard Demo.world_ready) = 42
  /\ sh_seq (w_shard (final (@OnEvent Demo.env0 1 (Demo.message_create 5) Demo.world_ready))) = 5
  /\ rp_Op (Demo.message_create 5) <> GatewayOpInvalidSession.
Proof. repeat split. discriminate. Qed.

Lemma OnEvent_sequence_witness :
  (returns_early (rp_Op Demo.heartbeat_ack)
   /\ sh_seq (w_shard (final (@OnEvent Demo.env0 1 Demo.heartbeat_ack Demo.world_ready))) = 42)
  /\ (rp_Op (Demo.message_create 43) = GatewayOpDispatch
      /\ exists w', @OnEvent Demo.env0 1 (Demo.message_create 43) Demo.world_ready = Done tt w'
           /\ sh_seq (w_shard w') = 43
           /\ (42 <= sh_seq (w_shard w') <-> 42 <= 43))
  /\ (rp_Op Demo.invalid_session = GatewayOpInvalidSession
      /\ @json_Get_d_ToBool Demo.env0 (rp_Data Demo.invalid_session) = false
      /\ @OnEvent Demo.env0 1 Demo.invalid_session Demo.world_ready =
           (@Reconnect Demo.env0 1 reconnectCloseCode ;; set_seq 0)
             (upd_shard (with_seq 0) (upd_shard (with_sessionID "") Demo.world_ready))).
Proof.
  split; [|split].
  - split; [right; left; reflexivity|].
    apply (proj1 (@OnEvent_sequence Demo.env0 1 Demo.heartbeat_ack Demo.world_ready)).
    right; left; reflexivity.
  - split; [reflexivity|].
    apply (proj1 (proj2 (@OnEvent_sequence Demo.env0 1 (Demo.message_create 43)
                           Demo.world_ready))).
    reflexivity.
  - split; [reflexivity|]. split; [reflexivity|].
    apply (proj2 (proj2 (@OnEvent_sequence Demo.env0 1 Demo.invalid_session
                           Demo.world_ready))); reflexivity.
Defined.

(** ** Listening *)
Section Listen_facts.
Context `{Env}.

(** The branch [Listen] has for the six fatal close codes, which a
    [*websocket.CloseError] in the chain of the read error enters: the
    shard stores the error text on its group, closes the group, sets the
    group status to Erroring and returns the error; no dial is made. *)
Lemma Listen_fatal_branch (fuel : nat) (wsConn : option nat) (w : World)
    (err : error) (code : Z) :
  sh_ctx_done (w_shard w) = false ->
  read_result (n_read (w_counters w)) = ReadError err ->
  As_CloseError err = Some code ->
  fatal_close_code code = true ->
  exists w',
    Listen_loop (S fuel) wsConn w = Done (Some err) w'
    /\ Listen (S fuel) w = Done (Some err) w'
    /\ grp_Error (w_group w') = Error_ err
    /\ grp_Status (w_group w') = ShardGroupError
    /\ sh_Status (w_shard w') = ShardClosed
    /\ sh_wsConn (w_shard w') = None
    /\ n_dial (w_counters w') = n_dial (w_counters w)
    /\ w_trace w' = w_trace w ++ group_close_events w.
Proof.
  intros Hctx Hread Hclose Hfatal.
  destruct (close_error_not_context err code Hclose) as [Hc Hd].
  destruct w as [[st sid done conn hb hi hm rt sq ss] mg grp sb ab wg ch cnt tr].
  simpl in *. subst done.
  unfold Listen. run_monad.
  unfold readMessage, count. run_monad. rewrite Hread. run_monad.
  rewrite Hc, Hd, Hclose, Hfatal. simpl.
  unfold ShardGroup_Close, ShardGroup_SetStatus, Close, cancel, CloseWS, SetStatus,
    PublishEvent, group_close_events, status_packet, publish_events,
    set_GroupError, set_GroupStatus, set_Status, set_ctx_done, set_HeartbeatActive,
    set_wsConn, count.
  run_monad.
  destruct conn as [conn|]; simpl;
    destruct (mg_ProducerClient mg); simpl;
    (eexists; repeat split; simpl; rewrite <- ?app_assoc; reflexivity).
Qed.
(** C4 (code bug): a close frame reaches [Listen] as a
    [websocket.CloseError] value wrapped in the read error.  [errors.As]
    is asked for a [*websocket.CloseError] and passes the value over, so
    the switch on the six fatal codes is not entered.  Whatever the code
    of the frame, [Listen] goes on as after any other read error: on the
    connection it remembers it does what [Reconnect] does and returns
    what [Reconnect] returns.  Nothing is recorded on the shard group and
    the group is neither closed nor set to Erroring. *)
Theorem Listen_close_frame_reconnects (fuel : nat) (wsConn : option nat) (w : World)
    (err : error) (code : Z) :
  sh_ctx_done (w_shard w) = false ->
  read_result (n_read (w_counters w)) = ReadError err ->
  close_frame_code err = Some code ->
  (conn_eqb wsConn (sh_wsConn (w_shard w)) = true ->
   Listen_loop (S fuel) wsConn w =
     Reconnect fuel StatusNormalClosure (upd_counters bump_read w))
  /\ Listen (S fuel) w = Reconnect fuel StatusNormalClosure (upd_counters bump_read w)
  /\ w_group (final (Listen (S fuel) w)) = w_group w.
Proof.
  intros Hctx Hread Hframe.
  destruct (close_frame_not_matched err code Hframe) as (Hn & Hc & Hd).
  assert (Hloop : forall c, conn_eqb c (sh_wsConn (w_shard w)) = true ->
            Listen_loop (S fuel) c w =
              Reconnect fuel StatusNormalClosure (upd_counters bump_read w)).
  { intros c Hsame.
    destruct w as [[st sid done conn hb hi hm rt sq ss] mg grp sb ab wg ch cnt tr].
    simpl in *. subst done.
    run_monad. unfold readMessage, count. run_monad. rewrite Hread. run_monad.
    rewrite Hc, Hd, Hn. simpl. now rewrite Hsame. }
  assert (Hlisten : Listen (S fuel) w =
            Reconnect fuel StatusNormalClosure (upd_counters bump_read w)).
  { unfold Listen. unfold bind at 1, get at 1. apply Hloop.
    destruct (sh_wsConn (w_shard w)); simpl; [apply Nat.eqb_refl|reflexivity]. }
  split; [exact (Hloop wsConn)|]. split; [exact Hlisten|].
  rewrite Hlisten.
  exact (keeps_Reconnect same_group Frame_same_group (fun d w0 => eq_refl)
           fuel StatusNormalClosure (upd_counters bump_read w)).
Qed.
End Listen_facts.

(** The gateway closes a ready shard with code 4014, one of the six:
    [Listen] dials three more times before it gives up, and the shard
    group is still Connecting, with no error recorded. *)
Lemma Listen_close_frame_reconnects_witness :
  @fatal_close_code Demo.env_closed 4014 = true
  /\ close_frame_code Demo.disallowed_intents = Some 4014
  /\ exists w',
      @Listen Demo.env_closed 5 Demo.world_ready = Done (Some Demo.disallowed_intents) w'
      /\ n_dial (w_counters w') = 3%nat
      /\ grp_Status (w_group w') = ShardGroupConnecting
      /\ grp_Error (w_group w') = EmptyString.
Proof.
  split; [reflexivity|]. split; [reflexivity|].
  rewrite (proj1 (proj2 (@Listen_close_frame_reconnects Demo.env_closed 4 (Some 0%nat)
                           Demo.world_ready Demo.disallowed_intents 4014
                           eq_refl eq_refl eq_refl))).
  vm_compute. eexists. repeat split.
Defined.

(** ** The handshake *)
Section Connect_facts.
Context `{Env}.

(** [Connect] up to the creation of its send bucket. *)
Lemma Connect_to_hashed (w : World) :
  mg_MaxConcurrency (w_manager w) <> 0 ->
  Connect w =
    Connect_hashed (mg_Token (w_manager w)) (mg_GatewayURL (w_manager w))
      (Z.rem (sh_ShardID (w_shard w)) (mg_MaxConcurrency (w_manager w)))
      (bucket_created ManagerBuckets (bucket_name_ws w) 120 Minute
         (upd_shard (with_ctx_done false) (status_set ShardWaiting w))).
Proof.
  intros Hmc. apply Z.eqb_neq in Hmc.
  unfold Connect.
  rewrite (run_bind _ _ _ _ _ (SetStatus_run ShardWaiting w)).
  set (w1 := status_set ShardWaiting w).
  assert (Hmc' : (mg_MaxConcurrency (w_manager w1) =? 0) = false) by exact Hmc.
  unfold bind at 1, get at 1. cbv zeta.
  rewrite Hmc'.
  rewrite (run_bind _ _ _ _ _ (renew_context_run _)).
  rewrite (run_bind _ _ _ _ _ (CreateBucket_run _ _ _ _ _)).
  reflexivity.
Qed.

Lemma before_handshake_trace hash hello w :
  w_trace (before_handshake hash hello w) = w_trace w ++ events_before_handshake hash w.
Proof.
  unfold before_handshake, events_before_handshake, heartbeat_started, hello_set,
    dialed, status_set, published, bucket_created, status_packet.
  cbn [w_trace upd_shard upd_trace upd_counters upd_manager upd_sandwichBuckets
       w_shard w_manager w_group w_counters with_Status with_ctx_done sh_ShardID
       sh_wsConn sh_HeartbeatActive with_Heartbeat with_wsConn with_Buckets
       mg_ProducerClient mg_ChannelName mg_Identifier mg_GatewayURL mg_MaxConcurrency].
  unfold publish_events, dial_events, heartbeat_events.
  cbn [w_trace upd_shard upd_trace upd_counters upd_manager upd_sandwichBuckets
       w_shard w_manager w_group w_counters with_Status with_ctx_done sh_ShardID
       sh_wsConn sh_HeartbeatActive with_Heartbeat with_wsConn with_Buckets
       mg_ProducerClient mg_ChannelName mg_Identifier mg_GatewayURL mg_MaxConcurrency].
  rewrite <- !app_assoc. reflexivity.
Qed.

Lemma before_handshake_shard hash hello w :
  sh_seq (w_shard (before_handshake hash hello w)) = sh_seq (w_shard w)
  /\ sh_sessionID (w_shard (before_handshake hash hello w)) = sh_sessionID (w_shard w)
  /\ sh_wsConn (w_shard (before_handshake hash hello w)) = Some (conn_in_use w)
  /\ sh_ShardID (w_shard (before_handshake hash hello w)) = sh_ShardID (w_shard w).
Proof. repeat split. Qed.

Lemma before_handshake_manager hash hello w :
  mg_Token (w_manager (before_handshake hash hello w)) = mg_Token (w_manager w)
  /\ mg_MaxConcurrency (w_manager (before_handshake hash hello w))
      = mg_MaxConcurrency (w_manager w)
  /\ n_write (w_counters (before_handshake hash hello w)) = n_write (w_counters w).
Proof. repeat split. Qed.

(** The handshake of a shard that holds a session. *)
Lemma Connect_handshake_resume (w : World) :
  wants_identify w = false ->
  (forall p, marshal_error (I_SentPayload p) = None) ->
  let data := DataResume (mkResume (mg_Token (w_manager w))
                (sh_sessionID (w_shard w)) (sh_seq (w_shard w))) in
  Connect_handshake w =
    match send_outcome w with
    | Some e => Done (Some e) (sent GatewayOpResume data w)
    | None => Done None (status_set ShardReady (sent GatewayOpResume data w))
    end.
Proof.
  intros Hw Hm data. unfold wants_identify in Hw.
  unfold Connect_handshake. unfold bind at 1, get at 1. cbv zeta.
  rewrite Hw. unfold Resume_.
  rewrite (bind_assoc_run _ _ _ _ _ _ (eq_refl : get w = Done w w)).
  rewrite (run_bind _ _ _ _ _ (SendEvent_run _ _ _ (Hm _))).
  fold data. destruct (send_outcome w) as [e|]; [reflexivity|].
  rewrite (run_bind _ _ _ _ _ (SetStatus_run _ _)). reflexivity.
Qed.

(** The handshake of a shard without a session. *)
Lemma Connect_handshake_identify (w : World) (hash : string) :
  wants_identify w = true ->
  QuickHash (mg_Token (w_manager w)) = inr hash ->
  mg_MaxConcurrency (w_manager w) <> 0 ->
  (forall p, marshal_error (I_SentPayload p) = None) ->
  exists herr w',
    Connect_handshake w = Done herr w'
    /\ w_trace w' = w_trace w
         ++ [EvWaitForBucket SandwichBuckets
               (bucket_name_gw hash
                  (Z.rem (sh_ShardID (w_shard w)) (mg_MaxConcurrency (w_manager w))));
             EvWaitForBucket ManagerBuckets (bucket_name_ws w)]
         ++ match sh_wsConn (w_shard w) with
            | Some conn =>
                [EvWsWrite conn (I_SentPayload (mkSent GatewayOpIdentify
                   (DataIdentify (identify_data w))))]
            | None => []
            end
    /\ sh_Status (w_shard w') = sh_Status (w_shard w)
    /\ sh_wsConn (w_shard w') = sh_wsConn (w_shard w)
    /\ mg_Token (w_manager w') = mg_Token (w_manager w)
    /\ mg_MaxConcurrency (w_manager w') = mg_MaxConcurrency (w_manager w).
Proof.
  intros Hw Hq Hmc Hm. unfold wants_identify in Hw. apply Z.eqb_neq in Hmc.
  unfold Connect_handshake. unfold bind at 1, get at 1. cbv zeta.
  rewrite Hw. unfold Identify_, set_Remaining, WaitForBucket.
  unfold bind at 1, get at 1. unfold bind at 1, modify at 1.
  unfold bind at 1, get at 1. cbv zeta.
  cbn [w_manager upd_manager mg_Token with_Remaining mg_MaxConcurrency].
  rewrite Hq, Hmc.
  unfold bind at 1, emit at 1, modify at 1.
  rewrite (SendEvent_run _ _ _ (Hm _)).
  do 2 eexists. split; [reflexivity|].
  destruct w as [[st sid done conn hb hi hm rt sq ss] mg grp sb ab wg ch cnt tr].
  cbn. rewrite <- !app_assoc. repeat split; reflexivity.
Qed.

(** What follows the handshake changes neither the status nor the frames
    written. *)
Lemma Connect_tail (herr : option error) (w : World) (hash : string) :
  QuickHash (mg_Token (w_manager w)) = inr hash ->
  mg_MaxConcurrency (w_manager w) <> 0 ->
  exists r w' evs,
    bind (Connect_after_handshake herr) Connect_deferred w = Done r w'
    /\ w_trace w' = w_trace w ++ evs
    /\ sh_Status (w_shard w') = sh_Status (w_shard w)
    /\ existsb is_identify_frame evs = false
    /\ existsb is_resume_frame evs = false
    /\ existsb is_identify_bucket_wait evs = false.
Proof.
  intros Hq Hmc. apply Z.eqb_neq in Hmc.
  unfold Connect_after_handshake, Connect_deferred, ResetBucket, CloseWS, count, set_wsConn.
  destruct w as [[st sid done conn hb hi hm rt sq ss] mg grp sb ab wg ch cnt tr].
  simpl in Hq, Hmc.
  destruct herr as [e|].
  - destruct conn as [conn|]; run_monad.
    + exists (Some e). eexists. exists [EvWsClose conn StatusNormalClosure].
      repeat split.
    + exists (Some e). eexists. exists []. simpl. rewrite app_nil_r. repeat split.
  - run_monad. rewrite Hq, Hmc. run_monad.
    destruct (first_event (n_first cnt)) as [e|m|]; run_monad.
    + destruct conn as [conn|]; run_monad;
        do 2 eexists; eexists (_ :: _); (split; [reflexivity|]); simpl;
          rewrite <- ?app_assoc; simpl; repeat split.
    + do 2 eexists; eexists (_ :: _); (split; [reflexivity|]); simpl;
          rewrite <- ?app_assoc; simpl; repeat split.
    + do 2 eexists; eexists (_ :: _); (split; [reflexivity|]); simpl;
          rewrite <- ?app_assoc; simpl; repeat split.
Qed.

Lemma events_before_handshake_clean hash w :
  existsb is_identify_frame (events_before_handshake hash w) = false
  /\ existsb is_resume_frame (events_before_handshake hash w) = false
  /\ existsb is_identify_bucket_wait (events_before_handshake hash w) = false.
Proof.
  unfold events_before_handshake, status_packet, publish_events, dial_events,
    heartbeat_events.
  destruct (mg_ProducerClient (w_manager w)), (sh_wsConn (w_shard w)),
    (sh_HeartbeatActive (w_shard w)); repeat split.
Qed.

Lemma sent_trace op data w :
  w_trace (sent op data w) = w_trace w ++ send_events op data w.
Proof. reflexivity. Qed.

Lemma status_set_trace status w :
  w_trace (status_set status w) = w_trace w ++ status_packet status w.
Proof. reflexivity. Qed.

Lemma status_packet_sent status op data w :
  status_packet status (sent op data w) = status_packet status w.
Proof. reflexivity. Qed.

Lemma existsb_status_packet (f : Event -> bool) status w :
  (forall c p, f (EvPublish c p) = false) ->
  existsb f (status_packet status w) = false.
Proof.
  intros Hf. unfold status_packet, publish_events.
  destruct (mg_ProducerClient (w_manager w)); simpl; [now rewrite Hf|reflexivity].
Qed.

(** C5: after a HELLO that announces a positive heartbeat interval,
    [Connect] writes an IDENTIFY frame exactly when the stored session id
    is empty or the stored sequence is 0, and a RESUME frame exactly
    otherwise.  On the RESUME path the frame carries the token, the
    session id and the sequence, no identify bucket is waited on, and
    once the frame is written the status is Ready.  (With an interval
    that is not positive the new ticker panics and HELLO is not
    processed to its end.) *)
Theorem Connect_identify_or_resume (w : World) (hash : string) (hello : ReceivedPayload) :
  mg_MaxConcurrency (w_manager w) <> 0 ->
  QuickHash (mg_Token (w_manager w)) = inr hash ->
  (sh_wsConn (w_shard w) = None -> dial_result (n_dial (w_counters w)) = None) ->
  read_result (n_read (w_counters w)) = ReadMessage hello ->
  0 < hello_interval (rp_Data hello) ->
  (forall p, marshal_error (I_SentPayload p) = None) ->
  existsb is_identify_frame (emitted w (Connect w)) = wants_identify w
  /\ existsb is_resume_frame (emitted w (Connect w)) = negb (wants_identify w)
  /\ (wants_identify w = false ->
      In (resume_frame w) (emitted w (Connect w))
      /\ existsb is_identify_bucket_wait (emitted w (Connect w)) = false
      /\ (write_result (n_write (w_counters w)) = None ->
          sh_Status (w_shard (final (Connect w))) = ShardReady)).
Proof.
  intros Hmc Hq Hdial Hread Hpos Hm.
  rewrite (Connect_reaches_handshake w hash hello Hmc Hq Hdial Hread Hpos).
  pose proof (before_handshake_shard hash hello w) as (Eseq & Esid & Econn & Eid).
  pose proof (before_handshake_manager hash hello w) as (Etok & Emc & Ewr).
  pose proof (before_handshake_trace hash hello w) as Etr.
  pose proof (events_before_handshake_clean hash w) as (Ci & Cr & Cb).
  set (w9 := before_handshake hash hello w) in *.
  assert (Hw9 : wants_identify w9 = wants_identify w).
  { unfold wants_identify. now rewrite Eseq, Esid. }
  assert (Hq9 : QuickHash (mg_Token (w_manager w9)) = inr hash) by now rewrite Etok.
  assert (Hmc9 : mg_MaxConcurrency (w_manager w9) <> 0) by now rewrite Emc.
  destruct (wants_identify w) eqn:Hw.
  - (* IDENTIFY *)
    destruct (Connect_handshake_identify w9 hash Hw9 Hq9 Hmc9 Hm)
      as (herr & w10 & Erun & Etr10 & _ & _ & Etok10 & Emc10).
    rewrite (bind_assoc_run _ _ _ _ _ _ Erun).
    rewrite <- Etok10 in Hq9. rewrite <- Emc10 in Hmc9.
    destruct (Connect_tail herr w10 hash Hq9 Hmc9)
      as (r & w11 & evs & Erun' & Etr11 & _ & Ti & Tr & Tb).
    rewrite Erun'.
    assert (E : emitted w (Done r w11) =
                events_before_handshake hash w
                ++ ([EvWaitForBucket SandwichBuckets
                       (bucket_name_gw hash
                          (Z.rem (sh_ShardID (w_shard w9)) (mg_MaxConcurrency (w_manager w9))));
                     EvWaitForBucket ManagerBuckets (bucket_name_ws w9);
                     EvWsWrite (conn_in_use w)
                       (I_SentPayload (mkSent GatewayOpIdentify
                          (DataIdentify (identify_data w9))))]
                    ++ evs)).
    { apply emitted_app. cbn [final]. rewrite Etr11, Etr10, Etr, Econn.
      rewrite <- !app_assoc. reflexivity. }
    rewrite E. rewrite !existsb_app, Ci, Cr, Ti, Tr. simpl.
    split; [reflexivity|]. split; [reflexivity|]. discriminate.
  - (* RESUME *)
    pose proof (Connect_handshake_resume w9 Hw9 Hm) as Erun. cbv zeta in Erun.
    rewrite Etok, Esid, Eseq in Erun.
    set (data := DataResume _) in Erun.
    assert (Esend : send_events GatewayOpResume data w9 =
              [EvWaitForBucket ManagerBuckets (bucket_name_ws w9);
               EvWsWrite (conn_in_use w) (I_SentPayload (mkSent GatewayOpResume data))]).
    { unfold send_events. now rewrite Econn. }
    assert (Eout : send_outcome w9 =
              wrap_err "sendEvent writeJson"
                (wrap_err "writeJSON write" (write_result (n_write (w_counters w))))).
    { unfold send_outcome. now rewrite Econn, Ewr. }
    destruct (send_outcome w9) as [e|] eqn:Eo.
    + rewrite (bind_assoc_run _ _ _ _ _ _ Erun).
      set (w10 := sent GatewayOpResume data w9) in *.
      destruct (Connect_tail (Some e) w10 hash Hq9 Hmc9)
        as (r & w11 & evs & Erun' & Etr11 & _ & Ti & Tr & Tb).
      rewrite Erun'.
      assert (E : emitted w (Done r w11) =
                  events_before_handshake hash w
                  ++ (send_events GatewayOpResume data w9 ++ evs)).
      { apply emitted_app. cbn [final]. rewrite Etr11. unfold w10.
        rewrite sent_trace, Etr. rewrite <- !app_assoc. reflexivity. }
      rewrite E, Esend. rewrite !existsb_app, Ci, Cr, Cb, Ti, Tr, Tb. simpl.
      split; [reflexivity|]. split; [reflexivity|]. intros _. split; [|split].
      * apply in_or_app. right. simpl. right. left. reflexivity.
      * reflexivity.
      * intros Hwr. rewrite Hwr in Eout. discriminate.
    + rewrite (bind_assoc_run _ _ _ _ _ _ Erun).
      set (w10 := status_set ShardReady (sent GatewayOpResume data w9)) in *.
      destruct (Connect_tail None w10 hash Hq9 Hmc9)
        as (r & w11 & evs & Erun' & Etr11 & Est & Ti & Tr & Tb).
      rewrite Erun'.
      assert (E : emitted w (Done r w11) =
                  events_before_handshake hash w
                  ++ (send_events GatewayOpResume data w9
                      ++ (status_packet ShardReady w9 ++ evs))).
      { apply emitted_app. cbn [final]. rewrite Etr11. unfold w10.
        rewrite status_set_trace, status_packet_sent, sent_trace, Etr.
        rewrite <- !app_assoc. reflexivity. }
      rewrite E, Esend. rewrite !existsb_app, Ci, Cr, Cb, Ti, Tr, Tb.
      rewrite !existsb_status_packet by reflexivity. simpl.
      split; [reflexivity|]. split; [reflexivity|]. intros _. split; [|split].
      * apply in_or_app. right. simpl. right. left. reflexivity.
      * reflexivity.
      * intros _. rewrite Est. reflexivity.
Qed.
End Connect_facts.

(** A shard that holds session "S1" at sequence 42 resumes. *)
Lemma Connect_identify_or_resume_witness :
  mg_MaxConcurrency (w_manager Demo.world_ready) <> 0
  /\ @QuickHash Demo.env0 (mg_Token (w_manager Demo.world_ready)) = inr "#token"
  /\ @read_result Demo.env0 (n_read (w_counters Demo.world_ready)) = ReadMessage Demo.hello0
  /\ 0 < @hello_interval Demo.env0 (rp_Data Demo.hello0)
  /\ In (EvWsWrite 0 (I_SentPayload (mkSent GatewayOpResume
            (DataResume (mkResume "token" "S1" 42)))))
        (emitted Demo.world_ready (@Connect Demo.env0 Demo.world_ready))
  /\ existsb is_identify_frame (emitted Demo.world_ready (@Connect Demo.env0 Demo.world_ready))
       = false
  /\ existsb is_identify_bucket_wait
       (emitted Demo.world_ready (@Connect Demo.env0 Demo.world_ready)) = false
  /\ sh_Status (w_shard (final (@Connect Demo.env0 Demo.world_ready))) = ShardReady.
Proof.
  split; [discriminate|]. split; [reflexivity|]. split; [reflexivity|].
  split; [reflexivity|].
  pose proof (@Connect_identify_or_resume Demo.env0 Demo.world_ready "#token" Demo.hello0
                ltac:(discriminate) eq_refl ltac:(discriminate) eq_refl eq_refl
                (fun _ => eq_refl)) as (Hi & _ & Hr).
  destruct (Hr eq_refl) as (Hin & Hb & Hs).
  split; [exact Hin|]. split; [exact Hi|]. split; [exact Hb|]. exact (Hs eq_refl).
Defined.

Section Connect_bucket.
Context `{Env}.

(** C10: [Connect] creates the send bucket [ws:{shard_id}:{shard_count}]
    with a limit of 120 per minute, not 115; where no such bucket existed
    the registry holds [(120, 1 minute)] under that name when [Connect]
    is over. *)
Theorem Connect_send_bucket_limit (w : World) :
  mg_MaxConcurrency (w_manager w) <> 0 ->
  (exists pre post,
     emitted w (Connect w) =
       pre ++ EvCreateBucket ManagerBuckets (bucket_name_ws w) 120 (60 * Second) :: post)
  /\ (mg_Buckets (w_manager w) !! bucket_name_ws w = None ->
      mg_Buckets (w_manager (final (Connect w))) !! bucket_name_ws w
        = Some (mkBucket 120 (60 * Second))).
Proof.
  intros Hmc. rewrite (Connect_to_hashed w Hmc).
  set (w2 := bucket_created ManagerBuckets _ _ _ _).
  set (m := Connect_hashed _ _ _).
  pose proof (keeps_Connect_hashed trace_grew Frame_trace_grew
                (mg_Token (w_manager w)) (mg_GatewayURL (w_manager w))
                (Z.rem (sh_ShardID (w_shard w)) (mg_MaxConcurrency (w_manager w))) w2)
    as [post Hpost].
  pose proof (keeps_Connect_hashed (bucket_stays (bucket_name_ws w))
                (Frame_bucket_stays _)
                (mg_Token (w_manager w)) (mg_GatewayURL (w_manager w))
                (Z.rem (sh_ShardID (w_shard w)) (mg_MaxConcurrency (w_manager w))) w2)
    as Hstay.
  fold m in Hpost, Hstay.
  split.
  - exists (status_packet ShardWaiting w), post.
    apply emitted_app. rewrite Hpost.
    change (w_trace w2) with
      ((w_trace w ++ status_packet ShardWaiting w)
       ++ [EvCreateBucket ManagerBuckets (bucket_name_ws w) 120 Minute]).
    rewrite <- !app_assoc. reflexivity.
  - intros Habsent. apply Hstay.
    change (mg_Buckets (w_manager w2)) with
      (insert_new (bucket_name_ws w) (mkBucket 120 Minute) (mg_Buckets (w_manager w))).
    unfold insert_new. rewrite Habsent. apply lookup_insert_eq.
Qed.
End Connect_bucket.

(** On a fresh manager the first [Connect] of shard 0 of 1 registers
    ["ws:0:1"] with 120 sends per minute. *)
Lemma Connect_send_bucket_limit_fresh :
  mg_MaxConcurrency (w_manager Demo.world0) <> 0
  /\ mg_Buckets (w_manager (final (@Connect Demo.env0 Demo.world0))) !! "ws:0:1"
       = Some (mkBucket 120 (60 * Second)).
Proof.
  split; [discriminate|].
  apply (proj2 (@Connect_send_bucket_limit Demo.env0 Demo.world0 ltac:(discriminate))).
  reflexivity.
Defined.

(** ** Reconnecting *)

Lemma next_wait_after_first_failure : next_wait (1 * Second) = 600 * Nanosecond.
Proof. reflexivity. Qed.

Lemma next_wait_stays : next_wait (600 * Nanosecond) = 600 * Nanosecond.
Proof. reflexivity. Qed.

Lemma next_wait_capped (wait : Duration) :
  maxReconnectWait < wait * 2 < 2 ^ 63 -> next_wait wait = 600 * Nanosecond.
Proof.
  intros Hw. unfold next_wait, wrap64, wrap.
  replace ((wait * 2 + 2 ^ (64 - 1)) mod 2 ^ 64 - 2 ^ (64 - 1)) with (wait * 2).
  - destruct (Z.gtb_spec (wait * 2) maxReconnectWait) as [_|Hle]; [reflexivity|lia].
  - unfold maxReconnectWait in Hw.
    rewrite Z.mod_small; [lia|]. change (2 ^ (64 - 1)) with (2 ^ 63).
    change (2 ^ 64) with (2 * 2 ^ 63). lia.
Qed.

Lemma waits_capped (n : nat) :
  waits n (600 * Nanosecond) = repeat (600 * Nanosecond) n.
Proof.
  induction n as [|n IH]; [reflexivity|].
  cbn [waits repeat]. rewrite next_wait_stays. now rewrite IH.
Qed.

Lemma waits_from_one_second (n : nat) :
  waits (S n) Second = Second :: repeat (600 * Nanosecond) n.
Proof.
  cbn [waits]. change (next_wait Second) with (600 * Nanosecond).
  now rewrite waits_capped.
Qed.

Lemma Frame_grew_without_sleep : Frame grew_without_sleep.
Proof.
  split; unfold grew_without_sleep; simpl;
    try (intros; exists []; split; [now rewrite app_nil_r | reflexivity]).
  - intros a b c [e1 [E1 S1]] [e2 [E2 S2]]. exists (e1 ++ e2). split.
    + now rewrite E2, E1, app_assoc.
    + unfold sleeps in *. now rewrite flat_map_app, S1, S2.
  - intros e w He. exists [e]. split; [reflexivity|].
    destruct e; try discriminate He; reflexivity.
Qed.

Section Reconnect_facts.
Context `{Env}.

Lemma Reconnect_loop_trace_grew fuel code wait w :
  trace_grew w (final (Reconnect_loop fuel code wait w)).
Proof.
  apply (keeps_Reconnect_loop trace_grew Frame_trace_grew).
  intros d w0. now exists [EvSleep d].
Qed.

(** The loop pauses after each failed round but the last, for the
    durations [waits] lists. *)
Lemma Reconnect_loop_sleeps fuel code : forall wait w,
  exists n, sleeps (emitted w (Reconnect_loop fuel code wait w)) = waits n wait.
Proof.
  induction fuel as [|fuel IH]; intros wait w.
  - exists O. unfold emitted. simpl. now rewrite drop_all.
  - destruct (keeps_Connect grew_without_sleep Frame_grew_without_sleep w)
      as [e1 [E1 S1]].
    cbn [Reconnect_loop]. unfold bind at 1.
    destruct (Connect w) as [[err|] w1|h w1]; cbn [final] in E1.
    + unfold bind at 1, get. unfold bind at 1, set_Retries, modify.
      set (w2 := upd_shard _ w1).
      assert (E2 : w_trace w2 = w_trace w ++ e1) by exact E1.
      destruct (wrap32 (sh_Retries (w_shard w1) - 1) <=? 0).
      * assert (Hk : keeps grew_without_sleep (Close code ;; Connect)).
        { apply (keeps_bind _ Frame_grew_without_sleep);
            [apply (keeps_Close _ Frame_grew_without_sleep)
            |intros _; apply (keeps_Connect _ Frame_grew_without_sleep)]. }
        destruct (Hk w2) as [e3 [E3 S3]]. exists O.
        rewrite (emitted_app w _ (e1 ++ e3)).
        -- unfold sleeps in *. now rewrite flat_map_app, S1, S3.
        -- now rewrite E3, E2, app_assoc.
      * unfold bind at 1, emit, modify. set (w3 := upd_trace _ w2).
        assert (E3 : w_trace w3 = w_trace w ++ e1 ++ [EvSleep wait]).
        { unfold w3. cbn [w_trace upd_trace]. rewrite E2. now rewrite app_assoc. }
        destruct (IH (next_wait wait) w3) as [n Hn].
        destruct (Reconnect_loop_trace_grew fuel code (next_wait wait) w3)
          as [e4 E4].
        rewrite (emitted_app w3 _ e4 E4) in Hn.
        exists (S n). rewrite (emitted_app w _ (e1 ++ [EvSleep wait] ++ e4)).
        -- unfold sleeps in *. rewrite !flat_map_app, S1, Hn. reflexivity.
        -- rewrite E4, E3. now rewrite <- !app_assoc.
    + exists O. rewrite (emitted_app w _ e1); [exact S1|].
      unfold bind, get, set_Retries, modify, ret. exact E1.
    + exists O. rewrite (emitted_app w _ e1); [exact S1|exact E1].
Qed.

(** Whatever the dials answer, [Reconnect] pauses for at most one second
    and then only for 600 ns: no pause reaches two seconds. *)
Lemma Reconnect_sleeps fuel code w :
  sleeps (emitted w (Reconnect fuel code w)) = []
  \/ exists n, sleeps (emitted w (Reconnect fuel code w))
               = Second :: repeat (600 * Nanosecond) n.
Proof.
  assert (Hk : keeps grew_without_sleep (Close code ;; SetStatus ShardReconnecting)).
  { apply (keeps_bind _ Frame_grew_without_sleep);
      [apply (keeps_Close _ Frame_grew_without_sleep)
      |intros _; apply (keeps_SetStatus _ Frame_grew_without_sleep)]. }
  destruct (Hk w) as [e1 [E1 S1]].
  unfold Reconnect. unfold bind in E1 |- *.
  destruct (Close code w) as [u w1|h w1].
  - destruct (SetStatus ShardReconnecting w1) as [err w2|h w2]; cbn [final] in E1.
    + destruct (Reconnect_loop_sleeps fuel code Second w2) as [n Hn].
      destruct (Reconnect_loop_trace_grew fuel code Second w2) as [e2 E2].
      rewrite (emitted_app w2 _ e2 E2) in Hn.
      assert (Hs : sleeps (emitted w (Reconnect_loop fuel code Second w2)) = waits n Second).
      { rewrite (emitted_app w _ (e1 ++ e2)).
        - unfold sleeps in *. now rewrite flat_map_app, S1, Hn.
        - now rewrite E2, E1, app_assoc. }
      rewrite Hs. destruct n as [|n].
      * now left.
      * right. exists n. apply waits_from_one_second.
    + left. rewrite (emitted_app w _ e1); [exact S1|exact E1].
  - left. rewrite (emitted_app w _ e1); [exact S1|exact E1].
Qed.
End Reconnect_facts.

(** C3: [Reconnect] never follows the schedule min(2^n s, 600 s).  Under
    every environment and from every world it pauses either not at all
    or for 1 s and then for 600 ns each time; with three retries left and the first two
    dials refused it sleeps 1 s after the first failure and 600 ns, not
    2 s, after the second, and the third attempt connects. *)
Theorem Reconnect_second_wait_is_600ns :
  (forall (E : Env) fuel code w,
     sleeps (emitted w (@Reconnect E fuel code w)) = []
     \/ exists n, sleeps (emitted w (@Reconnect E fuel code w))
                  = Second :: repeat (600 * Nanosecond) n)
  /\ (let run := @Reconnect Demo.env_refused 3 StatusNormalClosure Demo.world_retries in
      sleeps (emitted Demo.world_retries run) = [1 * Second; 600 * Nanosecond]
      /\ (exists w', run = Done None w')
      /\ 600 * Nanosecond <> Z.min (2 * Second) (600 * Second)).
Proof.
  split; [intros E fuel code w; apply Reconnect_sleeps|].
  split; [vm_compute; reflexivity|]. split; [|discriminate].
  vm_compute. eexists. reflexivity.
Qed.

(** ** Dispatch *)
Section OnDispatch_facts.
Context `{Env}.

(** C7 as amended: without a producer client [OnDispatch] fails at once.
    With one, an event whose type is in [event_blacklist] is dropped
    before the state-update step and nothing is published; one whose type
    is in [produce_blacklist] only has the state-update step run; any
    other event is published, wrapped with the metadata, when the
    state-update step returns no error and asks to publish. *)
Theorem OnDispatch_blacklists (msg : ReceivedPayload) (w : World) :
  (mg_ProducerClient (w_manager w) = false ->
     OnDispatch msg w = Done (Some (ErrorString "no producer client found")) w)
  /\ (mg_ProducerClient (w_manager w) = true ->
      StringSliceInclude (mg_EventBlacklist (w_manager w)) (rp_Type msg) = true ->
      OnDispatch msg w = Done None w)
  /\ (mg_ProducerClient (w_manager w) = true ->
      StringSliceInclude (mg_EventBlacklist (w_manager w)) (rp_Type msg) = false ->
      StringSliceInclude (mg_ProduceBlacklist (w_manager w)) (rp_Type msg) = true ->
      emitted w (OnDispatch msg w) = [EvStateDispatch msg])
  /\ (mg_ProducerClient (w_manager w) = true ->
      StringSliceInclude (mg_EventBlacklist (w_manager w)) (rp_Type msg) = false ->
      StringSliceInclude (mg_ProduceBlacklist (w_manager w)) (rp_Type msg) = false ->
      forall data extra,
      StateDispatch msg = (data, extra, true, None) ->
      emitted w (OnDispatch msg w) =
        [EvStateDispatch msg;
         EvPublish (mg_ChannelName (w_manager w))
           (mkPacket msg (PubResult data) extra VERSION (mg_Identifier (w_manager w)))]).
Proof.
  unfold OnDispatch, PublishEvent, count, emitted.
  destruct w as [sh mg grp sb ab wg ch cnt tr]. cbn [w_manager w_trace].
  repeat split.
  - intros Hc. run_monad. now rewrite Hc.
  - intros Hc He. run_monad. now rewrite Hc, He.
  - intros Hc He Hp. run_monad. rewrite Hc, He. run_monad.
    destruct (StateDispatch msg) as [[[data extra] ok] [e|]]; simpl;
      [|destruct ok; simpl; rewrite ?Hp]; apply drop_app_length.
  - intros Hc He Hp data extra Hs. run_monad. rewrite Hc, He. run_monad.
    rewrite Hs. simpl. rewrite Hp. run_monad. rewrite Hc. run_monad.
    unfold upd_counters, upd_trace. simpl.
    rewrite <- app_assoc. apply drop_app_length.
Qed.
End OnDispatch_facts.

(** A MESSAGE_CREATE that is in neither blacklist is not published when the
    state-update step returns [should_publish = false]. *)
Lemma OnDispatch_not_published :
  StringSliceInclude (mg_EventBlacklist (w_manager Demo.world_blacklists)) "MESSAGE_CREATE" = false
  /\ StringSliceInclude (mg_ProduceBlacklist (w_manager Demo.world_blacklists)) "MESSAGE_CREATE" = false
  /\ publishes (emitted Demo.world_blacklists
       (@OnDispatch Demo.env_silent (Demo.message_create 43) Demo.world_blacklists)) = [].
Proof. repeat split. Qed.

(** On a manager that drops TYPING_START and does not publish
    PRESENCE_UPDATE: one event of each kind, and one without a producer. *)
Lemma OnDispatch_blacklists_witness :
  (mg_ProducerClient (w_manager Demo.world_no_producer) = false
   /\ @OnDispatch Demo.env0 (Demo.message_create 43) Demo.world_no_producer =
        Done (Some (ErrorString "no producer client found")) Demo.world_no_producer)
  /\ (StringSliceInclude (mg_EventBlacklist (w_manager Demo.world_blacklists))
        (rp_Type Demo.typing_start) = true
      /\ @OnDispatch Demo.env0 Demo.typing_start Demo.world_blacklists
           = Done None Demo.world_blacklists)
  /\ (StringSliceInclude (mg_ProduceBlacklist (w_manager Demo.world_blacklists))
        (rp_Type Demo.presence_update) = true
      /\ emitted Demo.world_blacklists
           (@OnDispatch Demo.env0 Demo.presence_update Demo.world_blacklists)
         = [EvStateDispatch Demo.presence_update])
  /\ (mg_ProducerClient (w_manager Demo.world_blacklists) = true
      /\ StringSliceInclude (mg_EventBlacklist (w_manager Demo.world_blacklists))
           "MESSAGE_CREATE" = false
      /\ StringSliceInclude (mg_ProduceBlacklist (w_manager Demo.world_blacklists))
           "MESSAGE_CREATE" = false
      /\ emitted Demo.world_blacklists
           (@OnDispatch Demo.env0 (Demo.message_create 43) Demo.world_blacklists) =
         [EvStateDispatch (Demo.message_create 43);
          EvPublish "sandwich"
            (mkPacket (Demo.message_create 43) (PubResult "{}") "" "1.0" "welcomerBeta")]).
Proof.
  split; [|split; [|split]].
  - split; [reflexivity|].
    apply (proj1 (@OnDispatch_blacklists Demo.env0 (Demo.message_create 43)
                    Demo.world_no_producer)). reflexivity.
  - split; [reflexivity|].
    apply (proj1 (proj2 (@OnDispatch_blacklists Demo.env0 Demo.typing_start
                           Demo.world_blacklists))); reflexivity.
  - split; [reflexivity|].
    apply (proj1 (proj2 (proj2 (@OnDispatch_blacklists Demo.env0 Demo.presence_update
                                  Demo.world_blacklists)))); reflexivity.
  - split; [reflexivity|]. split; [reflexivity|]. split; [reflexivity|].
    apply (proj2 (proj2 (proj2 (@OnDispatch_blacklists Demo.env0 (Demo.message_create 43)
             Demo.world_blacklists))) eq_refl eq_refl eq_refl "{}" "" eq_refl).
Defined.

(** ** Guild member chunking: one flow *)
Section Chunk_facts.
Context `{Env}.

Lemma memberChunks_run (k : nat) (n : Z) (w : World) :
  memberChunks k n w =
    Done (n + Z.of_nat k)
      (upd_trace (fun t => t ++ chunk_events k ++ [EvTick memberChunkTimeout]) w).
Proof.
  revert n w. induction k as [|k IH]; intros n w.
  - simpl. unfold bind, emit, modify, ret. now rewrite Z.add_0_r.
  - cbn [memberChunks]. unfold bind at 1, emit at 1, modify at 1.
    unfold bind at 1, emit at 1, modify at 1.
    rewrite IH. f_equal; [lia|].
    unfold upd_trace. cbn. f_equal. rewrite <- !app_assoc. reflexivity.
Qed.

(** The world in which a chunk flow has published its three entries. *)
Lemma cleanGuildChunks_run (guildID : Z) (w : World) (ch : nat) :
  grp_MemberChunkCallbacks (w_group w) !! guildID = Some ch ->
  w_chans w !! ch = Some false ->
  exists w', cleanGuildChunks guildID w = Done tt w'
    /\ guild_cleaned guildID w'
    /\ w_trace w' = w_trace w
    /\ w_abools w' = w_abools w
    /\ w_waitgroups w' = w_waitgroups w.
Proof.
  intros Hch Hopen. unfold cleanGuildChunks.
  destruct w as [sh mg [gid gsc ger gst mcc mcb mck] sb ab wg chs cnt tr].
  simpl in *. run_monad. rewrite Hch, Hopen. run_monad.
  eexists. split; [reflexivity|]. unfold guild_cleaned. simpl.
  rewrite !lookup_delete_eq. repeat split.
Qed.

Lemma chunkGuild_flow_run (guildID : Z) (w : World) :
  marshal_error (I_SentPayload (mkSent GatewayOpRequestGuildMembers
    (DataRequestGuildMembers (mkRequestGuildMembers guildID "" 0)))) = None ->
  send_outcome w = None ->
  let request := send_events GatewayOpRequestGuildMembers
                   (DataRequestGuildMembers (mkRequestGuildMembers guildID "" 0)) w in
  match chunk_signals (n_flow (w_counters w)) with
  | None =>
      exists w',
        chunkGuild_flow guildID w = Done (Some ErrChunkTimeout) w'
        /\ guild_cleaned guildID w'
        /\ w_trace w' = w_trace w ++ request
             ++ [EvNewTicker (10 * Second); EvTick (10 * Second)]
  | Some k =>
      exists w' completed chunksCallback,
        chunkGuild_flow guildID w = Done None w'
        /\ grp_MemberChunksComplete (w_group w') !! guildID = Some completed
        /\ abool_IsSet w' completed = true
        /\ grp_MemberChunksCallback (w_group w') !! guildID = Some chunksCallback
        /\ waitgroup_released w' chunksCallback = true
        /\ w_trace w' = w_trace w ++ request
             ++ [EvNewTicker (10 * Second)] ++ chunk_events (S k)
             ++ [EvTick (1 * Second);
                 EvGoAfter (10 * Second) (TaskCleanGuildChunks guildID)]
        /\ exists w'', run_task (TaskCleanGuildChunks guildID) w' = Done tt w''
             /\ guild_cleaned guildID w''
  end.
Proof.
  intros Hm Hsend request.
  destruct (chunk_signals (n_flow (w_counters w))) as [k|] eqn:Hsig;
    unfold chunkGuild_flow;
    (unfold bind at 1, get at 1; cbv zeta;
     do 6 (unfold bind at 1, modify at 1);
     lazymatch goal with
     | |- context [bind (SendEvent _ _) _ ?x] => set (w1 := x)
     end;
     assert (Hsend1 : send_outcome w1 = None) by exact Hsend;
     rewrite (run_bind _ _ _ _ _ (SendEvent_run _ _ w1 Hm)); rewrite Hsend1;
     unfold bind at 1, emit at 1, modify at 1;
     unfold bind at 1, get at 1;
     unfold bind at 1, count at 1, modify at 1;
     lazymatch goal with
     | |- context [chunk_signals (n_flow (w_counters ?x))] => set (w2 := x)
     end;
     assert (Hflow : n_flow (w_counters w2) = n_flow (w_counters w)) by reflexivity;
     rewrite Hflow, Hsig;
     assert (Hch : grp_MemberChunkCallbacks (w_group w2) !! guildID
                   = Some (length (w_chans w))) by (cbn; apply lookup_insert_eq);
     assert (Hopen : w_chans w2 !! length (w_chans w) = Some false)
       by (cbn; now apply list_lookup_middle);
     assert (Htr : w_trace w2 = w_trace w ++ request ++ [EvNewTicker (10 * Second)])
       by (cbn; rewrite <- !app_assoc; reflexivity)).
  - (* chunks arrived *)
    unfold bind at 1, emit at 1, modify at 1.
    unfold bind at 1, emit at 1, modify at 1.
    rewrite (run_bind _ _ _ _ _ (memberChunks_run _ _ _)).
    unfold bind at 1, modify at 1.
    unfold bind at 1, modify at 1.
    unfold bind at 1, emit at 1, modify at 1.
    unfold ret.
    lazymatch goal with
    | |- ex (fun _ => ex (fun _ => ex (fun _ => Done None ?x = _ /\ _))) => set (w3 := x)
    end.
    assert (Hab : w_abools w3 = <[length (w_abools w) := true]> (w_abools w ++ [false]))
      by reflexivity.
    assert (Hwg : w_waitgroups w3 =
                  <[length (w_waitgroups w) := 0]> (w_waitgroups w ++ [1])).
    { cbn. now rewrite list_lookup_middle. }
    exists w3, (length (w_abools w)), (length (w_waitgroups w)).
    split; [reflexivity|].
    split. { cbn. apply lookup_insert_eq. }
    split. { unfold abool_IsSet. rewrite Hab, list_lookup_insert_eq; [reflexivity|].
             rewrite length_app. simpl. lia. }
    split. { cbn. apply lookup_insert_eq. }
    split. { unfold waitgroup_released. rewrite Hwg, list_lookup_insert_eq; [reflexivity|].
             rewrite length_app. simpl. lia. }
    split. { change (w_trace w3) with
               ((((w_trace w2 ++ [EvChunkSignal]) ++ [EvTickerReset memberChunkTimeout])
                 ++ chunk_events k ++ [EvTick memberChunkTimeout])
                ++ [EvGoAfter chunkStatePersistTimeout (TaskCleanGuildChunks guildID)]).
             rewrite Htr. cbn [chunk_events]. rewrite <- !app_assoc. reflexivity. }
    destruct (cleanGuildChunks_run guildID w3 (length (w_chans w)) Hch Hopen)
      as (w4 & Erun & Hclean & _).
    exists w4. split; [exact Erun | exact Hclean].
  - (* no chunk before the first tick *)
    unfold bind at 1, emit at 1, modify at 1.
    lazymatch goal with
    | |- ex (fun _ => bind _ _ ?x = _ /\ _) => set (w3 := x)
    end.
    destruct (cleanGuildChunks_run guildID w3 (length (w_chans w)) Hch Hopen)
      as (w4 & Erun & Hclean & Etr4 & _).
    rewrite (run_bind _ _ _ _ _ Erun). unfold ret.
    exists w4. split; [reflexivity|]. split; [exact Hclean|].
    rewrite Etr4.
    change (w_trace w3) with (w_trace w2 ++ [EvTick initialMemberChunkTimeout]).
    rewrite Htr. rewrite <- !app_assoc. reflexivity.
Qed.

(** C8: a chunk flow whose request went out either sees no chunk signal
    before the 10 s ticker fires, and then removes the guild from all
    three maps and returns [ErrChunkTimeout]; or it sees one, goes on
    until the 1 s ticker fires with no further signal, sets
    [chunks_complete], releases the callback wait group and schedules
    the removal of the three entries 10 s later. *)
Theorem chunkGuild_timeouts (guildID : Z) (waitForTicket : bool) (w : World) :
  marshal_error (I_SentPayload (mkSent GatewayOpRequestGuildMembers
    (DataRequestGuildMembers (mkRequestGuildMembers guildID "" 0)))) = None ->
  send_outcome w = None ->
  let request := send_events GatewayOpRequestGuildMembers
                   (DataRequestGuildMembers (mkRequestGuildMembers guildID "" 0)) w in
  let ticket := if waitForTicket then [EvChunkTicket] else [] in
  let free := if waitForTicket then [EvChunkTicketFree] else [] in
  match chunk_signals (n_flow (w_counters w)) with
  | None =>
      exists w',
        chunkGuild guildID waitForTicket w = Done (Some ErrChunkTimeout) w'
        /\ guild_cleaned guildID w'
        /\ emitted w (chunkGuild guildID waitForTicket w) =
             ticket ++ request
             ++ [EvNewTicker (10 * Second); EvTick (10 * Second)] ++ free
  | Some k =>
      exists w' completed chunksCallback,
        chunkGuild guildID waitForTicket w = Done None w'
        /\ grp_MemberChunksComplete (w_group w') !! guildID = Some completed
        /\ abool_IsSet w' completed = true
        /\ grp_MemberChunksCallback (w_group w') !! guildID = Some chunksCallback
        /\ waitgroup_released w' chunksCallback = true
        /\ emitted w (chunkGuild guildID waitForTicket w) =
             ticket ++ request
             ++ [EvNewTicker (10 * Second)] ++ chunk_events (S k)
             ++ [EvTick (1 * Second);
                 EvGoAfter (10 * Second) (TaskCleanGuildChunks guildID)] ++ free
        /\ exists w'', run_task (TaskCleanGuildChunks guildID) w' = Done tt w''
             /\ guild_cleaned guildID w''
  end.
Proof.
  intros Hm Hsend request ticket free.
  destruct waitForTicket; unfold ticket, free.
  - (* with a limiter ticket *)
    set (w0 := upd_trace (fun t => t ++ [EvChunkTicket]) w).
    assert (Hsend0 : send_outcome w0 = None) by exact Hsend.
    pose proof (chunkGuild_flow_run guildID w0 Hm Hsend0) as Hflow.
    cbv zeta in Hflow.
    change (n_flow (w_counters w0)) with (n_flow (w_counters w)) in Hflow.
    change (send_events GatewayOpRequestGuildMembers
              (DataRequestGuildMembers (mkRequestGuildMembers guildID "" 0)) w0)
      with request in Hflow.
    change (w_trace w0) with (w_trace w ++ [EvChunkTicket]) in Hflow.
    assert (Etotal : forall r w', chunkGuild_flow guildID w0 = Done r w' ->
              chunkGuild guildID true w =
                Done r (upd_trace (fun t => t ++ [EvChunkTicketFree]) w')).
    { intros r w' Erun. unfold chunkGuild.
      unfold bind at 1, emit at 1, modify at 1. fold w0.
      rewrite (run_bind _ _ _ _ _ Erun). reflexivity. }
    destruct (chunk_signals (n_flow (w_counters w))) as [k|].
    + destruct Hflow as (w' & c & cb & Erun & Hc & Hset & Hcb & Hrel & Etr & w'' & Eclean & Hclean).
      rewrite (Etotal _ _ Erun).
      eexists. exists c, cb. split; [reflexivity|].
      split; [exact Hc|]. split; [exact Hset|]. split; [exact Hcb|].
      split; [exact Hrel|].
      split. { apply emitted_app. cbn [final w_trace upd_trace]. rewrite Etr.
               rewrite <- !app_assoc. reflexivity. }
      destruct w' as [sh mg grp sb ab wg chs cnt tr].
      unfold guild_cleaned, run_task, cleanGuildChunks in *.
      revert Eclean. run_monad.
      destruct (grp_MemberChunkCallbacks grp !! guildID) as [ch|]; [|discriminate].
      destruct (chs !! ch) as [[|]|]; try discriminate.
      intros [= <-]. eexists. split; [reflexivity|]. exact Hclean.
    + destruct Hflow as (w' & Erun & Hclean & Etr).
      rewrite (Etotal _ _ Erun).
      eexists. split; [reflexivity|].
      split; [exact Hclean|].
      apply emitted_app. cbn [final w_trace upd_trace]. rewrite Etr.
      rewrite <- !app_assoc. reflexivity.
  - (* without *)
    unfold chunkGuild.
    pose proof (chunkGuild_flow_run guildID w Hm Hsend) as Hflow.
    cbv zeta in Hflow. fold request in Hflow.
    destruct (chunk_signals (n_flow (w_counters w))) as [k|].
    + destruct Hflow as (w' & c & cb & Erun & Hc & Hset & Hcb & Hrel & Etr & Hclean).
      exists w', c, cb. repeat (split; [assumption|]).
      split; [|exact Hclean].
      apply emitted_app. rewrite Erun. cbn [final]. rewrite Etr.
      rewrite app_nil_r. reflexivity.
    + destruct Hflow as (w' & Erun & Hclean & Etr).
      exists w'. repeat (split; [assumption|]).
      apply emitted_app. rewrite Erun. cbn [final]. rewrite Etr.
      rewrite app_nil_r. reflexivity.
Qed.
End Chunk_facts.

(** Guild 7 on a ready shard: four chunk signals and then silence; and the
    same call when no chunk signal ever arrives. *)
Lemma chunkGuild_timeouts_witness :
  (@marshal_error Demo.env0 (I_SentPayload (mkSent GatewayOpRequestGuildMembers
      (DataRequestGuildMembers (mkRequestGuildMembers 7 "" 0)))) = None
   /\ @send_outcome Demo.env0 Demo.world_ready = None
   /\ exists w' completed chunksCallback,
        @chunkGuild Demo.env0 7 false Demo.world_ready = Done None w'
        /\ grp_MemberChunksComplete (w_group w') !! 7 = Some completed
        /\ abool_IsSet w' completed = true
        /\ grp_MemberChunksCallback (w_group w') !! 7 = Some chunksCallback
        /\ waitgroup_released w' chunksCallback = true
        /\ emitted Demo.world_ready (@chunkGuild Demo.env0 7 false Demo.world_ready) =
             [] ++ @send_events GatewayOpRequestGuildMembers
                     (DataRequestGuildMembers (mkRequestGuildMembers 7 "" 0)) Demo.world_ready
             ++ [EvNewTicker (10 * Second)] ++ chunk_events 4
             ++ [EvTick (1 * Second); EvGoAfter (10 * Second) (TaskCleanGuildChunks 7)] ++ []
        /\ exists w'', @run_task (TaskCleanGuildChunks 7) w' = Done tt w''
             /\ guild_cleaned 7 w'')
  /\ (@send_outcome Demo.env_no_chunks Demo.world_ready = None
      /\ exists w',
           @chunkGuild Demo.env_no_chunks 7 true Demo.world_ready
             = Done (Some ErrChunkTimeout) w'
           /\ guild_cleaned 7 w'
           /\ emitted Demo.world_ready
                (@chunkGuild Demo.env_no_chunks 7 true Demo.world_ready) =
              [EvChunkTicket]
              ++ @send_events GatewayOpRequestGuildMembers
                   (DataRequestGuildMembers (mkRequestGuildMembers 7 "" 0)) Demo.world_ready
              ++ [EvNewTicker (10 * Second); EvTick (10 * Second)] ++ [EvChunkTicketFree]).
Proof.
  split.
  - split; [reflexivity|]. split; [reflexivity|].
    exact (@chunkGuild_timeouts Demo.env0 7 false Demo.world_ready eq_refl eq_refl).
  - split; [reflexivity|].
    exact (@chunkGuild_timeouts Demo.env_no_chunks 7 true Demo.world_ready eq_refl eq_refl).
Defined.

(** ** Guild member chunking: several callers *)
Section ChunkGuild_facts.
Context `{Env}.

(** Once the entry of a guild is published, [ChunkGuild] sends nothing:
    it returns at once when the flow is complete, or when it finds no
    callback, and otherwise waits on the callback. *)
Lemma ChunkGuild_coalesces (guildID : Z) (wait : bool) (w : World) (completed : nat) :
  grp_MemberChunksComplete (w_group w) !! guildID = Some completed ->
  emitted w (ChunkGuild guildID wait w) = []
  /\ (abool_IsSet w completed = true -> ChunkGuild guildID wait w = Done None w).
Proof.
  intros Hc. unfold ChunkGuild, ChunkGuild_check, ChunkGuild_act, emitted.
  run_monad. rewrite Hc.
  destruct (abool_IsSet w completed); simpl.
  - split; [apply drop_all|reflexivity].
  - split; [|discriminate].
    destruct (grp_MemberChunksCallback (w_group w) !! guildID) as [cb|]; simpl.
    + destruct (waitgroup_released w cb); simpl; apply drop_all.
    + apply drop_all.
Qed.
End ChunkGuild_facts.

(** Two callers one after the other: one request. *)
Lemma ChunkGuild_in_turn_one_request :
  requests_for 7 (emitted Demo.world_ready
    (@run_schedule Demo.env0 [0; 0; 1; 1]%nat Demo.two_callers Demo.world_ready)) = 1%nat.
Proof. vm_compute. reflexivity. Qed.

(** C9: two callers of [ChunkGuild] for the same guild, each reading the
    maps before the other has published its entry, both start a flow: two
    RequestGuildMembers frames go out, and both calls return. *)
Theorem ChunkGuild_two_callers_two_requests :
  let run := @run_schedule Demo.env0 [0; 1; 0; 1]%nat Demo.two_callers Demo.world_ready in
  requests_for 7 (emitted Demo.world_ready run) = 2%nat
  /\ exists w', run = Done [mkCall 7 true (CallReturned None);
                           mkCall 7 true (CallReturned None)] w'.
Proof.
  split; [vm_compute; reflexivity|]. vm_compute. eexists. reflexivity.
Qed.

(** ** Creating a shard group over RPC *)
Section RPC_facts.
Variable unmarshal : string -> error + RPC.CreateEvent.
Variable GetGateway : string -> error + RPC.GatewayBot.
Variable ReturnRange : string -> Z -> list Z.

(** C6: a request for exactly as many shards as sessions remain is turned
    down with status 400 and no shard group is registered: the handler
    asks for strictly fewer shard ids than remaining sessions. *)
Theorem RPCManagerShardGroupCreate_exact_fit (managers : gmap string RPC.ManagerState)
    (data : string) (event : RPC.CreateEvent) (manager : RPC.ManagerState) :
  unmarshal data = inr event ->
  managers !! RPC.ev_Manager event = Some manager ->
  let manager1 := RPC.refreshed GetGateway manager event in
  Z.of_nat (length (RPC.plan_ids ReturnRange manager1 event))
    = RPC.gw_Remaining (RPC.ms_Gateway manager1) ->
  RPC.RPCManagerShardGroupCreate unmarshal GetGateway ReturnRange managers data =
    (<[RPC.ev_Manager event := manager1]> managers,
     RPC.mkResponse
       (RPC.BodyText ("Not enough sessions to start "
          +:+ itoa (RPC.gw_Remaining (RPC.ms_Gateway manager1))
          +:+ " shard(s). "
          +:+ itoa (RPC.gw_Remaining (RPC.ms_Gateway manager1))
          +:+ " remain"))
       false RPC.StatusBadRequest,
     true).
Proof.
  intros Hu Hm manager1 Hfit.
  unfold RPC.RPCManagerShardGroupCreate. rewrite Hu, Hm. fold manager1.
  rewrite Hfit, Z.ltb_irrefl. reflexivity.
Qed.
End RPC_facts.

(** One shard asked for, one session left: turned down. *)
Lemma RPCManagerShardGroupCreate_exact_fit_witness :
  Z.of_nat (length (RPC.plan_ids Demo.no_range
     (RPC.refreshed Demo.gateway_down (RPC.mkManagerState (RPC.mkGatewayBot 1 1) 0 ∅)
        Demo.create_one) Demo.create_one)) = 1
  /\ RPC.RPCManagerShardGroupCreate Demo.unmarshal_one Demo.gateway_down Demo.no_range
       Demo.one_session "" =
     (<["bot" := RPC.mkManagerState (RPC.mkGatewayBot 1 1) 0 ∅]> Demo.one_session,
      RPC.mkResponse (RPC.BodyText "Not enough sessions to start 1 shard(s). 1 remain")
        false RPC.StatusBadRequest, true).
Proof.
  split; [reflexivity|].
  exact (RPCManagerShardGroupCreate_exact_fit Demo.unmarshal_one Demo.gateway_down
           Demo.no_range Demo.one_session "" Demo.create_one
           (RPC.mkManagerState (RPC.mkGatewayBot 1 1) 0 ∅) eq_refl eq_refl eq_refl).
Defined.

(** * Further properties of the code *)

Lemma final_bind {A B} (m : M A) (k : A -> M B) (w : World) :
  final (bind m k w) =
    match m w with
    | Done a w1 => final (k a w1)
    | Halted _ w1 => w1
    end.
Proof. unfold bind. destruct (m w); reflexivity. Qed.

Section Leaves.
Context {X : Type}.
Variable f : World -> X.

Lemma leaves_ret {A} (a : A) : leaves f (ret a).
Proof. intros w. reflexivity. Qed.

Lemma leaves_halt {A} (h : Halt) : leaves f (@halt A h).
Proof. intros w. reflexivity. Qed.

Lemma leaves_get : leaves f get.
Proof. intros w. reflexivity. Qed.

Lemma leaves_bind {A B} (m : M A) (k : A -> M B) :
  leaves f m -> (forall a, leaves f (k a)) -> leaves f (bind m k).
Proof.
  intros Hm Hk w. rewrite final_bind. specialize (Hm w).
  destruct (m w) as [a w1|h w1]; simpl in Hm; [|exact Hm].
  now rewrite Hk.
Qed.

Lemma leaves_modify (g : World -> World) :
  (forall w, f (g w) = f w) -> leaves f (modify g).
Proof. intros Hg w. apply Hg. Qed.

Lemma leaves_on_panic {A} (d : M unit) (m : M A) :
  leaves f d -> leaves f m -> leaves f (on_panic d m).
Proof.
  intros Hd Hm w. unfold on_panic. specialize (Hm w).
  destruct (m w) as [a w1|h w1]; [exact Hm|].
  destruct h; try exact Hm. specialize (Hd w1). simpl in Hm.
  destruct (d w1) as [u w2|h w2]; simpl in *; congruence.
Qed.

End Leaves.

Lemma on_panic_returns {A} (d : M unit) (m : M A) (w w' : World) (a : A) :
  on_panic d m w = Done a w' -> m w = Done a w'.
Proof.
  unfold on_panic. destruct (m w) as [a0 w0|h w0]; [auto|].
  destruct h; try discriminate. destruct (d w0); discriminate.
Qed.

Ltac leaves_step :=
  lazymatch goal with
  | |- leaves _ (bind _ _) => apply leaves_bind; [ | intros ? ]
  | |- leaves _ (on_panic _ _) => apply leaves_on_panic
  | |- leaves _ (ret _) => apply leaves_ret
  | |- leaves _ (halt _) => apply leaves_halt
  | |- leaves _ get => apply leaves_get
  | |- leaves _ (modify _) => apply leaves_modify; intros ?; reflexivity
  | |- leaves _ (if ?b then _ else _) => destruct b
  | |- leaves _ (match ?x with _ => _ end) => destruct x
  | |- leaves _ _ => solve [ auto with leaves ]
  end.
Ltac leaves_tac := cbv zeta; repeat (leaves_step; cbv zeta).

Create HintDb leaves.

Lemma leaves_Done {A X} (f : World -> X) (m : M A) (w w' : World) (a : A) :
  leaves f m -> m w = Done a w' -> f w' = f w.
Proof. intros L E. specialize (L w). now rewrite E in L. Qed.

Section Leaves_shard.
Context `{Env}.
Context {X : Type}.
Variable f : World -> X.
Hypothesis f_trace : forall g w, f (upd_trace g w) = f w.
Hypothesis f_counters : forall g w, f (upd_counters g w) = f w.
Hypothesis f_Status : forall v w, f (upd_shard (with_Status v) w) = f w.
Hypothesis f_ctx_done : forall v w, f (upd_shard (with_ctx_done v) w) = f w.
Hypothesis f_wsConn : forall v w, f (upd_shard (with_wsConn v) w) = f w.
Hypothesis f_HeartbeatActive :
  forall v w, f (upd_shard (with_HeartbeatActive v) w) = f w.
Hypothesis f_Heartbeat : forall i m w, f (upd_shard (with_Heartbeat i m) w) = f w.
Hypothesis f_Remaining : forall v w, f (upd_manager (with_Remaining v) w) = f w.
Hypothesis f_manager_Buckets :
  forall g w, f (upd_manager (fun m => with_Buckets (g m) m) w) = f w.
Hypothesis f_sandwichBuckets : forall g w, f (upd_sandwichBuckets g w) = f w.

Lemma leaves_emit e : leaves f (emit e).
Proof. intros w. apply f_trace. Qed.
Lemma leaves_count g : leaves f (count g).
Proof. intros w. apply f_counters. Qed.
Lemma leaves_set_Status v : leaves f (set_Status v).
Proof. intros w. apply f_Status. Qed.
Lemma leaves_set_ctx_done v : leaves f (set_ctx_done v).
Proof. intros w. apply f_ctx_done. Qed.
Lemma leaves_set_wsConn v : leaves f (set_wsConn v).
Proof. intros w. apply f_wsConn. Qed.
Lemma leaves_set_HeartbeatActive v : leaves f (set_HeartbeatActive v).
Proof. intros w. apply f_HeartbeatActive. Qed.
Lemma leaves_set_Heartbeat i m : leaves f (set_Heartbeat i m).
Proof. intros w. apply f_Heartbeat. Qed.
Lemma leaves_set_Remaining v : leaves f (set_Remaining v).
Proof. intros w. apply f_Remaining. Qed.
Lemma leaves_CreateBucket store name limit per :
  leaves f (CreateBucket store name limit per).
Proof.
  unfold CreateBucket. apply leaves_bind; [apply leaves_emit|intros _].
  destruct store; intros w.
  - apply (f_manager_Buckets (fun m => insert_new name (mkBucket limit per) (mg_Buckets m))).
  - apply f_sandwichBuckets.
Qed.
Hint Resolve leaves_emit leaves_count leaves_set_Status leaves_set_ctx_done
  leaves_set_wsConn leaves_set_HeartbeatActive leaves_set_Heartbeat
  leaves_set_Remaining leaves_CreateBucket : leaves.

Lemma leaves_WaitForBucket store name : leaves f (WaitForBucket store name).
Proof. unfold WaitForBucket. leaves_tac. Qed.
Lemma leaves_ResetBucket store name : leaves f (ResetBucket store name).
Proof. unfold ResetBucket. leaves_tac. Qed.
Hint Resolve leaves_WaitForBucket leaves_ResetBucket : leaves.

Lemma leaves_PublishEvent msg data extra : leaves f (PublishEvent msg data extra).
Proof. unfold PublishEvent. leaves_tac. Qed.
Hint Resolve leaves_PublishEvent : leaves.

Lemma leaves_SetStatus status : leaves f (SetStatus status).
Proof. unfold SetStatus. leaves_tac. Qed.
Hint Resolve leaves_SetStatus : leaves.

Lemma leaves_WriteJSON op i : leaves f (WriteJSON op i).
Proof. unfold WriteJSON, ws_Write. leaves_tac. Qed.
Hint Resolve leaves_WriteJSON : leaves.

Lemma leaves_SendEvent op data : leaves f (SendEvent op data).
Proof. unfold SendEvent. leaves_tac. Qed.
Hint Resolve leaves_SendEvent : leaves.

Lemma leaves_Resume : leaves f Resume_.
Proof. unfold Resume_. leaves_tac. Qed.
Hint Resolve leaves_Resume : leaves.

Lemma leaves_Identify : leaves f Identify_.
Proof. unfold Identify_. leaves_tac. Qed.
Hint Resolve leaves_Identify : leaves.

Lemma leaves_readMessage : leaves f readMessage.
Proof. unfold readMessage. leaves_tac. Qed.
Hint Resolve leaves_readMessage : leaves.

Lemma leaves_hello_heartbeat data : leaves f (hello_heartbeat data).
Proof. unfold hello_heartbeat. leaves_tac. Qed.
Hint Resolve leaves_hello_heartbeat : leaves.

Lemma leaves_CloseWS code : leaves f (CloseWS code).
Proof. unfold CloseWS. leaves_tac. Qed.
Hint Resolve leaves_CloseWS : leaves.

Lemma leaves_Close code : leaves f (Close code).
Proof. unfold Close, cancel. leaves_tac. Qed.
Hint Resolve leaves_Close : leaves.

Lemma leaves_Connect_handshake : leaves f Connect_handshake.
Proof. unfold Connect_handshake. leaves_tac. Qed.
Hint Resolve leaves_Connect_handshake : leaves.

Lemma leaves_Connect_after_handshake herr : leaves f (Connect_after_handshake herr).
Proof. unfold Connect_after_handshake. leaves_tac. Qed.
Hint Resolve leaves_Connect_after_handshake : leaves.

Lemma leaves_Connect_deferred err : leaves f (Connect_deferred err).
Proof. unfold Connect_deferred. leaves_tac. Qed.
Hint Resolve leaves_Connect_deferred : leaves.

Lemma leaves_FeedWebsocket u : leaves f (FeedWebsocket u).
Proof. unfold FeedWebsocket. leaves_tac. Qed.
Hint Resolve leaves_FeedWebsocket : leaves.

(** What [Connect_greeted] leaves when it returns; a panic of the new
    ticker may close the socket on its way out. *)
Lemma Connect_greeted_returned (w w' : World) (r : option error) :
  Connect_greeted w = Done r w' -> f w' = f w.
Proof.
  unfold Connect_greeted. intros E. unfold bind at 1 in E.
  pose proof (leaves_readMessage w) as Hr.
  destruct (readMessage w) as [r0 w1|h w1]; [|discriminate]. cbn in Hr.
  destruct r0 as [e|msg].
  - injection E as <- <-. exact Hr.
  - unfold bind at 1 in E.
    destruct (on_panic _ _ w1) as [u w2|h w2] eqn:Ep; [|discriminate].
    apply on_panic_returns in Ep.
    pose proof (leaves_Done f _ _ _ _ (leaves_hello_heartbeat _) Ep) as H2.
    match type of E with
    | ?m w2 = _ => assert (Hrest : leaves f m) by leaves_tac
    end.
    rewrite (leaves_Done f _ _ _ _ Hrest E). congruence.
Qed.

Lemma leaves_Connect_dialed u : leaves f (Connect_dialed u).
Proof. unfold Connect_dialed. leaves_tac. Qed.
Hint Resolve leaves_Connect_dialed : leaves.

Lemma leaves_Connect_hashed token u bucket : leaves f (Connect_hashed token u bucket).
Proof. unfold Connect_hashed. leaves_tac. Qed.
Hint Resolve leaves_Connect_hashed : leaves.

Lemma leaves_Connect : leaves f Connect.
Proof. unfold Connect. leaves_tac. Qed.

End Leaves_shard.


Ltac frame_obs := intros; reflexivity.

Section Connect_returns.
Context `{Env}.

Lemma Connect_hashed_leaves_ctx token u bucket :
  leaves ctx_of (Connect_hashed token u bucket).
Proof. apply leaves_Connect_hashed; frame_obs. Qed.

Lemma Connect_zero_concurrency (w : World) :
  mg_MaxConcurrency (w_manager w) = 0 ->
  Connect w = Halted (Panic "integer divide by zero") (status_set ShardWaiting w).
Proof.
  intros Hmc. unfold Connect.
  rewrite (run_bind _ _ _ _ _ (SetStatus_run ShardWaiting w)).
  unfold bind at 1, get at 1. cbv zeta.
  change (mg_MaxConcurrency (w_manager (status_set ShardWaiting w)))
    with (mg_MaxConcurrency (w_manager w)).
  rewrite Hmc. reflexivity.
Qed.

Lemma Connect_returned (w w' : World) (r : option error) :
  Connect w = Done r w' ->
  mg_MaxConcurrency (w_manager w) <> 0
  /\ Connect_hashed (mg_Token (w_manager w)) (mg_GatewayURL (w_manager w))
       (Z.rem (sh_ShardID (w_shard w)) (mg_MaxConcurrency (w_manager w)))
       (bucket_created ManagerBuckets (bucket_name_ws w) 120 Minute
          (upd_shard (with_ctx_done false) (status_set ShardWaiting w)))
     = Done r w'.
Proof.
  intros E. destruct (Z.eq_dec (mg_MaxConcurrency (w_manager w)) 0) as [Hz|Hnz].
  - rewrite (Connect_zero_concurrency w Hz) in E. discriminate.
  - split; [exact Hnz|]. now rewrite <- (Connect_to_hashed w Hnz).
Qed.

Lemma Connect_ctx (w w' : World) (r : option error) :
  Connect w = Done r w' -> ctx_of w' = false.
Proof.
  intros E. apply Connect_returned in E as [_ E].
  now rewrite (leaves_Done ctx_of _ _ _ _ (Connect_hashed_leaves_ctx _ _ _) E).
Qed.

Lemma Reconnect_loop_ctx (fuel : nat) (code : Z) :
  forall wait w w' r,
    Reconnect_loop fuel code wait w = Done r w' -> ctx_of w' = false.
Proof.
  induction fuel as [|fuel IH]; intros wait w w' r E; [discriminate|].
  cbn [Reconnect_loop] in E. unfold bind at 1 in E.
  destruct (Connect w) as [[e|] w1|h w1] eqn:EC; [| |discriminate].
  - unfold bind at 1, get at 1 in E. unfold bind at 1, set_Retries, modify in E.
    destruct (wrap32 (sh_Retries (w_shard w1) - 1) <=? 0).
    + unfold bind at 1 in E.
      destruct (Close code _) as [u w2|h w2]; [|discriminate].
      exact (Connect_ctx _ _ _ E).
    + unfold bind at 1, emit, modify in E. exact (IH _ _ _ _ E).
  - unfold bind, get, set_Retries, modify, ret in E. injection E as _ <-.
    exact (Connect_ctx _ _ _ EC).
Qed.

(** X1: whenever [Connect] or [Reconnect] returns, with or without an
    error, the context of the shard is live: [Connect] renews a done
    context and nothing after that cancels it. *)
Theorem Reconnect_returns_with_live_context (fuel : nat) (code : Z)
    (w w' : World) (r : option error) :
  (Connect w = Done r w' -> sh_ctx_done (w_shard w') = false)
  /\ (Reconnect fuel code w = Done r w' -> sh_ctx_done (w_shard w') = false).
Proof.
  split; [apply Connect_ctx|].
  unfold Reconnect. intros E. unfold bind at 1 in E.
  destruct (Close code w) as [u w1|h w1]; [|discriminate].
  unfold bind at 1 in E.
  destruct (SetStatus ShardReconnecting w1) as [e w2|h w2]; [|discriminate].
  exact (Reconnect_loop_ctx _ _ _ _ _ _ E).
Qed.

End Connect_returns.

Section Connect_socket.
Context `{Env}.

Lemma Connect_greeted_returned_conn (w w' : World) (r : option error) :
  Connect_greeted w = Done r w' -> conn_of w' = conn_of w.
Proof. apply Connect_greeted_returned; frame_obs. Qed.

Lemma Connect_dialed_greeted (u : string) (w : World) :
  Connect_dialed u w =
    bind (match sh_wsConn (w_shard w) with
          | None => FeedWebsocket u
          | Some _ => ret None
          end)
         (fun derr => match derr with
                      | Some e => ret (Some e)
                      | None => Connect_greeted
                      end)
         (status_set ShardConnecting w).
Proof.
  unfold Connect_dialed.
  rewrite (run_bind _ _ _ _ _ (SetStatus_run ShardConnecting w)).
  reflexivity.
Qed.

Lemma Connect_dialed_holds_socket (u : string) (w w' : World) :
  Connect_dialed u w = Done None w' -> is_Some (conn_of w').
Proof.
  rewrite Connect_dialed_greeted. set (w4 := status_set ShardConnecting w).
  intros E. unfold bind at 1 in E.
  destruct (sh_wsConn (w_shard w)) as [c|] eqn:Ec.
  - unfold ret at 1 in E.
    rewrite (Connect_greeted_returned_conn _ _ _ E).
    unfold conn_of, w4. cbn. rewrite Ec. eauto.
  - unfold FeedWebsocket, bind, get, emit, count, set_wsConn, modify, ret in E.
    cbn in E.
    destruct (dial_result (n_dial (w_counters w))) as [e|]; [discriminate|].
    rewrite (Connect_greeted_returned_conn _ _ _ E).
    unfold conn_of. cbn. eauto.
Qed.

Lemma Connect_deferred_socket (err : option error) (w w' : World) (r : option error) :
  Connect_deferred err w = Done r w' ->
  r = err /\ conn_of w' = match err with Some _ => None | None => conn_of w end.
Proof.
  unfold Connect_deferred, CloseWS, bind, get, emit, set_wsConn, modify, ret, conn_of.
  destruct err as [e|]; destruct (sh_wsConn (w_shard w)) as [c|] eqn:Ec; cbn;
    rewrite ?Ec; cbn; intros E; injection E as <- <-; cbn; rewrite ?Ec; split; reflexivity.
Qed.

Lemma Connect_returned_dialed (w w' : World) (r : option error) (hash : string) :
  QuickHash (mg_Token (w_manager w)) = inr hash ->
  Connect w = Done r w' ->
  exists w3, bind (Connect_dialed (mg_GatewayURL (w_manager w))) Connect_deferred w3
             = Done r w'.
Proof.
  intros Hq E. apply Connect_returned in E as [_ E].
  unfold Connect_hashed in E. rewrite Hq in E.
  rewrite (run_bind _ _ _ _ _ (CreateBucket_run _ _ _ _ _)) in E.
  eexists. exact E.
Qed.

(** X2: when the token hashes, [Connect] returns holding a socket exactly
    when it succeeded: a failed attempt closes the socket it holds and
    a successful one keeps it.  Only when hashing the token fails, which
    happens before the deferred close is set up, the socket is left as
    it was found. *)
Theorem Connect_holds_socket_iff_succeeded (w w' : World) (r : option error) :
  (forall hash, QuickHash (mg_Token (w_manager w)) = inr hash ->
     Connect w = Done r w' ->
     (r = None <-> is_Some (sh_wsConn (w_shard w'))))
  /\ (forall e, QuickHash (mg_Token (w_manager w)) = inl e ->
        Connect w = Done r w' ->
        r = Some e /\ sh_wsConn (w_shard w') = sh_wsConn (w_shard w)).
Proof.
  split.
  - intros hash Hq E. destruct (Connect_returned_dialed _ _ _ _ Hq E) as [w3 E3].
    clear E. unfold bind at 1 in E3.
    destruct (Connect_dialed _ _) as [[e|] w4|h w4] eqn:ED; [| |discriminate].
    + apply Connect_deferred_socket in E3 as [-> E]. fold (conn_of w'). rewrite E.
      split; [discriminate|intros [c' Hc]; discriminate].
    + apply Connect_deferred_socket in E3 as [-> E]. fold (conn_of w'). rewrite E.
      apply Connect_dialed_holds_socket in ED. split; [intros _; exact ED|reflexivity].
  - intros e Hq E. apply Connect_returned in E as [_ E].
    unfold Connect_hashed in E. rewrite Hq in E.
    unfold ret in E. injection E as <- <-. split; reflexivity.
Qed.

End Connect_socket.

(** ** Closing *)
Section Close_facts.
Context `{Env}.

(** X3: [Close] always returns; it leaves the shard Closed with no
    socket and a cancelled context, keeps the session, closes the socket
    it finds with the given code and publishes the status.  A second
    [Close] sends no close frame. *)
Theorem Close_closes_the_socket_once (code : Z) (w : World) :
  exists w',
    Close code w = Done tt w'
    /\ sh_Status (w_shard w') = ShardClosed
    /\ sh_wsConn (w_shard w') = None
    /\ sh_ctx_done (w_shard w') = true
    /\ sh_seq (w_shard w') = sh_seq (w_shard w)
    /\ sh_sessionID (w_shard w') = sh_sessionID (w_shard w)
    /\ emitted w (Close code w) =
         match sh_wsConn (w_shard w) with
         | Some conn => [EvWsClose conn code]
         | None => []
         end ++ status_packet ShardClosed w
    /\ forall code', emitted w' (Close code' w') = status_packet ShardClosed w'.
Proof.
  destruct w as [[st sid done conn hb hi hm rt sq ss] mg grp sb ab wg ch cnt tr].
  unfold Close, cancel, CloseWS, SetStatus, PublishEvent, status_packet, publish_events,
    set_Status, set_ctx_done, set_HeartbeatActive, set_wsConn, count.
  destruct conn as [conn|]; destruct (mg_ProducerClient mg) eqn:Ep; run_monad;
    rewrite ?Ep; run_monad;
    (eexists; split; [reflexivity|]); cbn;
    repeat (split; [reflexivity|]);
    (split; [rewrite <- ?app_assoc; first [apply drop_app_length|apply drop_all]
            |intros code'; rewrite ?Ep; cbn; rewrite ?Ep; cbn;
             first [apply drop_app_length|apply drop_all]]).
Qed.

End Close_facts.

(** ** Sending *)
Section SendEvent_facts.
Context `{Env}.

(** X4: what [SendEvent] returns.  A payload that does not marshal is
    reported and nothing is waited for or written.  Without a socket the
    call takes a slot of the send bucket, writes nothing and reports
    success.  With a socket it returns the write error, wrapped twice, or
    nil. *)
Theorem SendEvent_result (op : Z) (data : SentData) (w : World) :
  let frame := I_SentPayload (mkSent op data) in
  (forall e, marshal_error frame = Some e ->
     SendEvent op data w =
       Done (Some (Wrapf "sendEvent writeJson" (Wrapf "writeJSON marshal" e))) w)
  /\ (marshal_error frame = None -> sh_wsConn (w_shard w) = None ->
      exists w', SendEvent op data w = Done None w'
        /\ w_trace w' = w_trace w ++ [EvWaitForBucket ManagerBuckets (bucket_name_ws w)]
        /\ n_write (w_counters w') = n_write (w_counters w))
  /\ (forall conn, marshal_error frame = None -> sh_wsConn (w_shard w) = Some conn ->
      exists w', SendEvent op data w =
                   Done (wrap_err "sendEvent writeJson"
                           (wrap_err "writeJSON write"
                              (write_result (n_write (w_counters w))))) w'
        /\ w_trace w' = w_trace w ++ [EvWaitForBucket ManagerBuckets (bucket_name_ws w);
                                      EvWsWrite conn frame]
        /\ n_write (w_counters w') = S (n_write (w_counters w))).
Proof.
  intros frame. repeat split.
  - intros e Hm. unfold SendEvent, WriteJSON. fold frame. rewrite Hm. reflexivity.
  - intros Hm Hc. rewrite (SendEvent_run op data w Hm).
    unfold send_outcome, sent, send_events. rewrite Hc.
    eexists. split; [reflexivity|]. split; reflexivity.
  - intros conn Hm Hc. rewrite (SendEvent_run op data w Hm).
    unfold send_outcome, sent, send_events. rewrite Hc.
    eexists. split; [reflexivity|]. split; reflexivity.
Qed.

End SendEvent_facts.

(** ** Session starts *)
Section Remaining_facts.
Context `{Env}.

Lemma leaves_bind_right {A B X} (f : World -> X) (m : M A) (k : A -> M B) (w : World) :
  (forall a, leaves f (k a)) -> f (final (bind m k w)) = f (final (m w)).
Proof.
  intros Hk. rewrite final_bind. destruct (m w) as [a w1|h w1]; [apply Hk|reflexivity].
Qed.

(** [Identify] counts a session start before anything else, whatever
    happens next. *)
Lemma Identify_remaining (w : World) :
  remaining_of (final (Identify_ w)) = wrap64 (remaining_of w - 1).
Proof.
  unfold Identify_, SendEvent, WriteJSON, ws_Write, WaitForBucket, set_Remaining, count,
    remaining_of.
  destruct w as [[st sid done conn hb hi hm rt sq ss] mg grp sb ab wg ch cnt tr].
  run_monad.
  destruct (QuickHash (mg_Token mg)) as [e|hash]; [reflexivity|].
  destruct (mg_MaxConcurrency mg =? 0); [reflexivity|].
  run_monad.
  destruct (marshal_error _); [reflexivity|].
  destruct conn; reflexivity.
Qed.

Lemma Connect_handshake_remaining (w : World) :
  remaining_of (final (Connect_handshake w)) =
    if wants_identify w then wrap64 (remaining_of w - 1) else remaining_of w.
Proof.
  unfold Connect_handshake, wants_identify. unfold bind at 1, get at 1. cbv zeta.
  destruct (String.eqb (sh_sessionID (w_shard w)) "" || (sh_seq (w_shard w) =? 0)).
  - apply Identify_remaining.
  - assert (L : leaves remaining_of
                  (err <- Resume_ ;;
                   match err with
                   | Some e => ret (Some e)
                   | None => SetStatus ShardReady ;; ret None
                   end)).
    { apply leaves_bind; [apply leaves_Resume; frame_obs|intros [e|]].
      - apply leaves_ret.
      - apply leaves_bind; [apply leaves_SetStatus; frame_obs|intros _; apply leaves_ret]. }
    apply L.
Qed.

Lemma handshake_to_end_remaining (w0 : World) :
  mg_Remaining (w_manager (final (bind (bind Connect_handshake Connect_after_handshake)
                                    Connect_deferred w0))) =
    if wants_identify w0 then wrap64 (mg_Remaining (w_manager w0) - 1)
    else mg_Remaining (w_manager w0).
Proof.
  change (remaining_of (final (bind (bind Connect_handshake Connect_after_handshake)
                                 Connect_deferred w0))
          = if wants_identify w0 then wrap64 (remaining_of w0 - 1) else remaining_of w0).
  rewrite (leaves_bind_right remaining_of (bind Connect_handshake Connect_after_handshake)
             Connect_deferred w0)
    by (intros a; apply leaves_Connect_deferred; frame_obs).
  rewrite (leaves_bind_right remaining_of Connect_handshake Connect_after_handshake w0)
    by (intros a; apply leaves_Connect_after_handshake; frame_obs).
  apply Connect_handshake_remaining.
Qed.

Lemma before_handshake_remaining hash hello w :
  mg_Remaining (w_manager (before_handshake hash hello w)) = mg_Remaining (w_manager w).
Proof. reflexivity. Qed.

Lemma before_handshake_wants hash hello w :
  wants_identify (before_handshake hash hello w) = wants_identify w.
Proof.
  unfold wants_identify.
  destruct (before_handshake_shard hash hello w) as (-> & -> & _). reflexivity.
Qed.

(** X5: a [Connect] that gets as far as the handshake (the token
    hashes, the dial succeeds, a HELLO with a positive heartbeat interval
    is read) lowers [session_start_limit.remaining] by one exactly when
    it identifies, whether or not the IDENTIFY frame could be written; a
    [Connect] that resumes leaves it as it was. *)
Theorem Connect_counts_session_start (w : World) (hash : string) (hello : ReceivedPayload) :
  mg_MaxConcurrency (w_manager w) <> 0 ->
  QuickHash (mg_Token (w_manager w)) = inr hash ->
  (sh_wsConn (w_shard w) = None -> dial_result (n_dial (w_counters w)) = None) ->
  read_result (n_read (w_counters w)) = ReadMessage hello ->
  0 < hello_interval (rp_Data hello) ->
  mg_Remaining (w_manager (final (Connect w))) =
    if wants_identify w then wrap64 (mg_Remaining (w_manager w) - 1)
    else mg_Remaining (w_manager w).
Proof.
  intros Hmc Hq Hdial Hread Hpos.
  rewrite (Connect_reaches_handshake w hash hello Hmc Hq Hdial Hread Hpos).
  rewrite handshake_to_end_remaining.
  now rewrite before_handshake_wants, before_handshake_remaining.
Qed.

End Remaining_facts.

(** ** Listening and the loop of [Open] *)
Section Listen_more.
Context `{Env}.

(** X6: [Listen] hides context errors.  With a done context it returns
    nil without reading; when the read fails with a cancelled or expired
    context it returns nil, not the error, and does nothing else. *)
Theorem Listen_returns_nil_on_context_errors (fuel : nat) (wsConn : option nat)
    (w : World) :
  (sh_ctx_done (w_shard w) = true ->
     Listen_loop (S fuel) wsConn w = Done None w
     /\ Listen (S fuel) w = Done None w)
  /\ (forall err,
        sh_ctx_done (w_shard w) = false ->
        read_result (n_read (w_counters w)) = ReadError err ->
        Is_Canceled err || Is_DeadlineExceeded err = true ->
        Listen_loop (S fuel) wsConn w = Done None (upd_counters bump_read w)
        /\ Listen (S fuel) w = Done None (upd_counters bump_read w)).
Proof.
  destruct w as [[st sid done conn hb hi hm rt sq ss] mg grp sb ab wg ch cnt tr].
  simpl. split.
  - intros ->. unfold Listen. run_monad. split; reflexivity.
  - intros err -> Hread Herr. unfold Listen. run_monad.
    unfold readMessage, count. run_monad. rewrite Hread. run_monad.
    rewrite Herr. split; reflexivity.
Qed.

(** What [OnEvent] does with the zero payload: opcode 0 is Dispatch. *)
Lemma OnEvent_zero_payload (fuel : nat) (w : World) :
  OnEvent fuel zeroReceived w =
    Done tt (upd_shard (with_seq 0)
               (upd_trace (fun t => t ++ [EvGoDispatch zeroReceived]) w)).
Proof. reflexivity. Qed.

(** X7: a read error that is neither a context error nor a fatal close
    code, on a connection that is no longer the one the loop of [Listen]
    remembers, is not reported: the loop handles the zero payload that
    came with the error as an event.  Its opcode 0 is Dispatch, so an
    empty event is dispatched and the stored sequence becomes 0; then the
    loop goes on with the connection of the shard. *)
Theorem Listen_stale_connection_handles_zero_payload (fuel : nat)
    (wsConn : option nat) (w : World) (err : error) :
  sh_ctx_done (w_shard w) = false ->
  read_result (n_read (w_counters w)) = ReadError err ->
  Is_Canceled err || Is_DeadlineExceeded err = false ->
  (forall code, As_CloseError err = Some code -> fatal_close_code code = false) ->
  conn_eqb wsConn (sh_wsConn (w_shard w)) = false ->
  let w1 := upd_shard (with_seq 0)
              (upd_trace (fun t => t ++ [EvGoDispatch zeroReceived])
                 (upd_counters bump_read w)) in
  Listen_loop (S fuel) wsConn w = Listen_loop fuel (sh_wsConn (w_shard w)) w1
  /\ sh_seq (w_shard w1) = 0
  /\ w_trace w1 = w_trace w ++ [EvGoDispatch zeroReceived].
Proof.
  intros Hctx Hread Herr Hfatal Hconn w1. split; [|split; reflexivity].
  subst w1.
  destruct w as [[st sid done conn hb hi hm rt sq ss] mg grp sb ab wg ch cnt tr].
  simpl in *. subst done.
  run_monad. unfold readMessage, count. run_monad. rewrite Hread. run_monad.
  rewrite Herr.
  destruct (As_CloseError err) as [code|] eqn:Ec.
  - rewrite (Hfatal code eq_refl). run_monad. rewrite Hconn. reflexivity.
  - run_monad. rewrite Hconn. reflexivity.
Qed.

(** X8: [Open] gives up only on cancellation: when it returns, the
    context of the shard is done or the last [Listen] returned an error
    that wraps [context.Canceled]. *)
Theorem Open_returns_only_when_cancelled (fuel : nat) (w w' : World) :
  Open fuel w = Done tt w' ->
  sh_ctx_done (w_shard w') = true
  \/ exists fuel' w0 e, Listen fuel' w0 = Done (Some e) w' /\ Is_Canceled e = true.
Proof.
  revert w. induction fuel as [|fuel IH]; intros w E; [discriminate|].
  cbn [Open] in E. unfold bind at 1 in E.
  destruct (Listen fuel w) as [err w1|h w1] eqn:EL; [|discriminate].
  destruct err as [e|].
  - destruct (Is_Canceled e) eqn:Ec.
    + unfold ret in E. injection E as <-. right. now exists fuel, w, e.
    + unfold bind, get in E. destruct (sh_ctx_done (w_shard w1)) eqn:Ed.
      * unfold ret in E. injection E as <-. now left.
      * exact (IH _ E).
  - unfold bind, get in E. destruct (sh_ctx_done (w_shard w1)) eqn:Ed.
    + unfold ret in E. injection E as <-. now left.
    + exact (IH _ E).
Qed.

End Listen_more.

(** ** Guild member chunking: failures *)
Section Chunk_failures.
Context `{Env}.

(** X9: a second cleanup of the same guild panics: the first one removed
    the channel from the map, and closing the nil channel the map then
    yields is a run-time panic. *)
Theorem cleanGuildChunks_twice_panics (guildID : Z) (w w1 : World) :
  cleanGuildChunks guildID w = Done tt w1 ->
  guild_cleaned guildID w1
  /\ cleanGuildChunks guildID w1 = Halted (Panic "close of nil channel") w1.
Proof.
  unfold cleanGuildChunks.
  destruct w as [sh mg [gid gsc ger gst mcc mcb mck] sb ab wg chs cnt tr].
  run_monad.
  destruct (mck !! guildID) as [ch|] eqn:Ech; [|discriminate].
  destruct (chs !! ch) as [[|]|] eqn:Eopen; try discriminate.
  run_monad. intros E. injection E as <-.
  unfold guild_cleaned. cbn. rewrite !lookup_delete_eq.
  split; [repeat split|].
  unfold upd_group, upd_chans, upd_MemberChunksCallback, upd_MemberChunksComplete,
    upd_MemberChunkCallbacks. cbn.
  rewrite delete_delete_eq. reflexivity.
Qed.

Lemma chunkGuild_flow_send_failure (guildID : Z) (w : World) (e : error) :
  marshal_error (I_SentPayload (mkSent GatewayOpRequestGuildMembers
    (DataRequestGuildMembers (mkRequestGuildMembers guildID "" 0)))) = None ->
  send_outcome w = Some e ->
  exists w',
    chunkGuild_flow guildID w = Done (Some e) w'
    /\ guild_cleaned guildID w'
    /\ w_trace w' = w_trace w
         ++ send_events GatewayOpRequestGuildMembers
              (DataRequestGuildMembers (mkRequestGuildMembers guildID "" 0)) w
    /\ w_chans w' = w_chans w ++ [true]
    /\ n_flow (w_counters w') = n_flow (w_counters w).
Proof.
  intros Hm Hsend. unfold chunkGuild_flow.
  unfold bind at 1, get at 1. cbv zeta.
  do 6 (unfold bind at 1, modify at 1).
  lazymatch goal with
  | |- context [bind (SendEvent _ _) _ ?x] => set (w1 := x)
  end.
  assert (Hsend1 : send_outcome w1 = Some e) by exact Hsend.
  rewrite (run_bind _ _ _ _ _ (SendEvent_run _ _ w1 Hm)). rewrite Hsend1.
  set (w2 := sent _ _ w1).
  assert (Hch : grp_MemberChunkCallbacks (w_group w2) !! guildID
                = Some (length (w_chans w))) by (cbn; apply lookup_insert_eq).
  assert (Hopen : w_chans w2 !! length (w_chans w) = Some false)
    by (cbn; now apply list_lookup_middle).
  unfold cleanGuildChunks.
  unfold bind at 1. unfold bind at 1, modify at 1. unfold bind at 1, get at 1.
  set (w3 := upd_group _ w2).
  assert (Hch3 : grp_MemberChunkCallbacks (w_group w3) !! guildID
                 = Some (length (w_chans w))) by exact Hch.
  assert (Hopen3 : w_chans w3 !! length (w_chans w) = Some false) by exact Hopen.
  rewrite Hch3, Hopen3.
  unfold bind, modify, ret.
  eexists. split; [reflexivity|].
  split. { unfold guild_cleaned. cbn. rewrite !lookup_delete_eq. repeat split. }
  split. { reflexivity. }
  split. { cbn. rewrite insert_app_r_alt by lia. now rewrite Nat.sub_diag. }
  reflexivity.
Qed.

(** X10: when the RequestGuildMembers frame cannot be written,
    [chunkGuild] undoes what it had published: the guild is removed from
    the three maps, the channel it made is closed, no ticker is started
    and the error of the send is returned. *)
Theorem chunkGuild_send_failure (guildID : Z) (waitForTicket : bool) (w : World)
    (e : error) :
  marshal_error (I_SentPayload (mkSent GatewayOpRequestGuildMembers
    (DataRequestGuildMembers (mkRequestGuildMembers guildID "" 0)))) = None ->
  send_outcome w = Some e ->
  exists w',
    chunkGuild guildID waitForTicket w = Done (Some e) w'
    /\ guild_cleaned guildID w'
    /\ w_trace w' = w_trace w
         ++ (if waitForTicket then [EvChunkTicket] else [])
         ++ send_events GatewayOpRequestGuildMembers
              (DataRequestGuildMembers (mkRequestGuildMembers guildID "" 0)) w
         ++ (if waitForTicket then [EvChunkTicketFree] else [])
    /\ w_chans w' = w_chans w ++ [true]
    /\ n_flow (w_counters w') = n_flow (w_counters w).
Proof.
  intros Hm Hsend. unfold chunkGuild. destruct waitForTicket.
  - unfold bind at 1, emit at 1, modify at 1.
    set (w0 := upd_trace _ w).
    assert (Hsend0 : send_outcome w0 = Some e) by exact Hsend.
    destruct (chunkGuild_flow_send_failure guildID w0 e Hm Hsend0)
      as (w1 & E1 & Hclean & Htr & Hch & Hfl).
    rewrite (run_bind _ _ _ _ _ E1). unfold bind, emit, modify, ret.
    eexists. split; [reflexivity|].
    split; [exact Hclean|]. split; [|split; [exact Hch|exact Hfl]].
    cbn [w_trace upd_trace]. rewrite Htr. cbn. rewrite <- !app_assoc. reflexivity.
  - destruct (chunkGuild_flow_send_failure guildID w e Hm Hsend)
      as (w1 & E1 & Hclean & Htr & Hch & Hfl).
    exists w1. split; [exact E1|]. split; [exact Hclean|].
    split; [|split; [exact Hch|exact Hfl]].
    rewrite Htr. cbn. now rewrite app_nil_r.
Qed.

End Chunk_failures.

Lemma Reconnect_returns_with_live_context_witness :
  sh_ctx_done (w_shard (final (@Connect Demo.env0 Cases.world_cancelled))) = false
  /\ sh_ctx_done (w_shard (final (@Reconnect Demo.env_refused 3 StatusNormalClosure
                                    Demo.world_retries))) = false.
Proof.
  split.
  - apply (proj1 (@Reconnect_returns_with_live_context Demo.env0 0 0
                    Cases.world_cancelled _ None)).
    vm_compute. reflexivity.
  - apply (proj2 (@Reconnect_returns_with_live_context Demo.env_refused 3
                    StatusNormalClosure Demo.world_retries _ None)).
    vm_compute. reflexivity.
Defined.

Lemma Connect_holds_socket_iff_succeeded_witness :
  is_Some (sh_wsConn (w_shard (final (@Connect Demo.env0 Demo.world0))))
  /\ ~ is_Some (sh_wsConn (w_shard (final (@Connect Demo.env_refused Demo.world0))))
  /\ sh_wsConn (w_shard (final (@Connect Cases.env_no_hash Demo.world_ready)))
     = Some 0%nat.
Proof.
  split; [|split].
  - apply (proj1 (@Connect_holds_socket_iff_succeeded Demo.env0 Demo.world0 _ None)
             "#token"); [reflexivity|vm_compute; reflexivity|reflexivity].
  - intros Hs.
    apply (proj1 (@Connect_holds_socket_iff_succeeded Demo.env_refused Demo.world0 _
                    (Some (Wrapf "failed to connect to websocket"
                             (ErrorString "connection refused"))))
             "#token") in Hs; [discriminate Hs|reflexivity|vm_compute; reflexivity].
  - apply (proj2 (@Connect_holds_socket_iff_succeeded Cases.env_no_hash Demo.world_ready
                    _ (Some (ErrorString "hash")))
             (ErrorString "hash")); [reflexivity|vm_compute; reflexivity].
Defined.

Lemma SendEvent_result_witness :
  @SendEvent Cases.env_no_marshal GatewayOpHeartbeat (DataInt64 42) Demo.world_ready =
    Done (Some (Wrapf "sendEvent writeJson"
                  (Wrapf "writeJSON marshal" (ErrorString "unsupported value"))))
      Demo.world_ready
  /\ (exists w', @SendEvent Demo.env0 GatewayOpHeartbeat (DataInt64 42)
                   Cases.world_no_socket = Done None w'
        /\ w_trace w' = w_trace Cases.world_no_socket
                          ++ [EvWaitForBucket ManagerBuckets "ws:0:1"]
        /\ n_write (w_counters w') = n_write (w_counters Cases.world_no_socket))
  /\ (exists w', @SendEvent Cases.env_write_fails GatewayOpHeartbeat (DataInt64 42)
                   Demo.world_ready =
                   Done (Some (Wrapf "sendEvent writeJson"
                                 (Wrapf "writeJSON write" (ErrorString "broken pipe")))) w'
        /\ w_trace w' = w_trace Demo.world_ready
             ++ [EvWaitForBucket ManagerBuckets "ws:0:1";
                 EvWsWrite 0 (I_SentPayload (mkSent GatewayOpHeartbeat (DataInt64 42)))]
        /\ n_write (w_counters w') = S (n_write (w_counters Demo.world_ready))).
Proof.
  split; [|split].
  - exact (proj1 (@SendEvent_result Cases.env_no_marshal GatewayOpHeartbeat (DataInt64 42)
                    Demo.world_ready) (ErrorString "unsupported value") eq_refl).
  - exact (proj1 (proj2 (@SendEvent_result Demo.env0 GatewayOpHeartbeat (DataInt64 42)
                           Cases.world_no_socket)) eq_refl eq_refl).
  - exact (proj2 (proj2 (@SendEvent_result Cases.env_write_fails GatewayOpHeartbeat
                           (DataInt64 42) Demo.world_ready)) 0%nat eq_refl eq_refl).
Defined.

Lemma Connect_counts_session_start_witness :
  mg_Remaining (w_manager (final (@Connect Demo.env0 Demo.world0))) = 999
  /\ mg_Remaining (w_manager (final (@Connect Cases.env_write_fails Demo.world0))) = 999
  /\ mg_Remaining (w_manager (final (@Connect Demo.env0 Demo.world_ready))) = 1000.
Proof.
  split; [|split].
  - apply (@Connect_counts_session_start Demo.env0 Demo.world0 "#token" Demo.hello0);
      [discriminate|reflexivity|reflexivity|reflexivity|reflexivity].
  - apply (@Connect_counts_session_start Cases.env_write_fails Demo.world0 "#token"
             Demo.hello0); [discriminate|reflexivity|reflexivity|reflexivity|reflexivity].
  - apply (@Connect_counts_session_start Demo.env0 Demo.world_ready "#token" Demo.hello0);
      [discriminate|reflexivity|discriminate|reflexivity|reflexivity].
Defined.

Lemma Listen_returns_nil_on_context_errors_witness :
  (@Listen_loop Demo.env0 1 (Some 0%nat) Cases.world_cancelled = Done None Cases.world_cancelled
   /\ @Listen Demo.env0 1 Cases.world_cancelled = Done None Cases.world_cancelled)
  /\ (@Listen_loop Cases.env_read_cancelled 1 (Some 0%nat) Demo.world_ready
        = Done None (upd_counters bump_read Demo.world_ready)
      /\ @Listen Cases.env_read_cancelled 1 Demo.world_ready
        = Done None (upd_counters bump_read Demo.world_ready)).
Proof.
  split.
  - exact (proj1 (@Listen_returns_nil_on_context_errors Demo.env0 0 (Some 0%nat)
                    Cases.world_cancelled) eq_refl).
  - exact (proj2 (@Listen_returns_nil_on_context_errors Cases.env_read_cancelled 0
                    (Some 0%nat) Demo.world_ready)
             Cases.read_cancelled eq_refl eq_refl eq_refl).
Defined.

Lemma Listen_stale_connection_handles_zero_payload_witness :
  let w1 := upd_shard (with_seq 0)
              (upd_trace (fun t => t ++ [EvGoDispatch zeroReceived])
                 (upd_counters bump_read Demo.world_ready)) in
  @Listen_loop Cases.env_read_eof 2 (Some 7%nat) Demo.world_ready
    = @Listen_loop Cases.env_read_eof 1 (Some 0%nat) w1
  /\ sh_seq (w_shard w1) = 0
  /\ w_trace w1 = w_trace Demo.world_ready ++ [EvGoDispatch zeroReceived].
Proof.
  apply (@Listen_stale_connection_handles_zero_payload Cases.env_read_eof 1 (Some 7%nat)
           Demo.world_ready Cases.read_eof); try reflexivity.
  intros code Hc. discriminate Hc.
Defined.

Lemma Open_returns_only_when_cancelled_witness :
  sh_ctx_done (w_shard Cases.world_cancelled) = true
  \/ exists fuel' w0 e,
       @Listen Demo.env0 fuel' w0 = Done (Some e) Cases.world_cancelled
       /\ Is_Canceled e = true.
Proof.
  apply (@Open_returns_only_when_cancelled Demo.env0 2 Cases.world_cancelled).
  reflexivity.
Defined.

Lemma cleanGuildChunks_twice_panics_witness :
  let flow := final (@chunkGuild Demo.env0 7 false Demo.world_ready) in
  let cleaned := final (@cleanGuildChunks 7 flow) in
  guild_cleaned 7 cleaned
  /\ @cleanGuildChunks 7 cleaned = Halted (Panic "close of nil channel") cleaned.
Proof.
  apply (@cleanGuildChunks_twice_panics 7
           (final (@chunkGuild Demo.env0 7 false Demo.world_ready))).
  vm_compute. reflexivity.
Defined.

Lemma chunkGuild_send_failure_witness :
  exists w',
    @chunkGuild Cases.env_write_fails 7 true Demo.world_ready =
      Done (Some (Wrapf "sendEvent writeJson"
                    (Wrapf "writeJSON write" (ErrorString "broken pipe")))) w'
    /\ guild_cleaned 7 w'
    /\ w_trace w' = w_trace Demo.world_ready
         ++ [EvChunkTicket]
         ++ @send_events GatewayOpRequestGuildMembers
              (DataRequestGuildMembers (mkRequestGuildMembers 7 "" 0)) Demo.world_ready
         ++ [EvChunkTicketFree]
    /\ w_chans w' = w_chans Demo.world_ready ++ [true]
    /\ n_flow (w_counters w') = n_flow (w_counters Demo.world_ready).
Proof.
  exact (@chunkGuild_send_failure Cases.env_write_fails 7 true Demo.world_ready
           _ eq_refl eq_refl).
Defined.

Section Normalize_facts.
Import Daemon.
Variable TrimSpace : string -> string.

(** X11: [NormalizeConfiguration] fails exactly when the token or the
    client name is the empty string.  When it succeeds the token is the
    trimmed one, retries and heartbeat failures are at least 1 and are
    untouched when they already were, and nothing else is changed. *)
Theorem NormalizeConfiguration_defaults (c : ManagerConfiguration) :
  let c' := fst (NormalizeConfiguration TrimSpace c) in
  (snd (NormalizeConfiguration TrimSpace c) = None
     <-> cfg_Token c <> "" /\ msg_ClientName (cfg_Messaging c) <> "")
  /\ (snd (NormalizeConfiguration TrimSpace c) = None ->
      cfg_Token c' = TrimSpace (cfg_Token c)
      /\ bot_Retries (cfg_Bot c') = Z.max 1 (bot_Retries (cfg_Bot c))
      /\ bot_MaxHeartbeatFailures (cfg_Bot c')
           = Z.max 1 (bot_MaxHeartbeatFailures (cfg_Bot c))
      /\ with_Token (cfg_Token c)
           (with_Bot (with_BotRetries (bot_Retries (cfg_Bot c))
                        (with_MaxHeartbeatFailures (bot_MaxHeartbeatFailures (cfg_Bot c))
                           (cfg_Bot c'))) c') = c).
Proof.
  intros c'. subst c'. unfold NormalizeConfiguration.
  destruct c as [au pe id dn tk [dp co gs rt it lt mh] ca ev [cn ch rs] sh]. cbn.
  destruct (String.eqb_spec tk ""); cbn.
  - split; [split; [discriminate|intros [? _]; contradiction]|discriminate].
  - destruct (mh <? 1) eqn:Emh; cbn; destruct (rt <? 1) eqn:Ert; cbn;
      destruct (String.eqb cn "") eqn:Ecn; cbn;
      rewrite ?Z.ltb_lt, ?Z.ltb_ge in Emh, Ert;
      rewrite ?String.eqb_eq, ?String.eqb_neq in Ecn.
    all: try (split; [split; [discriminate|intros [_ Hc]; now contradiction Hc]
                     |discriminate]).
    all: split; [split; [intros _; now split|reflexivity]|].
    all: intros _; repeat split; try reflexivity; lia.
Qed.

End Normalize_facts.

(** ** The daemon: managers and RPC handlers *)
Import Daemon.
Local Open Scope daemon_scope.

Ltac hrun :=
  repeat (progress (unfold hbind, hret, hget, hmodify, answer, set_manager, tick,
                      alloc, store, deref, SaveConfiguration, GetGateway; cbn)).

Section Daemon_lists.
Context `{Host}.

Lemma replace_configuration_run (id : string) (p : nat) (l : list nat) (s : Sandwich) :
  Forall (fun q => is_Some (sd_heap s !! q)) l ->
  replace_configuration id p l s =
    Ok (map (fun q => if String.eqb (identifier_at (sd_heap s) q) id then p else q) l) s.
Proof.
  induction l as [|q l IH]; intros Hv; cbn; [reflexivity|].
  inversion Hv as [|? ? [c Hc] Hl]; subst.
  unfold hbind at 1, deref. rewrite Hc.
  unfold hbind at 1. rewrite (IH Hl). unfold hret, identifier_at. now rewrite Hc.
Qed.

Lemma remove_configuration_run (id : string) (l : list nat) (s : Sandwich) :
  Forall (fun q => is_Some (sd_heap s !! q)) l ->
  remove_configuration id l s =
    Ok (List.filter (fun q => negb (String.eqb (identifier_at (sd_heap s) q) id)) l) s.
Proof.
  induction l as [|q l IH]; intros Hv; cbn; [reflexivity|].
  inversion Hv as [|? ? [c Hc] Hl]; subst.
  unfold hbind at 1, deref. rewrite Hc.
  unfold hbind at 1. rewrite (IH Hl). unfold hret, identifier_at. rewrite Hc.
  now destruct (String.eqb (cfg_Identifier c) id).
Qed.

Lemma valid_after_alloc (l : list nat) (h : list ManagerConfiguration)
    (c : ManagerConfiguration) :
  Forall (fun q => is_Some (h !! q)) l ->
  Forall (fun q => is_Some ((h ++ [c]) !! q)) l.
Proof.
  intros Hv. eapply Forall_impl; [exact Hv|]. intros q [x Hx]. exists x.
  now apply lookup_app_l_Some.
Qed.

Lemma identifier_after_alloc (l : list nat) (h : list ManagerConfiguration)
    (c : ManagerConfiguration) (f : string -> nat -> nat) :
  Forall (fun q => is_Some (h !! q)) l ->
  map (fun q => f (identifier_at (h ++ [c]) q) q) l
  = map (fun q => f (identifier_at h q) q) l.
Proof.
  intros Hv. apply map_ext_in. intros q Hq.
  rewrite Forall_forall in Hv. destruct (Hv q) as [x Hx].
  { now apply list_elem_of_In. }
  unfold identifier_at. now rewrite (lookup_app_l_Some _ _ _ _ Hx), Hx.
Qed.

End Daemon_lists.

Section Update_facts.
Context `{Host}.

(** What [RPCManagerUpdate] does once the stan client is settled. *)
Lemma RPCManagerUpdate_tail (event old : ManagerConfiguration) (s : Sandwich) :
  valid_pointers s ->
  forall m0 : Manager,
  exists s',
    (let manager :=
       if negb (DeepEqual (evt_EventBlacklist (cfg_Events event))
                  (evt_EventBlacklist (cfg_Events old)))
       then with_EventBlacklist (evt_EventBlacklist (cfg_Events old)) m0
       else m0 in
     let manager :=
       if negb (DeepEqual (evt_ProduceBlacklist (cfg_Events event))
                  (evt_ProduceBlacklist (cfg_Events old)))
       then with_ProduceBlacklist (evt_ProduceBlacklist (cfg_Events old)) manager
       else manager in
     p <- alloc event ;;
     let manager := with_Configuration p manager in
     let manager := with_Client (with_cl_Token (cfg_Token event) (m_Client manager))
                      manager in
     set_manager (cfg_Identifier event) manager ;;
     s1 <- hget ;;
     managers <- replace_configuration (cfg_Identifier event) p
                   (sc_Managers (sd_Configuration s1)) ;;
     hmodify (upd_Configuration (with_Managers managers)) ;;
     err <- SaveConfiguration ;;
     match err with
     | Some e => answer (RPC.BodyError e) false StatusInternalServerError false
     | None => answer RPC.BodyTrue true RPC.StatusOK true
     end)%daemon s
    = Ok (match SaveConfiguration_result (sd_calls s) with
          | Some e => (RPC.mkResponse (RPC.BodyError e) false StatusInternalServerError,
                       false)
          | None => (RPC.mkResponse RPC.BodyTrue true RPC.StatusOK, true)
          end) s'
    /\ sd_heap s' = sd_heap s ++ [event]
    /\ sd_Managers s' =
         <[cfg_Identifier event :=
             with_Client (with_cl_Token (cfg_Token event) (m_Client m0))
               (with_Configuration (length (sd_heap s))
                  (with_ProduceBlacklist
                     (if DeepEqual (evt_ProduceBlacklist (cfg_Events event))
                           (evt_ProduceBlacklist (cfg_Events old))
                      then m_ProduceBlacklist m0
                      else evt_ProduceBlacklist (cfg_Events old))
                     (with_EventBlacklist
                        (if DeepEqual (evt_EventBlacklist (cfg_Events event))
                              (evt_EventBlacklist (cfg_Events old))
                         then m_EventBlacklist m0
                         else evt_EventBlacklist (cfg_Events old)) m0)))]>
           (sd_Managers s)
    /\ sc_Managers (sd_Configuration s') =
         map (fun q => if String.eqb (identifier_at (sd_heap s) q) (cfg_Identifier event)
                       then length (sd_heap s) else q)
           (sc_Managers (sd_Configuration s))
    /\ sd_saved s' =
         sd_saved s ++ [map (fun p => sd_heap s' !! p) (sc_Managers (sd_Configuration s'))].
Proof.
  intros Hv m0. eexists. cbn zeta.
  unfold hbind at 1, alloc.
  unfold hbind at 1, set_manager, hmodify.
  unfold hbind at 1, hget.
  unfold hbind at 1. cbn [sd_Configuration upd_Managers upd_heap sc_Managers].
  rewrite replace_configuration_run
    by (cbn; now apply valid_after_alloc).
  cbn [sd_heap upd_Managers upd_heap].
  rewrite (identifier_after_alloc _ _ _
             (fun i q => if String.eqb i (cfg_Identifier event)
                         then length (sd_heap s) else q)) by exact Hv.
  hrun.
  split; [destruct (SaveConfiguration_result (sd_calls s)); reflexivity|].
  split; [reflexivity|]. split.
  - f_equal.
    destruct (DeepEqual (evt_EventBlacklist (cfg_Events event)) _),
             (DeepEqual (evt_ProduceBlacklist (cfg_Events event)) _), m0; reflexivity.
  - split; reflexivity.
Qed.

(** X16: [RPCManagerUpdate] never installs the blacklists of the new
    configuration.  Where a list of the new configuration differs from the
    one of the old configuration, the manager's live list is set to the
    OLD configuration's list; otherwise it is left alone.  So a manager
    whose live lists are those of its configuration, as [Open] leaves
    them, keeps them whatever the update says.  The configuration and the
    token of the client are replaced all the same, also when saving fails
    and the call is answered with status 500. *)
Theorem RPCManagerUpdate_installs_old_blacklists (data : string) (s : Sandwich)
    (event old : ManagerConfiguration) (manager : Manager) :
  unmarshal_configuration data = inr event ->
  sd_Managers s !! cfg_Identifier event = Some manager ->
  sd_heap s !! m_Configuration manager = Some old ->
  valid_pointers s ->
  exists s' manager' k,
    RPCManagerUpdate data s =
      Ok (match SaveConfiguration_result k with
          | Some e => (RPC.mkResponse (RPC.BodyError e) false StatusInternalServerError,
                       false)
          | None => (RPC.mkResponse RPC.BodyTrue true RPC.StatusOK, true)
          end) s'
    /\ sd_Managers s' = <[cfg_Identifier event := manager']> (sd_Managers s)
    /\ sd_heap s' !! m_Configuration manager' = Some event
    /\ cl_Token (m_Client manager') = cfg_Token event
    /\ m_EventBlacklist manager' =
         (if DeepEqual (evt_EventBlacklist (cfg_Events event))
               (evt_EventBlacklist (cfg_Events old))
          then m_EventBlacklist manager
          else evt_EventBlacklist (cfg_Events old))
    /\ m_ProduceBlacklist manager' =
         (if DeepEqual (evt_ProduceBlacklist (cfg_Events event))
               (evt_ProduceBlacklist (cfg_Events old))
          then m_ProduceBlacklist manager
          else evt_ProduceBlacklist (cfg_Events old))
    /\ (m_EventBlacklist manager = evt_EventBlacklist (cfg_Events old) ->
        m_ProduceBlacklist manager = evt_ProduceBlacklist (cfg_Events old) ->
        m_EventBlacklist manager' = m_EventBlacklist manager
        /\ m_ProduceBlacklist manager' = m_ProduceBlacklist manager)
    /\ sc_Managers (sd_Configuration s') =
         map (fun q => if String.eqb (identifier_at (sd_heap s) q) (cfg_Identifier event)
                       then m_Configuration manager' else q)
           (sc_Managers (sd_Configuration s)).
Proof.
  intros Hu Hm Hold Hv.
  unfold RPCManagerUpdate. rewrite Hu.
  unfold hbind at 1, hget. rewrite Hm.
  unfold hbind at 1, deref. rewrite Hold.
  set (tail := fun manager0 : Manager => _).
  assert (Htail : forall m0 s2,
            sd_heap s2 = sd_heap s -> sd_Configuration s2 = sd_Configuration s ->
            sd_Managers s2 = sd_Managers s ->
            m_EventBlacklist m0 = m_EventBlacklist manager ->
            m_ProduceBlacklist m0 = m_ProduceBlacklist manager ->
            exists s' manager' k,
              tail m0 s2 =
                Ok (match SaveConfiguration_result k with
                    | Some e => (RPC.mkResponse (RPC.BodyError e) false
                                   StatusInternalServerError, false)
                    | None => (RPC.mkResponse RPC.BodyTrue true RPC.StatusOK, true)
                    end) s'
              /\ sd_Managers s' = <[cfg_Identifier event := manager']> (sd_Managers s)
              /\ sd_heap s' !! m_Configuration manager' = Some event
              /\ cl_Token (m_Client manager') = cfg_Token event
              /\ m_EventBlacklist manager' =
                   (if DeepEqual (evt_EventBlacklist (cfg_Events event))
                         (evt_EventBlacklist (cfg_Events old))
                    then m_EventBlacklist manager
                    else evt_EventBlacklist (cfg_Events old))
              /\ m_ProduceBlacklist manager' =
                   (if DeepEqual (evt_ProduceBlacklist (cfg_Events event))
                         (evt_ProduceBlacklist (cfg_Events old))
                    then m_ProduceBlacklist manager
                    else evt_ProduceBlacklist (cfg_Events old))
              /\ sc_Managers (sd_Configuration s') =
                   map (fun q => if String.eqb (identifier_at (sd_heap s) q)
                                      (cfg_Identifier event)
                                 then m_Configuration manager' else q)
                     (sc_Managers (sd_Configuration s))).
  { intros m0 s2 Eh Ec Em Ee Ep.
    assert (Hv2 : valid_pointers s2) by (unfold valid_pointers; now rewrite Eh, Ec).
    destruct (RPCManagerUpdate_tail event old s2 Hv2 m0)
      as (s' & E & Eheap & Emgr & Elist & _).
    eexists s', _, (sd_calls s2). split; [exact E|].
    rewrite Emgr, Em, Eheap, Elist, Eh, Ec, Ee, Ep.
    split; [reflexivity|]. cbn.
    split; [apply list_lookup_middle; reflexivity|].
    repeat split; reflexivity. }
  clearbody tail.
  assert (Hgoal : exists s2 m0,
            sd_heap s2 = sd_heap s /\ sd_Configuration s2 = sd_Configuration s
            /\ sd_Managers s2 = sd_Managers s
            /\ m_EventBlacklist m0 = m_EventBlacklist manager
            /\ m_ProduceBlacklist m0 = m_ProduceBlacklist manager
            /\ hbind
                 (if negb (Bool.eqb (msg_UseRandomSuffix (cfg_Messaging event))
                             (msg_UseRandomSuffix (cfg_Messaging old)))
                  then
                    (clientName <- client_name old 9999 ;;
                     n <- tick ;;
                     match stan_Connect n with
                     | None =>
                         hret (with_StanClient
                                 (Some (mkStanConn (sc_NATSCluster (sd_Configuration s))
                                          clientName)) manager)
                     | Some _ => hret manager
                     end)%daemon
                  else hret manager) tail s = tail m0 s2).
  { destruct (negb _).
    - unfold client_name. destruct (msg_UseRandomSuffix (cfg_Messaging old)).
      + unfold hbind at 1. unfold hbind at 1. unfold hbind at 1, tick at 1.
        unfold hret at 1. unfold hbind at 1, tick at 1.
        cbn [sd_calls upd_calls].
        destruct (stan_Connect (S (sd_calls s))); unfold hret at 1;
          eexists _, _; (split; [|split; [|split; [|split; [|split; [|reflexivity]]]]]);
          reflexivity.
      + unfold hbind at 1. unfold hbind at 1. unfold hret at 1.
        unfold hbind at 1, tick at 1.
        destruct (stan_Connect (sd_calls s)); unfold hret at 1;
          eexists _, _; (split; [|split; [|split; [|split; [|split; [|reflexivity]]]]]);
          reflexivity.
    - exists s, manager. repeat split; reflexivity. }
  destruct Hgoal as (s2 & m0 & Eh & Ec & Em & Ee & Ep & Erun).
  destruct (Htail m0 s2 Eh Ec Em Ee Ep) as (s' & manager' & k & E & R1 & R2 & R3 & R4 & R5 & R6).
  exists s', manager', k. rewrite Erun.
  split; [exact E|]. repeat (split; [assumption|]).
  split; [|assumption].
  intros He Hp. rewrite R4, R5, He, Hp.
  split; [now destruct (DeepEqual _ _)|].
  now destruct (DeepEqual (evt_ProduceBlacklist (cfg_Events event)) _).
Qed.

End Update_facts.

Section Delete_facts.
Context `{Host}.

(** X18: [RPCManagerDelete] changes nothing when the confirm value differs
    from the name or no manager has the name.  Otherwise the manager is
    removed from the map and every entry with its identifier is removed
    from the list of the configuration, the other entries keeping their
    order; this is done before saving, so it is done also when saving
    fails and the call is answered with status 500. *)
Theorem RPCManagerDelete_removes_manager (data : string) (s : Sandwich)
    (event : ConfirmEvent) :
  unmarshal_confirm data = inr event ->
  (cf_Confirm event <> cf_Manager event \/ sd_Managers s !! cf_Manager event = None ->
   exists text,
     RPCManagerDelete data s =
       Ok (RPC.mkResponse (RPC.BodyText text) false RPC.StatusBadRequest, false) s)
  /\ (cf_Confirm event = cf_Manager event ->
      is_Some (sd_Managers s !! cf_Manager event) ->
      valid_pointers s ->
      exists s',
        RPCManagerDelete data s =
          Ok (match SaveConfiguration_result (sd_calls s) with
              | Some e => (RPC.mkResponse (RPC.BodyError e) false
                             StatusInternalServerError, false)
              | None => (RPC.mkResponse RPC.BodyTrue true RPC.StatusOK, true)
              end) s'
        /\ sd_Managers s' = delete (cf_Manager event) (sd_Managers s)
        /\ sd_heap s' = sd_heap s
        /\ sc_Managers (sd_Configuration s') =
             List.filter
               (fun q => negb (String.eqb (identifier_at (sd_heap s) q) (cf_Manager event)))
               (sc_Managers (sd_Configuration s))
        /\ sd_saved s' =
             sd_saved s ++ [map (fun p => sd_heap s !! p)
                              (sc_Managers (sd_Configuration s'))]).
Proof.
  intros Hu. unfold RPCManagerDelete. rewrite Hu. split.
  - intros [Hc|Hm].
    + apply String.eqb_neq in Hc. rewrite Hc. cbn. eexists. reflexivity.
    + destruct (String.eqb _ _); cbn; [|eexists; reflexivity].
      unfold hbind, hget. rewrite Hm. eexists. reflexivity.
  - intros Hc [manager Hm] Hv. rewrite Hc, String.eqb_refl. cbn [negb].
    unfold hbind at 1, hget. rewrite Hm.
    unfold hbind at 1, set_manager, hmodify.
    unfold hbind at 1. unfold hbind at 1.
    unfold hbind at 1. cbn [sd_Configuration upd_Managers sc_Managers].
    rewrite remove_configuration_run by exact Hv.
    cbn [sd_heap upd_Managers]. hrun. eexists. split.
    { destruct (SaveConfiguration_result (sd_calls s)); reflexivity. }
    split; [apply delete_insert_eq|]. repeat split; reflexivity.
Qed.

End Delete_facts.

Section NewManager_facts.
Context `{Host}.

Lemma NewManager_run (p : nat) (c : ManagerConfiguration) (s : Sandwich) :
  sd_heap s !! p = Some c ->
  exists mg,
    NewManager p s =
      Ok (match snd (NormalizeConfiguration TrimSpace c) with
          | Some e => inl e
          | None => inr mg
          end)
         (upd_heap (fun h => <[p := fst (NormalizeConfiguration TrimSpace c)]> h) s)
    /\ m_ctx mg = Some false
    /\ m_Configuration mg = p
    /\ m_ProducerClient mg = None
    /\ m_StanClient mg = None
    /\ m_Gateway mg = zeroGateway
    /\ m_ShardGroups mg = ∅
    /\ m_ShardGroupIter mg = 0
    /\ m_EventBlacklist mg = Some []
    /\ m_ProduceBlacklist mg = Some [].
Proof.
  intros Hp. unfold NewManager.
  unfold hbind at 1, deref. rewrite Hp.
  unfold hbind at 1, hget.
  unfold hbind at 1, Manager_NormalizeConfiguration.
  unfold hbind at 1, deref. cbn [m_Configuration]. rewrite Hp.
  unfold hbind at 1, store, hmodify, hret.
  eexists. split.
  { destruct (snd (NormalizeConfiguration TrimSpace c)); reflexivity. }
  repeat split; reflexivity.
Qed.

Lemma remove_spaces_has_no_space (t : string) : has_space (remove_spaces t) = false.
Proof.
  induction t as [|a t IH]; [reflexivity|]. cbn.
  destruct (Ascii.eqb a _) eqn:E; [exact IH|]. cbn. now rewrite E.
Qed.

Lemma lookup_alloc (h : list ManagerConfiguration) (c : ManagerConfiguration) :
  (h ++ [c]) !! length h = Some c.
Proof. now apply list_lookup_middle. Qed.

Lemma insert_alloc (h : list ManagerConfiguration) (c c' : ManagerConfiguration) :
  <[length h := c']> (h ++ [c]) = h ++ [c'].
Proof.
  rewrite insert_app_r_alt by lia. now rewrite Nat.sub_diag.
Qed.

Lemma Normalize_created (event : RPCManagerCreateEvent) :
  snd (NormalizeConfiguration TrimSpace (created_configuration event)) = None
  <-> ce_Token event <> "" /\ ce_Client event <> "".
Proof.
  unfold NormalizeConfiguration, created_configuration. cbn.
  destruct (String.eqb_spec (ce_Token event) ""); cbn.
  - split; [discriminate|intros [? _]; contradiction].
  - destruct (String.eqb_spec (ce_Client event) ""); cbn.
    + split; [discriminate|intros [_ ?]; contradiction].
    + split; [now split|reflexivity].
Qed.

Lemma Normalize_Identifier (c : ManagerConfiguration) :
  cfg_Identifier (fst (NormalizeConfiguration TrimSpace c)) = cfg_Identifier c.
Proof.
  unfold NormalizeConfiguration.
  destruct (String.eqb _ _); [reflexivity|].
  cbn. repeat (match goal with |- context [if ?b then _ else _] => destruct b end; cbn);
    reflexivity.
Qed.

End NewManager_facts.

Section Restart_facts.
Context `{Host}.


End Restart_facts.

Section Create_facts.
Context `{Host}.

Lemma Manager_Open_returns (mg : Manager) (c : ManagerConfiguration) (s : Sandwich) :
  sd_heap s !! m_Configuration mg = Some c ->
  exists mg' err s',
    Manager_Open mg s = Ok (mg', err) s'
    /\ sd_heap s' = sd_heap s
    /\ sd_Configuration s' = sd_Configuration s
    /\ sd_Managers s' = sd_Managers s
    /\ sd_saved s' = sd_saved s.
Proof.
  intros Hp. unfold Manager_Open.
  cbv zeta.
  set (mg0 := with_Analytics _ _).
  assert (Hp' : sd_heap s !! m_Configuration mg0 = Some c)
    by (subst mg0; destruct (m_ctx mg); exact Hp).
  unfold hbind at 1, deref. rewrite Hp'.
  unfold hbind at 1, client_name.
  destruct (msg_UseRandomSuffix (cfg_Messaging c)).
  - unfold hbind at 1, tick. unfold hret at 1.
    unfold hbind at 1, hget. cbn [sd_Configuration upd_calls].
    destruct (NewMQClient _); [eexists _, _, _; split; [reflexivity|]; now repeat split|].
    unfold hbind at 1. cbn [sd_calls upd_calls].
    destruct (producer_Connect _);
      [eexists _, _, _; split; [reflexivity|]; now repeat split|].
    unfold hbind at 1, GetGateway. unfold hbind at 1. unfold hret.
    eexists _, _, _; split; [reflexivity|]; now repeat split.
  - unfold hret at 1.
    unfold hbind at 1, hget.
    destruct (NewMQClient _); [eexists _, _, _; split; [reflexivity|]; now repeat split|].
    unfold hbind at 1, tick.
    destruct (producer_Connect _);
      [eexists _, _, _; split; [reflexivity|]; now repeat split|].
    unfold hbind at 1, GetGateway. unfold hbind at 1. unfold hret.
    eexists _, _, _; split; [reflexivity|]; now repeat split.
Qed.

(** X17: [RPCManagerCreate] names the manager by the identifier with its
    spaces removed and refuses a name that is taken, changing nothing.
    For a new name the configuration is appended to the list of the
    daemon's configuration, and saved, before the manager is built: the
    entry stays when building fails.  The manager is in the map afterwards
    exactly when saving succeeded and neither the token nor the client
    name is empty; no other manager is touched. *)
Theorem RPCManagerCreate_registers (data : string) (s : Sandwich)
    (event : RPCManagerCreateEvent) :
  unmarshal_create data = inr event ->
  has_space (remove_spaces (ce_Identifier event)) = false
  /\ (is_Some (sd_Managers s !! remove_spaces (ce_Identifier event)) ->
      RPCManagerCreate data s =
        Ok (RPC.mkResponse (RPC.BodyText "Manager with this name already exists")
              false RPC.StatusBadRequest, false) s)
  /\ (sd_Managers s !! remove_spaces (ce_Identifier event) = None ->
      exists s' resp ok,
        RPCManagerCreate data s = Ok (resp, ok) s'
        /\ sc_Managers (sd_Configuration s') =
             sc_Managers (sd_Configuration s) ++ [length (sd_heap s)]
        /\ identifier_at (sd_heap s') (length (sd_heap s))
             = remove_spaces (ce_Identifier event)
        /\ (exists saved, sd_saved s' = sd_saved s ++ [saved]
              /\ last saved = Some (Some (created_configuration event)))
        /\ (is_Some (sd_Managers s' !! remove_spaces (ce_Identifier event))
            <-> SaveConfiguration_result (sd_calls s) = None
                /\ ce_Token event <> "" /\ ce_Client event <> "")
        /\ (ok = true -> is_Some (sd_Managers s' !! remove_spaces (ce_Identifier event)))
        /\ (forall name, name <> remove_spaces (ce_Identifier event) ->
              sd_Managers s' !! name = sd_Managers s !! name)).
Proof.
  intros Hu. split; [apply remove_spaces_has_no_space|].
  unfold RPCManagerCreate. rewrite Hu. cbn zeta.
  set (id := remove_spaces (ce_Identifier event)). split.
  - intros [m Hm]. unfold hbind, hget. now rewrite Hm.
  - intros Hm. unfold hbind at 1, hget. rewrite Hm.
    unfold hbind at 1, alloc.
    unfold hbind at 1, hmodify.
    unfold hbind at 1, SaveConfiguration.
    unfold hbind at 1, tick. unfold hbind at 1, hget. unfold hbind at 1, hmodify.
    unfold hret at 1.
    cbn [sd_calls sd_heap sd_Configuration sc_Managers sd_saved upd_calls upd_heap
         upd_Configuration upd_saved with_Managers].
    assert (Hsaved : last (map (fun p => (sd_heap s ++ [created_configuration event]) !! p)
                       (sc_Managers (sd_Configuration s) ++ [length (sd_heap s)]))
                     = Some (Some (created_configuration event))).
    { rewrite map_app. cbn. rewrite last_snoc. now rewrite lookup_alloc. }
    destruct (SaveConfiguration_result (sd_calls s)) as [e|] eqn:Esave.
    { eexists _, _, _. split; [reflexivity|]. cbn.
      split; [reflexivity|]. split.
      { unfold identifier_at. now rewrite lookup_alloc. }
      split; [eexists; split; [reflexivity|exact Hsaved]|].
      split.
      { rewrite Hm. split; [intros [? ?]; discriminate|intros [? _]; discriminate]. }
      split; [discriminate|]. reflexivity. }
    set (s1 := upd_saved _ _).
    assert (Hp1 : sd_heap s1 !! length (sd_heap s) = Some (created_configuration event))
      by apply lookup_alloc.
    destruct (NewManager_run _ _ _ Hp1)
      as (mg & E & Hctx & Hcfg & _).
    unfold hbind at 1. rewrite E.
    pose proof (Normalize_created event) as Hn.
    pose proof (Normalize_Identifier (created_configuration event)) as Hid.
    destruct (NormalizeConfiguration TrimSpace (created_configuration event))
      as [c' err]. cbn [fst snd] in *.
    assert (Hheap : sd_heap (upd_heap (fun h => <[length (sd_heap s) := c']> h) s1)
                    = sd_heap s ++ [c']) by apply insert_alloc.
    destruct err as [e|].
    { eexists _, _, _. split; [reflexivity|].
      split; [reflexivity|]. split.
      { unfold identifier_at. rewrite Hheap, lookup_alloc. exact Hid. }
      split; [eexists; split; [reflexivity|exact Hsaved]|].
      split.
      { cbn. rewrite Hm. split; [intros [? ?]; discriminate|].
        intros (_ & Ht & Hc). destruct Hn as [_ Hn]. now specialize (Hn (conj Ht Hc)). }
      split; [discriminate|]. reflexivity. }
    destruct Hn as [Hn _]. specialize (Hn eq_refl).
    set (s2 := upd_heap _ s1) in *.
    assert (Hp2 : sd_heap s2 !! length (sd_heap s) = Some c')
      by (rewrite Hheap; apply lookup_alloc).
    unfold hbind at 1, deref. rewrite Hp2.
    unfold hbind at 1, set_manager, hmodify.
    unfold hbind at 1, GetGateway. unfold hbind at 1, tick. unfold hret at 1.
    cbn [fst snd]. rewrite Hid.
    change (cfg_Identifier (created_configuration event)) with id.
    assert (Hrest : forall (M : gmap string Manager) m0 name,
              name <> id -> <[id := m0]> M !! name = M !! name)
      by (intros; now apply lookup_insert_ne).
    destruct (snd (FetchJSON_gateway _)) as [e|]; cbn [wrap_err].
    { eexists _, _, _. split; [reflexivity|].
      split; [reflexivity|]. split.
      { unfold identifier_at. cbn [sd_heap upd_calls upd_Managers].
        rewrite Hheap, lookup_alloc. exact Hid. }
      split; [eexists; split; [reflexivity|exact Hsaved]|].
      cbn. rewrite lookup_insert_eq.
      split; [split; [intros _; now split|eauto]|].
      split; [discriminate|]. intros; now apply Hrest. }
    unfold hbind at 1.
    set (s3 := upd_Managers _ (upd_calls _ (upd_Managers _ s2))).
    assert (Hp3 : sd_heap s3 !! m_Configuration (with_Gateway (fst (FetchJSON_gateway
                    (sd_calls (upd_Managers (fun m => <[id := mg]> m) s2)))) mg)
                  = Some c')
      by (cbn; rewrite Hcfg; exact Hp2).
    destruct (Manager_Open_returns _ _ _ Hp3) as (mg' & err & s4 & E4 & H4h & H4c & H4m & H4s).
    unfold hbind at 1. rewrite E4.
    unfold hbind at 1. cbn [fst snd].
    destruct err as [e|];
      (eexists _, _, _; split; [reflexivity|];
       cbn; rewrite ?H4h, ?H4c, ?H4m, ?H4s;
       split; [reflexivity|]; split;
       [unfold identifier_at; subst s3; cbn [sd_heap upd_calls upd_Managers];
        rewrite Hheap, lookup_alloc; exact Hid|];
       split; [eexists; split; [reflexivity|exact Hsaved]|];
       rewrite lookup_insert_eq;
       split; [split; [intros _; now split|eauto]|];
       split; [eauto|];
       intros name Hne; rewrite Hrest by exact Hne; subst s3; cbn;
       rewrite !Hrest by exact Hne; reflexivity).
Qed.

End Create_facts.

Section Open_facts.
Context `{Host}.

(** X13: [Manager.Open] first creates the context when there is none
    and replaces the analytics accumulator.  When the producer client
    cannot be created nothing else is changed.  When it cannot be
    connected the one further change is that the manager holds the
    unconnected client; blacklists and gateway stay as they were.
    Otherwise the client is connected, the live blacklists are those of
    the configuration, and the gateway is replaced by the decoded reply,
    also when fetching it failed; the error returned is that of the
    fetch.  So nil is returned only after the producer was created and
    connected and the gateway fetched. *)
Theorem Manager_Open_result (mg : Manager) (c : ManagerConfiguration) (s : Sandwich) :
  sd_heap s !! m_Configuration mg = Some c ->
  let type := sc_ProducerType (sd_Configuration s) in
  let mg0 := with_Analytics (S (m_Analytics mg))
               (match m_ctx mg with
                | None => with_ctx (Some false) mg
                | Some _ => mg
                end) in
  exists mg' err s',
    Manager_Open mg s = Ok (mg', err) s'
    /\ match NewMQClient type with
       | Some e =>
           err = Some (Wrapf "manager open producer create" e)
           /\ mg' = mg0
       | None =>
           (exists e k,
              producer_Connect k = Some e
              /\ err = Some (Wrapf "manager open producer connect" e)
              /\ mg' = with_ProducerClient (Some (mkProducer type None)) mg0)
           \/ (exists name k n,
                 producer_Connect k = None
                 /\ (msg_UseRandomSuffix (cfg_Messaging c) = false ->
                     name = msg_ClientName (cfg_Messaging c))
                 /\ mg' =
                      with_Gateway (fst (FetchJSON_gateway n))
                        (with_ProduceBlacklist (evt_ProduceBlacklist (cfg_Events c))
                           (with_EventBlacklist (evt_EventBlacklist (cfg_Events c))
                              (with_ProducerClient
                                 (Some (mkProducer type (Some name))) mg0)))
                 /\ err = wrap_err "get gateway fetchjson" (snd (FetchJSON_gateway n)))
       end.
Proof.
  intros Hp type mg0. subst type mg0. unfold Manager_Open. cbv zeta.
  replace (m_Analytics match m_ctx mg with
                       | Some _ => mg
                       | None => with_ctx (Some false) mg
                       end) with (m_Analytics mg) by (now destruct (m_ctx mg)).
  set (mg0 := with_Analytics _ _).
  assert (Hp' : sd_heap s !! m_Configuration mg0 = Some c)
    by (subst mg0; destruct (m_ctx mg); exact Hp).
  unfold hbind at 1, deref. rewrite Hp'.
  unfold hbind at 1, client_name.
  destruct (msg_UseRandomSuffix (cfg_Messaging c)).
  - unfold hbind at 1, tick. unfold hret at 1.
    unfold hbind at 1, hget. cbn [sd_Configuration upd_calls].
    destruct (NewMQClient _).
    { eexists _, _, _; split; [reflexivity|]. now split. }
    unfold hbind at 1. cbn [sd_calls upd_calls].
    destruct (producer_Connect _) eqn:Ec.
    { eexists _, _, _; split; [reflexivity|]. left. eexists _, _.
      split; [exact Ec|]. now split. }
    unfold hbind at 1, GetGateway. unfold hbind at 1. unfold hret.
    eexists _, _, _; split; [reflexivity|]. right. eexists _, _, _.
    split; [exact Ec|]. split; [discriminate|]. split; reflexivity.
  - unfold hret at 1.
    unfold hbind at 1, hget.
    destruct (NewMQClient _).
    { eexists _, _, _; split; [reflexivity|]. now split. }
    unfold hbind at 1, tick.
    destruct (producer_Connect _) eqn:Ec.
    { eexists _, _, _; split; [reflexivity|]. left. eexists _, _.
      split; [exact Ec|]. now split. }
    unfold hbind at 1, GetGateway. unfold hbind at 1. unfold hret.
    eexists _, _, _; split; [reflexivity|]. right. eexists _, _, _.
    split; [exact Ec|]. split; [reflexivity|]. split; reflexivity.
Qed.

End Open_facts.

Section ShardGroupDelete_facts.
Context `{Host}.

(** X15: [RPCManagerShardGroupDelete] deletes a shard group only when it is
    Closed.  It returns true exactly when the request names a manager and
    one of its shard groups and that group is Closed; then that group, and
    nothing else, is removed.  In every other case the daemon is left as
    it was and the call is answered with status 400. *)
Theorem RPCManagerShardGroupDelete_only_closed (data : string) (s : Sandwich) :
  exists resp ok s',
    RPCManagerShardGroupDelete data s = Ok (resp, ok) s'
    /\ (ok = true <->
        exists event manager,
          unmarshal_shardgroup data = inr event
          /\ sd_Managers s !! ge_Manager event = Some manager
          /\ m_ShardGroups manager !! ge_ShardGroup event = Some ShardGroupClosed)
    /\ (ok = false -> s' = s /\ RPC.resp_status resp = RPC.StatusBadRequest
                      /\ RPC.resp_success resp = false)
    /\ (forall event manager,
          ok = true ->
          unmarshal_shardgroup data = inr event ->
          sd_Managers s !! ge_Manager event = Some manager ->
          s' = upd_Managers
                 (fun m => <[ge_Manager event :=
                               with_ShardGroups
                                 (delete (ge_ShardGroup event) (m_ShardGroups manager))
                                 manager]> m) s).
Proof.
  unfold RPCManagerShardGroupDelete.
  destruct (unmarshal_shardgroup data) as [e|event] eqn:Hu.
  { eexists _, _, _. split; [reflexivity|]. split.
    - split; [discriminate|]. intros (? & ? & ? & _). discriminate.
    - split; [now repeat split|discriminate]. }
  unfold hbind at 1, hget.
  destruct (sd_Managers s !! ge_Manager event) as [manager|] eqn:Hm.
  2:{ eexists _, _, _. split; [reflexivity|]. split.
      - split; [discriminate|]. intros (ev & ? & Hev & Hm' & _).
        injection Hev as <-. rewrite Hm in Hm'. discriminate.
      - split; [now repeat split|discriminate]. }
  destruct (m_ShardGroups manager !! ge_ShardGroup event) as [status|] eqn:Hg.
  2:{ eexists _, _, _. split; [reflexivity|]. split.
      - split; [discriminate|]. intros (ev & mg & Hev & Hm' & Hg').
        injection Hev as <-. rewrite Hm in Hm'. injection Hm' as <-.
        rewrite Hg in Hg'. discriminate.
      - split; [now repeat split|discriminate]. }
  destruct status.
  all: try (eexists _, _, _; split; [reflexivity|]; split;
            [split; [discriminate|]; intros (ev & mg & Hev & Hm' & Hg');
             injection Hev as <-; rewrite Hm in Hm'; injection Hm' as <-;
             rewrite Hg in Hg'; discriminate
            |split; [now repeat split|discriminate]]).
  eexists _, _, _. split; [reflexivity|]. split.
  - split; [intros _; now exists event, manager|reflexivity].
  - split; [discriminate|].
    intros ev mg _ Hev Hm'. injection Hev as <-. rewrite Hm in Hm'.
    now injection Hm' as <-.
Qed.

End ShardGroupDelete_facts.

Section Normalize_blank.
Import Daemon.
Variable TrimSpace : string -> string.

(** X12: a token that is not empty but trims to the empty string passes
    [NormalizeConfiguration], which stores the empty token; normalising
    the result again, as a restart of the manager does, fails for the
    missing token. *)
Theorem NormalizeConfiguration_blank_token (c : ManagerConfiguration) :
  cfg_Token c <> "" ->
  TrimSpace (cfg_Token c) = "" ->
  msg_ClientName (cfg_Messaging c) <> "" ->
  snd (NormalizeConfiguration TrimSpace c) = None
  /\ cfg_Token (fst (NormalizeConfiguration TrimSpace c)) = ""
  /\ snd (NormalizeConfiguration TrimSpace (fst (NormalizeConfiguration TrimSpace c)))
     = Some (ErrorString "Manager configuration missing token").
Proof.
  intros Ht Hs Hc.
  destruct c as [au pe id dn tk [dp co gs rt it lt mh] ca ev [cn ch rs] sh].
  cbn in Ht, Hs, Hc. apply String.eqb_neq in Ht, Hc.
  unfold NormalizeConfiguration. cbn. rewrite Ht. cbn.
  destruct (mh <? 1); cbn; destruct (rt <? 1); cbn; rewrite Hc; cbn; rewrite Hs;
    repeat split; reflexivity.
Qed.

End Normalize_blank.

Section Scale_facts.

Lemma wrap32_small (z : Z) : - 2 ^ 31 <= z < 2 ^ 31 -> wrap32 z = z.
Proof.
  intros Hz. unfold wrap32, wrap.
  change (2 ^ (32 - 1)) with (2 ^ 31). rewrite Z.mod_small; lia.
Qed.

(** X14: [Scale] never reuses the number of a shard group.  While the
    groups of a manager are registered below its counter and the counter
    has not reached the end of [int32], the new group gets the number of
    the counter, under which nothing was registered; every other group
    stays as it was, the counter goes up by one, and the groups are again
    registered below it.  Removing a group keeps that, so a number is not
    given out again after its group was deleted. *)
Theorem Scale_never_reuses_a_number (mg : RPC.ManagerState) (shardIDs : list Z)
    (shardCount : Z) (start : bool) :
  registered_below mg ->
  0 <= RPC.ms_ShardGroupIter mg < 2 ^ 31 - 1 ->
  let mg' := fst (RPC.Scale mg shardIDs shardCount start) in
  RPC.ms_ShardGroups mg !! RPC.ms_ShardGroupIter mg = None
  /\ (exists plan,
        RPC.ms_ShardGroups mg' !! RPC.ms_ShardGroupIter mg = Some plan
        /\ RPC.plan_ShardIDs plan = shardIDs
        /\ RPC.plan_ShardCount plan = shardCount)
  /\ (forall k, k <> RPC.ms_ShardGroupIter mg ->
        RPC.ms_ShardGroups mg' !! k = RPC.ms_ShardGroups mg !! k)
  /\ RPC.ms_ShardGroupIter mg' = RPC.ms_ShardGroupIter mg + 1
  /\ registered_below mg'
  /\ (forall k,
        registered_below
          (RPC.mkManagerState (RPC.ms_Gateway mg') (RPC.ms_ShardGroupIter mg')
             (delete k (RPC.ms_ShardGroups mg')))).
Proof.
  intros Hb Hi mg'. subst mg'. unfold RPC.Scale. cbn [fst].
  rewrite (wrap32_small (RPC.ms_ShardGroupIter mg + 1)) by lia.
  replace (RPC.ms_ShardGroupIter mg + 1 - 1) with (RPC.ms_ShardGroupIter mg) by lia.
  rewrite (wrap32_small (RPC.ms_ShardGroupIter mg)) by lia.
  cbn [RPC.ms_ShardGroups RPC.ms_ShardGroupIter RPC.ms_Gateway].
  assert (Hnew : registered_below
            (RPC.mkManagerState (RPC.ms_Gateway mg) (RPC.ms_ShardGroupIter mg + 1)
               (<[RPC.ms_ShardGroupIter mg :=
                    RPC.mkGroupPlan shardIDs shardCount
                      (if start
                       then Some (RPC.ShardGroup_Open (RPC.ms_Gateway mg) shardIDs)
                       else None)]> (RPC.ms_ShardGroups mg)))).
  { intros k. cbn. destruct (decide (k = RPC.ms_ShardGroupIter mg)) as [->|Hk].
    - intros _. lia.
    - rewrite lookup_insert_ne by congruence. intros Hs. specialize (Hb k Hs). lia. }
  split.
  { destruct (RPC.ms_ShardGroups mg !! RPC.ms_ShardGroupIter mg) eqn:E; [|reflexivity].
    specialize (Hb _ (ex_intro _ _ E)). lia. }
  split; [eexists; rewrite lookup_insert_eq; now repeat split|].
  split; [intros k Hk; now rewrite lookup_insert_ne by congruence|].
  split; [reflexivity|]. split; [exact Hnew|].
  intros k j. cbn. destruct (decide (k = j)) as [->|Hk].
  - rewrite lookup_delete_eq. intros [? ?]; discriminate.
  - rewrite lookup_delete_ne by congruence. apply Hnew.
Qed.

End Scale_facts.

Section Session_facts.
Import Daemon.
Variable unmarshal_user : string -> option DiscordUser * option error.
Variable ID_String : Z -> string.

Lemma elevated_In (users : list string) (u : DiscordUser) :
  exists auth,
    elevated ID_String users (Some u) = Some auth
    /\ (auth = true <-> In (ID_String (du_ID u)) users).
Proof.
  induction users as [|userID rest (auth & E & IH)]; cbn.
  - exists false. split; [reflexivity|]. split; [discriminate|contradiction].
  - destruct (String.eqb_spec userID (ID_String (du_ID u))) as [->|Hne].
    + exists true. split; [reflexivity|]. split; [now left|reflexivity].
    + exists auth. split; [exact E|]. rewrite IH. split; [now right|].
      intros [Heq|Hin]; [contradiction|exact Hin].
Qed.

(** X20: [AuthenticateSession] refuses a session that holds no user even
    when [HTTP.Public] is set.  For a session whose user decodes it
    accepts exactly when the daemon is public or the id of the user,
    written out, is among the elevated users.  When the stored user
    decodes to nil without an error, a public daemon accepts it, and one
    that is not public and has an elevated user panics on the nil
    user. *)
Theorem AuthenticateSession_accepts (configuration : SandwichConfiguration) :
  AuthenticateSession unmarshal_user ID_String configuration None = Some (false, None)
  /\ (forall userBody u,
        unmarshal_user userBody = (Some u, None) ->
        exists auth,
          AuthenticateSession unmarshal_user ID_String configuration (Some userBody)
            = Some (auth, Some u)
          /\ (auth = true <->
              sc_Public configuration = true
              \/ In (ID_String (du_ID u)) (sc_ElevatedUsers configuration)))
  /\ (forall userBody,
        unmarshal_user userBody = (None, None) ->
        AuthenticateSession unmarshal_user ID_String configuration (Some userBody)
          = if sc_Public configuration then Some (true, None)
            else match sc_ElevatedUsers configuration with
                 | [] => Some (false, None)
                 | _ :: _ => None
                 end).
Proof.
  split; [reflexivity|]. split.
  - intros userBody u Hu. unfold AuthenticateSession. rewrite Hu. cbn [fst snd].
    destruct (sc_Public configuration).
    + exists true. split; [reflexivity|]. split; [now left|reflexivity].
    + destruct (elevated_In (sc_ElevatedUsers configuration) u) as (auth & E & IH).
      rewrite E. exists auth. split; [reflexivity|]. rewrite IH.
      split; [now right|]. intros [?|?]; [discriminate|assumption].
  - intros userBody Hu. unfold AuthenticateSession. rewrite Hu. cbn [fst snd].
    destruct (sc_Public configuration); [reflexivity|].
    now destruct (sc_ElevatedUsers configuration).
Qed.

End Session_facts.

Lemma RPCManagerUpdate_installs_old_blacklists_witness :
  exists s' manager',
    Daemon.sd_Managers s' !! "welcomer" = Some manager'
    /\ Daemon.m_EventBlacklist manager' = Some ["TYPING_START"]
    /\ Daemon.m_ProduceBlacklist manager' = Some ["PRESENCE_UPDATE"]
    /\ Daemon.cl_Token (Daemon.m_Client manager') = "token2"
    /\ Daemon.sd_heap s' !! Daemon.m_Configuration manager' = Some DaemonCases.configuration1.
Proof.
  assert (valid_pointers_daemon0 : Daemon.valid_pointers DaemonCases.daemon0)
    by (repeat constructor; eexists; reflexivity).
  destruct (@RPCManagerUpdate_installs_old_blacklists DaemonCases.host_no_save "welcomer"
              DaemonCases.daemon0 DaemonCases.configuration1 DaemonCases.configuration0
              DaemonCases.manager0 eq_refl eq_refl eq_refl valid_pointers_daemon0)
    as (s' & manager' & k & _ & HM & Hc & Ht & He & Hp & _).
  exists s', manager'. rewrite HM, lookup_insert_eq, He, Hp, Ht, Hc.
  repeat split; reflexivity.
Defined.

Lemma RPCManagerDelete_removes_manager_witness :
  (exists text,
     @Daemon.RPCManagerDelete DaemonCases.host0 "goodbye" DaemonCases.daemon0 =
       Daemon.Ok (RPC.mkResponse (RPC.BodyText text) false RPC.StatusBadRequest, false)
         DaemonCases.daemon0)
  /\ exists s',
       @Daemon.RPCManagerDelete DaemonCases.host_no_save "welcomer" DaemonCases.daemon0 =
         Daemon.Ok (RPC.mkResponse (RPC.BodyError (ErrorString "no space left on device"))
                      false Daemon.StatusInternalServerError, false) s'
       /\ Daemon.sd_Managers s' !! "welcomer" = None
       /\ Daemon.sc_Managers (Daemon.sd_Configuration s') = [].
Proof.
  assert (valid_pointers_daemon0 : Daemon.valid_pointers DaemonCases.daemon0)
    by (repeat constructor; eexists; reflexivity).
  split.
  - apply (proj1 (@RPCManagerDelete_removes_manager DaemonCases.host0 "goodbye"
                    DaemonCases.daemon0 (Daemon.mkConfirmEvent "goodbye" "goodbye")
                    eq_refl)).
    right. reflexivity.
  - destruct (proj2 (@RPCManagerDelete_removes_manager DaemonCases.host_no_save "welcomer"
                       DaemonCases.daemon0 (Daemon.mkConfirmEvent "welcomer" "welcomer")
                       eq_refl) eq_refl (ex_intro _ DaemonCases.manager0 eq_refl)
                valid_pointers_daemon0)
      as (s' & E & HM & _ & Hl & _).
    exists s'. split; [exact E|]. rewrite HM, Hl.
    split; [apply lookup_delete_eq|reflexivity].
Defined.


Lemma RPCManagerCreate_registers_witness :
  (exists s' resp ok,
     @Daemon.RPCManagerCreate DaemonCases.host0 "my bot" DaemonCases.daemon0
       = Daemon.Ok (resp, ok) s'
     /\ is_Some (Daemon.sd_Managers s' !! "mybot")
     /\ Daemon.sc_Managers (Daemon.sd_Configuration s') = [0%nat; 1%nat])
  /\ (exists s' resp ok,
        @Daemon.RPCManagerCreate DaemonCases.host_no_save "my bot" DaemonCases.daemon0
          = Daemon.Ok (resp, ok) s'
        /\ ~ is_Some (Daemon.sd_Managers s' !! "mybot")
        /\ Daemon.sc_Managers (Daemon.sd_Configuration s') = [0%nat; 1%nat])
  /\ @Daemon.RPCManagerCreate DaemonCases.host0 "wel comer" DaemonCases.daemon0 =
       Daemon.Ok (RPC.mkResponse (RPC.BodyText "Manager with this name already exists")
                    false RPC.StatusBadRequest, false) DaemonCases.daemon0.
Proof.
  split; [|split].
  - destruct (proj2 (proj2 (@RPCManagerCreate_registers DaemonCases.host0 "my bot"
                DaemonCases.daemon0
                (Daemon.mkManagerCreateEvent "my bot" true "token" "" "sandwich" "sandwich")
                eq_refl)) eq_refl)
      as (s' & resp & ok & E & Hl & _ & _ & Hiff & _).
    exists s', resp, ok. split; [exact E|]. split; [|exact Hl].
    apply Hiff. repeat split; discriminate.
  - destruct (proj2 (proj2 (@RPCManagerCreate_registers DaemonCases.host_no_save "my bot"
                DaemonCases.daemon0
                (Daemon.mkManagerCreateEvent "my bot" true "token" "" "sandwich" "sandwich")
                eq_refl)) eq_refl)
      as (s' & resp & ok & E & Hl & _ & _ & Hiff & _).
    exists s', resp, ok. split; [exact E|]. split; [|exact Hl].
    intros Hs. apply Hiff in Hs. destruct Hs as [Hs _]. discriminate Hs.
  - apply (proj1 (proj2 (@RPCManagerCreate_registers DaemonCases.host0 "wel comer"
                DaemonCases.daemon0
                (Daemon.mkManagerCreateEvent "wel comer" true "token" "" "sandwich"
                   "sandwich")
                eq_refl))).
    exists DaemonCases.manager0. reflexivity.
Defined.

Lemma Manager_Open_result_witness :
  (exists mg' s',
     @Daemon.Manager_Open DaemonCases.host0 DaemonCases.manager_new DaemonCases.daemon0
       = Daemon.Ok (mg', None) s'
     /\ Daemon.m_EventBlacklist mg' = Some ["TYPING_START"]
     /\ Daemon.m_ProducerClient mg' = Some (Daemon.mkProducer "stan" (Some "sandwich"))
     /\ Daemon.m_Analytics mg' = 1%nat)
  /\ (exists mg' s',
        @Daemon.Manager_Open DaemonCases.host_no_connect DaemonCases.manager_new
          DaemonCases.daemon0
          = Daemon.Ok (mg', Some (Wrapf "manager open producer connect"
                                    (ErrorString "connection refused"))) s'
        /\ Daemon.m_EventBlacklist mg' = Some []
        /\ Daemon.m_ProducerClient mg' = Some (Daemon.mkProducer "stan" None)
        /\ Daemon.m_Analytics mg' = 1%nat).
Proof.
  split.
  - destruct (@Manager_Open_result DaemonCases.host0 DaemonCases.manager_new
                DaemonCases.configuration0 DaemonCases.daemon0 eq_refl)
      as (mg' & err & s' & E & R).
    cbn in R. destruct R as [(e & k & Hc & _)|(name & k & n & _ & Hn & Hm & Herr)].
    + discriminate Hc.
    + exists mg', s'. rewrite E, Herr, Hm, (Hn eq_refl). repeat split; reflexivity.
  - destruct (@Manager_Open_result DaemonCases.host_no_connect DaemonCases.manager_new
                DaemonCases.configuration0 DaemonCases.daemon0 eq_refl)
      as (mg' & err & s' & E & R).
    cbn in R. destruct R as [(e & k & Hc & He & Hm)|(name & k & n & Hc & _)].
    + injection Hc as <-. exists mg', s'. rewrite E, He, Hm. repeat split; reflexivity.
    + discriminate Hc.
Defined.

Lemma RPCManagerShardGroupDelete_only_closed_witness :
  exists resp s',
    @Daemon.RPCManagerShardGroupDelete DaemonCases.host0 "welcomer" DaemonCases.daemon0
      = Daemon.Ok (resp, false) s'
    /\ s' = DaemonCases.daemon0.
Proof.
  destruct (@RPCManagerShardGroupDelete_only_closed DaemonCases.host0 "welcomer"
              DaemonCases.daemon0) as (resp & ok & s' & E & Hiff & Hfalse & _).
  destruct ok.
  - destruct (proj1 Hiff eq_refl) as (event & manager & Hu & Hm & Hg).
    injection Hu as <-. injection Hm as <-. discriminate Hg.
  - exists resp, s'. split; [exact E|]. now destruct (Hfalse eq_refl).
Defined.

Lemma NormalizeConfiguration_blank_token_witness :
  snd (Daemon.NormalizeConfiguration DaemonCases.trim_space DaemonCases.configuration_blank)
    = None
  /\ snd (Daemon.NormalizeConfiguration DaemonCases.trim_space
            (fst (Daemon.NormalizeConfiguration DaemonCases.trim_space
                    DaemonCases.configuration_blank)))
     = Some (ErrorString "Manager configuration missing token").
Proof.
  destruct (NormalizeConfiguration_blank_token DaemonCases.trim_space
              DaemonCases.configuration_blank) as (H1 & _ & H2);
    [discriminate|reflexivity|discriminate|].
  split; [exact H1|exact H2].
Defined.

Lemma Scale_never_reuses_a_number_witness :
  RPC.ms_ShardGroups
    (fst (RPC.Scale (RPC.mkManagerState (RPC.mkGatewayBot 2 1000) 1
                       (<[0 := RPC.mkGroupPlan [0] 1 None]> ∅)) [0; 1] 2 false)) !! 0
  = Some (RPC.mkGroupPlan [0] 1 None)
  /\ RPC.ms_ShardGroupIter
       (fst (RPC.Scale (RPC.mkManagerState (RPC.mkGatewayBot 2 1000) 1
                          (<[0 := RPC.mkGroupPlan [0] 1 None]> ∅)) [0; 1] 2 false)) = 2.
Proof.
  assert (Hb : registered_below
                 (RPC.mkManagerState (RPC.mkGatewayBot 2 1000) 1
                    (<[0 := RPC.mkGroupPlan [0] 1 None]> ∅))).
  { intros k. cbn. destruct (decide (k = 0)) as [->|Hk]; [lia|].
    rewrite lookup_insert_ne by congruence. rewrite lookup_empty.
    intros [? ?]; discriminate. }
  destruct (Scale_never_reuses_a_number _ [0; 1] 2 false Hb) as (_ & _ & Hk & Hi & _).
  { cbn. lia. }
  split; [|exact Hi]. rewrite Hk by discriminate. reflexivity.
Defined.

Lemma AuthenticateSession_accepts_witness :
  Daemon.AuthenticateSession DaemonCases.unmarshal_user itoa
    (Daemon.with_Managers [] (Daemon.mkSandwichConfiguration [] "" "" "" true []))
    None = Some (false, None)
  /\ Daemon.AuthenticateSession DaemonCases.unmarshal_user itoa
       (Daemon.sd_Configuration DaemonCases.daemon0) (Some "null") = None.
Proof.
  split.
  - apply (proj1 (AuthenticateSession_accepts DaemonCases.unmarshal_user itoa _)).
  - apply (proj2 (proj2 (AuthenticateSession_accepts DaemonCases.unmarshal_user itoa
                           (Daemon.sd_Configuration DaemonCases.daemon0))) "null").
    reflexivity.
Defined.
